(** * Data_Quality.py: the booking data quality audit

    A shallow embedding of [analyze_data_quality] (src/code/Data_Quality.py).
    The audit is one Python function that loads a table with pandas, runs
    nine checks over it and prints what it finds.  Here

    - a pandas [DataFrame] is an ordered list of named, typed columns;
    - numbers are the machine numbers pandas stores: [int64] as [Z] with
      wrap-around, [float64] as the binary64 floats of [PrimFloat];
    - every [print] is a [Finding] appended to the console log;
    - Python exceptions, the console and the local variable [df] are threaded
      through a small state-and-exception monad [M], so that [try]/[except]
      and the assignments [df[...] = ...] keep their meaning.

    The file loader ([pd.read_csv]) is outside the model: the audit starts
    from the loaded frame. *)

From Stdlib Require Import String Ascii ZArith Bool Lia Floats Uint63.
From Stdlib Require Import List Permutation.
Import ListNotations.

Set Warnings "-inexact-float".
Local Open Scope string_scope.
Local Open Scope list_scope.

(** ** Python exceptions *)

Inductive exn : Type :=
| TypeError
| ValueError
| KeyError
| IndexError
| ZeroDivisionError.

(** The outcome of a Python expression: a value, or a raised exception. *)
Inductive result (A : Type) : Type :=
| Ok (a : A)
| Raise (e : exn).
Arguments Ok {A} a.
Arguments Raise {A} e.

Definition rbind {A B} (r : result A) (k : A -> result B) : result B :=
  match r with
  | Ok a => k a
  | Raise e => Raise e
  end.

(** ** Numbers *)

Module Num.

Definition int64_min : Z := - 2 ^ 63.
Definition int64_max : Z := 2 ^ 63 - 1.

(** Two's complement wrap-around of numpy's [int64] arithmetic. *)
Definition wrap64 (z : Z) : Z := (z + 2 ^ 63) mod 2 ^ 64 - 2 ^ 63.

(** Conversion of an [int64] to [float64] (round to nearest). *)
Definition float_of_Z (z : Z) : float :=
  if (z =? int64_min)%Z then (- (of_uint63 (Uint63.of_Z (2 ^ 62)) * 2))%float
  else if (z <? 0)%Z then (- of_uint63 (Uint63.of_Z (- z)))%float
  else of_uint63 (Uint63.of_Z z).

Definition float_of_nat (n : nat) : float := float_of_Z (Z.of_nat n).

(** [a / b] on two Python [int]s: true division, [ZeroDivisionError] when
    the divisor is zero. *)
Definition py_int_div (a b : nat) : result float :=
  match b with
  | O => Raise ZeroDivisionError
  | _ => Ok (float_of_nat a / float_of_nat b)%float
  end.

(** [a / b] where [a] is a numpy integer scalar (the result of [.sum()]):
    numpy divides in float64 and follows IEEE 754, so a zero divisor gives
    [nan] or an infinity (with a warning), never an exception. *)
Definition np_int_div (a b : nat) : float :=
  (float_of_nat a / float_of_nat b)%float.

(** A numeric scalar of an [int64] or [float64] column. *)
Inductive t : Type :=
| NInt (z : Z)
| NFloat (f : float).

Definition to_float (x : t) : float :=
  match x with
  | NInt z => float_of_Z z
  | NFloat f => f
  end.

(** Element-wise [+] and [-]: two integers stay [int64]; as soon as one
    side is a float both are taken to [float64]. *)
Definition add (x y : t) : t :=
  match x, y with
  | NInt a, NInt b => NInt (wrap64 (a + b))
  | _, _ => NFloat (to_float x + to_float y)
  end.

Definition sub (x y : t) : t :=
  match x, y with
  | NInt a, NInt b => NInt (wrap64 (a - b))
  | _, _ => NFloat (to_float x - to_float y)
  end.

Definition abs (x : t) : t :=
  match x with
  | NInt a => NInt (wrap64 (Z.abs a))
  | NFloat f => NFloat (PrimFloat.abs f)
  end.

(** [x > c] for a float constant [c]; false on [nan]. *)
Definition gtb (x : t) (c : float) : bool := (c <? to_float x)%float.
Definition ltb (x : t) (c : float) : bool := (to_float x <? c)%float.
Definition is_zero (x : t) : bool := (to_float x =? 0)%float.

End Num.

(** ** Equality of values as pandas' hash tables see it

    [duplicated], [unique] and [nunique] compare float64 values with
    [a == b or (isnan(a) and isnan(b))]: all missing values are equal to one
    another and [0.0] equals [-0.0]. *)

Definition float_same (x y : float) : bool :=
  (x =? y)%float || (is_nan x && is_nan y).

Definition sf_canon (a : spec_float) : spec_float :=
  match a with
  | S754_zero _ => S754_zero false
  | _ => a
  end.

(** One cell of a table. *)
Inductive Cell : Type :=
| CInt (z : Z)
| CFloat (f : float)
| CBool (b : bool)
| CStr (s : string)
| CNull.

Definition cell_eqb (a b : Cell) : bool :=
  match a, b with
  | CInt x, CInt y => (x =? y)%Z
  | CFloat x, CFloat y => float_same x y
  | CBool x, CBool y => Bool.eqb x y
  | CStr x, CStr y => String.eqb x y
  | CNull, CNull => true
  | _, _ => false
  end.

Definition Row : Type := list Cell.

Fixpoint row_eqb (r1 r2 : Row) : bool :=
  match r1, r2 with
  | [], [] => true
  | a :: r1', b :: r2' => cell_eqb a b && row_eqb r1' r2'
  | _, _ => false
  end.

(** ** Marking duplicates

    [duplicated(keep='first')]: an entry is marked when an equal entry
    occurs before it.  [seen] holds the entries met so far. *)

Section Duplicated.

Context {A : Type} (same : A -> A -> bool).

Definition seen_before (x : A) (seen : list A) : bool := existsb (same x) seen.

Fixpoint duplicated_from (seen l : list A) : list bool :=
  match l with
  | [] => []
  | x :: l' => seen_before x seen :: duplicated_from (x :: seen) l'
  end.

Definition duplicated (l : list A) : list bool := duplicated_from [] l.

(** [.sum()] of a boolean vector. *)
Definition count_true (bs : list bool) : nat := length (filter (fun b => b) bs).

(** [unique()]: the distinct entries, in order of first appearance. *)
Fixpoint unique (l : list A) : list A :=
  match l with
  | [] => []
  | x :: l' => x :: filter (fun y => negb (same y x)) (unique l')
  end.

(** Number of occurrences of [v]. *)
Definition occurrences (v : A) (l : list A) : nat :=
  length (filter (fun x => same x v) l).

(** Number of occurrences of [v] that are marked as duplicates. *)
Definition marked_occurrences (v : A) (l : list A) : nat :=
  length (filter (fun p => same (fst p) v && snd p) (combine l (duplicated l))).

End Duplicated.

(** ** Python strings

    Text is modelled as ASCII strings: [str.lower] touches the letters
    [A]-[Z] only and [str.strip] removes the ASCII white space Python
    recognises (tab to carriage return, the four separators 28-31, space). *)

Module PyStr.

Definition lower_char (c : ascii) : ascii :=
  let n := nat_of_ascii c in
  if (65 <=? n)%nat && (n <=? 90)%nat then ascii_of_nat (n + 32) else c.

Fixpoint lower (s : string) : string :=
  match s with
  | EmptyString => EmptyString
  | String c r => String (lower_char c) (lower r)
  end.

Definition is_space (c : ascii) : bool :=
  let n := nat_of_ascii c in
  ((9 <=? n)%nat && (n <=? 13)%nat) || ((28 <=? n)%nat && (n <=? 32)%nat).

Fixpoint lstrip (s : string) : string :=
  match s with
  | EmptyString => EmptyString
  | String c r => if is_space c then lstrip r else s
  end.

Fixpoint rstrip (s : string) : string :=
  match s with
  | EmptyString => EmptyString
  | String c r =>
      match rstrip r with
      | EmptyString => if is_space c then EmptyString else String c EmptyString
      | r' => String c r'
      end
  end.

Definition strip (s : string) : string := rstrip (lstrip s).

(** [sub in s] *)
Fixpoint contains (sub s : string) : bool :=
  String.prefix sub s ||
  match s with
  | EmptyString => false
  | String _ r => contains sub r
  end.

(** [s.replace(c, '')] for a one-character [c], read literally. *)
Fixpoint remove_char (c : ascii) (s : string) : string :=
  match s with
  | EmptyString => EmptyString
  | String d r => if Ascii.eqb c d then remove_char c r else String d (remove_char c r)
  end.

(** [any(keyword in name.lower() for keyword in keywords)] *)
Definition any_keyword (keywords : list string) (name : string) : bool :=
  existsb (fun k => contains k (lower name)) keywords.

End PyStr.

(** ** Series and frames

    [pd.read_csv] gives every column one of four dtypes: [int64], [float64]
    (missing values are [nan]), [bool], or [object] (text, a missing value is
    [None] here). *)

Inductive Dtype : Type := int64 | float64 | bool_ | object.

Inductive Series : Type :=
| Int64 (v : list Z)
| Float64 (v : list float)
| Boolean (v : list bool)
| Object (v : list (option string)).

Definition DataFrame : Type := list (string * Series).

Module Ser.

Definition dtype (s : Series) : Dtype :=
  match s with
  | Int64 _ => int64
  | Float64 _ => float64
  | Boolean _ => bool_
  | Object _ => object
  end.

Definition len (s : Series) : nat :=
  match s with
  | Int64 v => length v
  | Float64 v => length v
  | Boolean v => length v
  | Object v => length v
  end.

Definition cells (s : Series) : list Cell :=
  match s with
  | Int64 v => map CInt v
  | Float64 v => map CFloat v
  | Boolean v => map CBool v
  | Object v => map (fun o => match o with Some x => CStr x | None => CNull end) v
  end.

(** [pd.api.types.is_numeric_dtype]: integers, floats and booleans. *)
Definition is_numeric_dtype (s : Series) : bool :=
  match s with
  | Object _ => false
  | _ => true
  end.

Definition is_object (s : Series) : bool :=
  match s with
  | Object _ => true
  | _ => false
  end.

Definition cell_isnull (c : Cell) : bool :=
  match c with
  | CFloat f => is_nan f
  | CNull => true
  | _ => false
  end.

(** [s.isnull().sum()] *)
Definition null_count (s : Series) : nat :=
  length (filter cell_isnull (cells s)).

(** [s.dropna()] as cells. *)
Definition dropna (s : Series) : list Cell :=
  filter (fun c => negb (cell_isnull c)) (cells s).

(** [s.nunique()]: number of distinct non-null values. *)
Definition nunique (s : Series) : nat :=
  length (unique cell_eqb (dropna s)).

(** [s.duplicated().sum()] *)
Definition duplicated_count (s : Series) : nat :=
  count_true (duplicated cell_eqb (cells s)).

(** The numeric scalars of an [int64] or [float64] column. *)
Definition nums (s : Series) : option (list Num.t) :=
  match s with
  | Int64 v => Some (map Num.NInt v)
  | Float64 v => Some (map Num.NFloat v)
  | _ => None
  end.

(** The values of an [int64] or [float64] column as floats. *)
Definition floats (s : Series) : option (list float) :=
  match s with
  | Int64 v => Some (map Num.float_of_Z v)
  | Float64 v => Some v
  | _ => None
  end.

End Ser.

Module Frame.

Definition columns (df : DataFrame) : list string := map fst df.

(** [len(df)]: the length of the row index. *)
Definition nrows (df : DataFrame) : nat :=
  match df with
  | [] => 0
  | (_, s) :: _ => Ser.len s
  end.

(** [df.size] *)
Definition size (df : DataFrame) : nat := nrows df * length df.

(** [col in df.columns] *)
Definition has_column (c : string) (df : DataFrame) : bool :=
  existsb (String.eqb c) (columns df).

Fixpoint get (c : string) (df : DataFrame) : option Series :=
  match df with
  | [] => None
  | (n, s) :: rest => if String.eqb n c then Some s else get c rest
  end.

(** [df[c]] *)
Definition getitem (c : string) (df : DataFrame) : result Series :=
  match get c df with
  | Some s => Ok s
  | None => Raise KeyError
  end.

(** [df[c] = s]: replaces the column named [c] when there is one, and
    appends a new column otherwise. *)
Fixpoint set (c : string) (s : Series) (df : DataFrame) : DataFrame :=
  match df with
  | [] => [(c, s)]
  | (n, x) :: rest =>
      if String.eqb n c then (n, s) :: rest else (n, x) :: set c s rest
  end.

(** Row [i] across all columns. *)
Definition row (df : DataFrame) (i : nat) : Row :=
  map (fun col => nth i (Ser.cells (snd col)) CNull) df.

Definition rows (df : DataFrame) : list Row :=
  map (row df) (seq 0 (nrows df)).

(** The data model's invariant: all columns have the length of the index. *)
Definition well_formed (df : DataFrame) : Prop :=
  forall c s, In (c, s) df -> Ser.len s = nrows df.

End Frame.

(** ** What the audit prints *)

Inductive Role : Type := DateLike | NumericLike | BooleanLike.

(** One row of [missing_df]. *)
Record MissingRow : Type := mkMissingRow
  { m_column : string; m_count : nat; m_percent : float }.

Inductive Issue : Type :=
| ColumnsWithMissingValues (n : nat)
| ColumnsWithCriticalMissing (n : nat)
| DuplicateRowsDetected (n : nat)
| DuplicateBookingIDsDetected (n : nat).

(** A timestamp is a number of nanoseconds since the epoch; [None] is [NaT]. *)
Definition Timestamp : Type := Z.

Inductive Finding : Type :=
| Banner (check : nat)
| Records (n : nat)
| ColumnCount (n : nat)
| ColumnTypes (l : list (string * Dtype))
| TypeIssue (col : string) (role : Role) (d : Dtype)
| TotalMissing (missing cells : nat) (pct : float)
| ColumnsWithMissing (l : list MissingRow)
| NoMissingValues
| CriticalMissing (l : list MissingRow)
| CompleteDuplicates (n : nat) (pct : float)
| DuplicateBookingIDs (n : nat)
| DuplicateReservationIDs (n : nat)
| OutlierHeader (col : string)
| OutlierBounds (lb ub : float)
| OutlierCount (n : nat) (pct : float)
| OutlierSamples (l : list Num.t)
| CouldNotAnalyzeOutliers (col : string) (e : exn)
| ConsistencyHeader (col : string) (unique_count : nat)
| ValueDistribution (l : list (string * nat))
| InconsistencyWarning
| SimilarValues (variations : list string)
| InvalidDateFormat (col : string)
| DateRangeHeader (col : string)
| MinDate (d : option Timestamp)
| MaxDate (d : option Timestamp)
| FutureDates (n : nat) (pct : float)
| OldDates (n : nat)
| CouldNotAnalyzeDates (col : string) (e : exn)
| StatisticsHeader (col : string)
| StatCount (n : nat)
| StatMean (x : float)
| StatStd (x : float)
| StatMin (x : float)
| Stat25 (x : float)
| StatMedian (x : float)
| Stat75 (x : float)
| StatMax (x : float)
| NegativeValues (n : nat) (col : string) (pct : float)
| ZeroValues (n : nat) (pct : float)
| CouldNotAnalyzeNumeric (col : string) (e : exn)
| PackagesWithoutCost (n : nat)
| InconsistentTotals (n : nat)
| AverageDiscrepancy (x : float)
| IssuesIdentified (l : list Issue)
| NoSignificantIssues
| AnalysisComplete.

(** ** The monad of the audit

    A statement runs from a state (the frame bound to [df] and the console so
    far) and ends normally with a value or with an exception; either way it
    leaves a state behind. *)

Record State : Type := mkState { frame : DataFrame; console : list Finding }.

Definition M (A : Type) : Type := State -> result A * State.

Definition ret {A} (a : A) : M A := fun st => (Ok a, st).

Definition bind {A B} (m : M A) (k : A -> M B) : M B :=
  fun st =>
    match m st with
    | (Ok a, st') => k a st'
    | (Raise e, st') => (Raise e, st')
    end.

Declare Scope audit_scope.
Delimit Scope audit_scope with audit.
Notation "x <- m ;; k" := (bind m (fun x => k))
  (at level 61, m at next level, right associativity) : audit_scope.
Notation "m ;; k" := (bind m (fun _ => k))
  (at level 61, right associativity) : audit_scope.
Local Open Scope audit_scope.

Definition raise {A} (e : exn) : M A := fun st => (Raise e, st).

(** A pure expression that may raise. *)
Definition lift {A} (r : result A) : M A := fun st => (r, st).

Definition print (f : Finding) : M unit :=
  fun st => (Ok tt, mkState (frame st) (console st ++ [f])).

Definition read_frame : M DataFrame := fun st => (Ok (frame st), st).

(** [df[c] = s] *)
Definition setitem (c : string) (s : Series) : M unit :=
  fun st => (Ok tt, mkState (Frame.set c s (frame st)) (console st)).

(** [df[c]] *)
Definition getitem (c : string) : M Series :=
  fun st => (Frame.getitem c (frame st), st).

(** [try: body except Exception as e: handler(e)] *)
Definition try_except {A} (body : M A) (handler : exn -> M A) : M A :=
  fun st =>
    match body st with
    | (Ok a, st') => (Ok a, st')
    | (Raise e, st') => handler e st'
    end.

(** [for x in l: body(x)]: an exception leaving [body] ends the loop. *)
Fixpoint for_each {A} (l : list A) (body : A -> M unit) : M unit :=
  match l with
  | [] => ret tt
  | x :: l' => body x ;; for_each l' body
  end.

(** [if c: m] *)
Definition when (c : bool) (m : M unit) : M unit := if c then m else ret tt.

(** ** Column roles (lines 50-52) *)

Definition date_keywords : list string := ["date"; "time"; "at"].
Definition numeric_keywords : list string :=
  ["cost"; "charge"; "price"; "amount"; "size"; "days"].
Definition boolean_keywords : list string :=
  ["is"; "was"; "has"; "available"; "completed"; "selected"; "required"; "applied"].

Definition date_columns (df : DataFrame) : list string :=
  filter (PyStr.any_keyword date_keywords) (Frame.columns df).
Definition numeric_columns (df : DataFrame) : list string :=
  filter (PyStr.any_keyword numeric_keywords) (Frame.columns df).
Definition boolean_columns (df : DataFrame) : list string :=
  filter (PyStr.any_keyword boolean_keywords) (Frame.columns df).

(** ** Checks 1 and 2: basic information and data types *)

Definition basic_information : M unit :=
  df <- read_frame ;;
  print (Banner 1) ;;
  print (Records (Frame.nrows df)) ;;
  print (ColumnCount (length df)).

Definition dtype_is (d : Dtype) (s : Series) : bool :=
  match Ser.dtype s, d with
  | int64, int64 | float64, float64 | bool_, bool_ | object, object => true
  | _, _ => false
  end.

Definition data_types_analysis : M unit :=
  df <- read_frame ;;
  print (Banner 2) ;;
  print (ColumnTypes (map (fun c => (fst c, Ser.dtype (snd c))) df)) ;;
  for_each (date_columns df) (fun col =>
    s <- getitem col ;;
    when (dtype_is object s) (print (TypeIssue col DateLike (Ser.dtype s)))) ;;
  for_each (numeric_columns df) (fun col =>
    s <- getitem col ;;
    when (dtype_is object s) (print (TypeIssue col NumericLike (Ser.dtype s)))) ;;
  for_each (boolean_columns df) (fun col =>
    s <- getitem col ;;
    when (negb (dtype_is bool_ s)) (print (TypeIssue col BooleanLike (Ser.dtype s)))).

(** ** Check 3: missing values (lines 74-95) *)

(** A stable sort by descending count, for [value_counts()] and
    [sort_values(ascending=False)]: entries with equal counts keep their
    order. *)
Fixpoint insert_desc {A} (key : A -> nat) (r : A) (l : list A) : list A :=
  match l with
  | [] => [r]
  | x :: l' => if (key x <=? key r)%nat then r :: l else x :: insert_desc key r l'
  end.

Definition sort_desc {A} (key : A -> nat) (l : list A) : list A :=
  fold_right (insert_desc key) [] l.

(** [df.isnull().sum() / len(df) * 100], column by column: a float64
    division, so a frame without rows gives [0/0 = nan]. *)
Definition missing_percent (count rows : nat) : float :=
  (Num.np_int_div count rows * 100)%float.

Definition missing_table (df : DataFrame) : list MissingRow :=
  sort_desc m_count
    (map (fun c => let n := Ser.null_count (snd c) in
                   mkMissingRow (fst c) n (missing_percent n (Frame.nrows df))) df).

Definition sum_nat (l : list nat) : nat := fold_right Nat.add 0 l.

Definition missing_values_analysis : M (list MissingRow) :=
  df <- read_frame ;;
  print (Banner 3) ;;
  let missing_df := missing_table df in
  let total_missing := sum_nat (map m_count missing_df) in
  let total_cells := Frame.size df in
  print (TotalMissing total_missing total_cells
           (Num.np_int_div total_missing total_cells * 100)%float) ;;
  let missing_columns := filter (fun r => (0 <? m_count r)%nat) missing_df in
  (if (0 <? length missing_columns)%nat
   then print (ColumnsWithMissing missing_columns)
   else print NoMissingValues) ;;
  let critical_missing := filter (fun r => (20 <? m_percent r)%float) missing_df in
  when (0 <? length critical_missing)%nat (print (CriticalMissing critical_missing)) ;;
  ret missing_df.

(** ** Check 4: duplicate records (lines 103-113) *)

(** [df.duplicated().sum()] *)
Definition duplicate_rows (df : DataFrame) : nat :=
  count_true (duplicated row_eqb (Frame.rows df)).

Definition duplicate_records_analysis : M nat :=
  df <- read_frame ;;
  print (Banner 4) ;;
  let duplicates := duplicate_rows df in
  print (CompleteDuplicates duplicates
           (Num.np_int_div duplicates (Frame.nrows df) * 100)%float) ;;
  when (Frame.has_column "Booking ID" df)
       (s <- getitem "Booking ID" ;;
        print (DuplicateBookingIDs (Ser.duplicated_count s))) ;;
  when (Frame.has_column "Reservation ID" df)
       (s <- getitem "Reservation ID" ;;
        print (DuplicateReservationIDs (Ser.duplicated_count s))) ;;
  ret duplicates.

(** ** Check 5: outliers by the IQR method (lines 121-144) *)

Declare Scope result_scope.
Delimit Scope result_scope with result.
Notation "x <- r ;; k" := (rbind r (fun x => k))
  (at level 61, r at next level, right associativity) : result_scope.

Fixpoint insert_sorted (x : float) (l : list float) : list float :=
  match l with
  | [] => [x]
  | y :: l' => if (x <=? y)%float then x :: l else y :: insert_sorted x l'
  end.

Definition sort_floats (l : list float) : list float :=
  fold_right insert_sorted [] l.

(** numpy's linear interpolation between two neighbouring order statistics. *)
Definition lerp (a b t : float) : float :=
  let diff := (b - a)%float in
  if (0.5 <=? t)%float then (b - diff * (1 - t))%float else (a + diff * t)%float.

(** The quantile [quarters/4] of the non-missing values, as
    [np.percentile(..., method='linear')] computes it: position
    [q * (n - 1)] in the sorted values, interpolated between its two
    neighbours.  [quarters = 1, 2, 3] stand for [q = 0.25, 0.5, 0.75], for
    which the position and its fractional part are exact in float64. *)
Definition quantile_floats (values : list float) (quarters : nat) : float :=
  let xs := sort_floats (filter (fun x => negb (is_nan x)) values) in
  match length xs with
  | O => nan
  | S m =>
      let pos := quarters * m in
      let lo := pos / 4 in
      let hi := Nat.min (lo + 1) m in
      lerp (nth lo xs nan) (nth hi xs nan) (Num.float_of_nat (pos mod 4) / 4)%float
  end.

(** [s.quantile(q)].  Integers are taken to float64 first; a boolean or
    text column makes numpy raise [TypeError]. *)
Definition quantile (s : Series) (quarters : nat) : result float :=
  match Ser.floats s with
  | Some values => Ok (quantile_floats values quarters)
  | None => Raise TypeError
  end.

Definition nums_of (s : Series) : list Num.t :=
  match Ser.nums s with
  | Some l => l
  | None => []
  end.

(** [detect_outliers(df, column)].  Of the frame [outliers] the caller only
    uses its length and its [column], so it is kept as the list of the
    outlying values of [column], in row order. *)
Definition detect_outliers (df : DataFrame) (column : string)
  : result (list Num.t * float * float * float) :=
  (s <- Frame.getitem column df ;;
   Q1 <- quantile s 1 ;;
   Q3 <- quantile s 3 ;;
   let IQR := (Q3 - Q1)%float in
   let lower_bound := (Q1 - 1.5 * IQR)%float in
   let upper_bound := (Q3 + 1.5 * IQR)%float in
   let outliers :=
     filter (fun x => Num.ltb x lower_bound || Num.gtb x upper_bound) (nums_of s) in
   pct <- Num.py_int_div (length outliers) (Frame.nrows df) ;;
   Ok (outliers, lower_bound, upper_bound, (pct * 100)%float))%result.

Definition key_numeric_cols : list string :=
  ["Party Size"; "Search Days Ahead"; "Reservation Days Ahead";
   "Total Cost ($)"; "Reservation Cost ($)"].

(** [col in df.columns and pd.api.types.is_numeric_dtype(df[col])] *)
Definition numeric_column_present (col : string) (df : DataFrame) : bool :=
  match Frame.get col df with
  | Some s => Ser.is_numeric_dtype s
  | None => false
  end.

(** The guarded body of the loop, lines 137-142. *)
Definition outlier_report (col : string) : M unit :=
  df <- read_frame ;;
  r <- lift (detect_outliers df col) ;;
  let '(outliers, lb, ub, pct) := r in
  print (OutlierHeader col) ;;
  print (OutlierBounds lb ub) ;;
  print (OutlierCount (length outliers) pct) ;;
  when ((0 <? length outliers)%nat && (length outliers <? 10)%nat)
       (print (OutlierSamples (firstn 5 outliers))).

Definition outlier_column (col : string) : M unit :=
  df <- read_frame ;;
  when (numeric_column_present col df)
       (try_except (outlier_report col)
                   (fun e => print (CouldNotAnalyzeOutliers col e))).

Definition outlier_detection : M unit :=
  print (Banner 5) ;;
  for_each key_numeric_cols outlier_column.

(** ** Check 6: consistency of categorical values (lines 152-181) *)

(** [val.lower().strip()] *)
Definition normalize (val : string) : string := PyStr.strip (PyStr.lower val).

(** [df[col].dropna().astype(str)] of a text column. *)
Definition text_values (s : Series) : list string :=
  match s with
  | Object v => flat_map (fun o => match o with Some x => [x] | None => [] end) v
  | _ => []
  end.

(** The dictionary [value_groups]; Python dictionaries keep insertion
    order.  [group_append] is one round of the loop of lines 171-176. *)
Fixpoint group_append (norm_val val : string) (groups : list (string * list string))
  : list (string * list string) :=
  match groups with
  | [] => [(norm_val, [val])]
  | (k, variations) :: rest =>
      if String.eqb k norm_val then (k, variations ++ [val]) :: rest
      else (k, variations) :: group_append norm_val val rest
  end.

Definition value_groups (values normalized_values : list string)
  : list (string * list string) :=
  fold_left (fun groups p => group_append (snd p) (fst p) groups)
            (combine values normalized_values) [].

(** [df[col].value_counts()] *)
Definition value_counts (s : Series) : list (string * nat) :=
  let all := text_values s in
  sort_desc snd (map (fun v => (v, occurrences String.eqb v all)) (unique String.eqb all)).

(** Lines 164-181 for one column. *)
Definition variation_report (s : Series) : M unit :=
  let values := unique String.eqb (text_values s) in
  let normalized_values := map normalize values in
  when (length (unique String.eqb normalized_values) <? length values)%nat
       (print InconsistencyWarning ;;
        for_each (value_groups values normalized_values) (fun g =>
          when (1 <? length (snd g))%nat (print (SimilarValues (snd g))))).

Definition consistency_column (col : string) : M unit :=
  s <- getitem col ;;
  let unique_count := Ser.nunique s in
  when ((1 <? unique_count)%nat && (unique_count <? 20)%nat)
       (print (ConsistencyHeader col unique_count) ;;
        print (ValueDistribution (value_counts s)) ;;
        variation_report s).

(** [df.select_dtypes(include=['object']).columns] *)
Definition categorical_cols (df : DataFrame) : list string :=
  map fst (filter (fun c => Ser.is_object (snd c)) df).

Definition value_consistency_checks : M unit :=
  df <- read_frame ;;
  print (Banner 6) ;;
  for_each (categorical_cols df) consistency_column.

(** ** What the audit takes from pandas and Python as given

    The text parsers and the clock are library code; the audit is
    parametrised by them.
    - [py_float]: Python's [float(text)], [None] when it raises [ValueError];
    - [to_numeric_text]: what [pd.to_numeric] reads in one text value,
      [None] when it cannot;
    - [to_datetime]: [pd.to_datetime(s, errors='coerce')], which may raise;
    - [timestamp_now]: [pd.Timestamp.now()];
    - [timestamp_year]: the [.dt.year] accessor. *)

Class Library : Type := mkLibrary
  { py_float : string -> option float;
    to_numeric_text : string -> option float;
    to_datetime : Series -> result (list (option Timestamp));
    timestamp_now : Timestamp;
    timestamp_year : Timestamp -> Z }.

Fixpoint traverse {A B} (f : A -> result B) (l : list A) : result (list B) :=
  match l with
  | [] => Ok []
  | x :: l' => (y <- f x ;; ys <- traverse f l' ;; Ok (y :: ys))%result
  end.

Definition somes {A} (l : list (option A)) : list A :=
  flat_map (fun o => match o with Some x => [x] | None => [] end) l.

Definition is_none {A} (o : option A) : bool :=
  match o with
  | None => true
  | Some _ => false
  end.

(** ** Check 8, first half: making a column numeric (lines 235-242) *)

Inductive Coercion : Type :=
| AlreadyNumeric
| CurrencyCleaning
| GenericCoercion.

(** The cells of a text column. *)
Definition object_values (s : Series) : list (option string) :=
  match s with
  | Object v => v
  | _ => []
  end.

(** [str(x)] of a cell of a text column; a missing value prints as [nan]. *)
Definition astype_str (o : option string) : string :=
  match o with
  | Some x => x
  | None => "nan"
  end.

(** Which branch of lines 235-242 is taken.  [df[col].iloc[0]] is the value
    in the first row and raises [IndexError] on a column without rows. *)
Definition coercion_of (s : Series) : result Coercion :=
  if Ser.is_numeric_dtype s then Ok AlreadyNumeric
  else
    match object_values s with
    | [] => Raise IndexError
    | first :: _ =>
        if PyStr.contains "$" (astype_str first) then Ok CurrencyCleaning
        else Ok GenericCoercion
    end.

(** [s.dropna().iloc[0]] when there is one: the first non-null value. *)
Definition first_non_null (s : Series) : option string :=
  hd_error (somes (object_values s)).

Section Checks.

Context {lib : Library}.

(** [.astype(str).str.replace('$', '').str.replace(',', '').astype(float)]
    on one value ([str.replace] reads its pattern literally). *)
Definition clean_currency (o : option string) : result float :=
  let text := PyStr.remove_char "," (PyStr.remove_char "$" (astype_str o)) in
  match py_float text with
  | Some x => Ok x
  | None => Raise ValueError
  end.

(** [pd.to_numeric(..., errors='coerce')] on one value. *)
Definition coerce_value (o : option string) : float :=
  match o with
  | Some x =>
      match to_numeric_text x with
      | Some f => f
      | None => nan
      end
  | None => nan
  end.

Definition apply_coercion (c : Coercion) (s : Series) : result Series :=
  match c with
  | AlreadyNumeric => Ok s
  | CurrencyCleaning =>
      (v <- traverse clean_currency (object_values s) ;; Ok (Float64 v))%result
  | GenericCoercion => Ok (Float64 (map coerce_value (object_values s)))
  end.

Definition numeric_series (s : Series) : result Series :=
  (c <- coercion_of s ;; apply_coercion c s)%result.

End Checks.

(** ** Check 8, second half: statistics (lines 245-265) *)

Record Summary : Type := mkSummary
  { s_mean : float; s_std : float; s_min : float;
    s_25 : float; s_50 : float; s_75 : float; s_max : float }.

(** [describe()] of a numeric column has the eight statistics; of a boolean
    or text column it has [count], [unique], [top] and [freq] only. *)
Inductive Description : Type :=
| NumericDescription (count : nat) (s : Summary)
| CategoricalDescription (count : nat).

Definition float_sum (l : list float) : float :=
  fold_left PrimFloat.add l 0%float.

Definition float_min (l : list float) : float :=
  match l with
  | [] => nan
  | x :: l' => fold_left (fun m y => if (y <? m)%float then y else m) l' x
  end.

Definition float_max (l : list float) : float :=
  match l with
  | [] => nan
  | x :: l' => fold_left (fun m y => if (m <? y)%float then y else m) l' x
  end.

Definition not_nan (l : list float) : list float :=
  filter (fun x => negb (is_nan x)) l.

(** [mean()] skips missing values; sums run left to right. *)
Definition float_mean (l : list float) : float :=
  let xs := not_nan l in
  (float_sum xs / Num.float_of_nat (length xs))%float.

(** [std()]: the sample standard deviation, [nan] below two values. *)
Definition float_std (l : list float) : float :=
  let xs := not_nan l in
  let avg := float_mean l in
  if (length xs <=? 1)%nat then nan
  else PrimFloat.sqrt (float_sum (map (fun x => (avg - x) * (avg - x))%float xs)
             / Num.float_of_nat (length xs - 1))%float.

Definition describe (s : Series) : Description :=
  match Ser.floats s with
  | Some v =>
      NumericDescription (length (not_nan v))
        (mkSummary (float_mean v) (float_std v) (float_min (not_nan v))
                   (quantile_floats v 1) (quantile_floats v 2) (quantile_floats v 3)
                   (float_max (not_nan v)))
  | None => CategoricalDescription (length (Ser.dropna s))
  end.

Definition description_count (d : Description) : nat :=
  match d with
  | NumericDescription n _ => n
  | CategoricalDescription n => n
  end.

(** [stats['mean']] and the like: [KeyError] when the entry is absent. *)
Definition stat (d : Description) (field : Summary -> float) : result float :=
  match d with
  | NumericDescription _ s => Ok (field s)
  | CategoricalDescription _ => Raise KeyError
  end.

Definition should_be_positive (col : string) : bool :=
  PyStr.any_keyword ["cost"; "price"; "amount"; "size"] col.

(** [(num_series < 0).sum()] and [(num_series == 0).sum()] *)
Definition negative_count (s : Series) : nat :=
  length (filter (fun x => Num.ltb x 0%float) (nums_of s)).
Definition zero_count (s : Series) : nat :=
  length (filter Num.is_zero (nums_of s)).

Section Checks78.

Context {lib : Library}.

(** Lines 234-265, the body of the [try]. *)
Definition numeric_report (col : string) : M unit :=
  df <- read_frame ;;
  s <- getitem col ;;
  num_series <- lift (numeric_series s) ;;
  let stats := describe num_series in
  print (StatisticsHeader col) ;;
  print (StatCount (description_count stats)) ;;
  x <- lift (stat stats s_mean) ;; print (StatMean x) ;;
  x <- lift (stat stats s_std) ;; print (StatStd x) ;;
  x <- lift (stat stats s_min) ;; print (StatMin x) ;;
  x <- lift (stat stats s_25) ;; print (Stat25 x) ;;
  x <- lift (stat stats s_50) ;; print (StatMedian x) ;;
  x <- lift (stat stats s_75) ;; print (Stat75 x) ;;
  x <- lift (stat stats s_max) ;; print (StatMax x) ;;
  when (should_be_positive col)
       (let neg_count := negative_count num_series in
        when (0 <? neg_count)%nat
             (print (NegativeValues neg_count col
                       (Num.np_int_div neg_count (Frame.nrows df) * 100)%float))) ;;
  let zeros := zero_count num_series in
  when (0 <? zeros)%nat
       (print (ZeroValues zeros (Num.np_int_div zeros (Frame.nrows df) * 100)%float)).

Definition numeric_column (col : string) : M unit :=
  df <- read_frame ;;
  when (Frame.has_column col df)
       (try_except (numeric_report col)
                   (fun e => print (CouldNotAnalyzeNumeric col e))).

Definition numeric_fields_validation : M unit :=
  df <- read_frame ;;
  print (Banner 8) ;;
  for_each (numeric_columns df) numeric_column.

(** ** Check 7: date ranges (lines 189-223)

    A frame read from a file has no [datetime64] column, so the
    conversion of line 194 always runs. *)

Definition earliest (l : list Timestamp) : option Timestamp :=
  match l with
  | [] => None
  | x :: l' => Some (fold_left Z.min l' x)
  end.

Definition latest (l : list Timestamp) : option Timestamp :=
  match l with
  | [] => None
  | x :: l' => Some (fold_left Z.max l' x)
  end.

Definition date_report (col : string) : M unit :=
  df <- read_frame ;;
  s <- getitem col ;;
  date_series <- lift (to_datetime s) ;;
  if forallb is_none date_series then print (InvalidDateFormat col)
  else
    let dates := somes date_series in
    print (DateRangeHeader col) ;;
    print (MinDate (earliest dates)) ;;
    print (MaxDate (latest dates)) ;;
    let future_dates := filter (fun d => (timestamp_now <? d)%Z) dates in
    (if (0 <? length future_dates)%nat
     then pct <- lift (Num.py_int_div (length future_dates) (Frame.nrows df)) ;;
          print (FutureDates (length future_dates) (pct * 100)%float)
     else ret tt) ;;
    let very_old := filter (fun d => (timestamp_year d <? 2000)%Z) dates in
    when (0 <? length very_old)%nat (print (OldDates (length very_old))).

Definition date_column (col : string) : M unit :=
  df <- read_frame ;;
  when (Frame.has_column col df)
       (try_except (date_report col)
                   (fun e => print (CouldNotAnalyzeDates col e))).

Definition date_range_validation : M unit :=
  df <- read_frame ;;
  print (Banner 7) ;;
  for_each (date_columns df) date_column.

End Checks78.

(** ** Arithmetic on columns

    Element-wise, row by row (the columns of one frame share their index).
    - Two [int64] columns give an [int64] column; a [float64] operand makes
      the result [float64]; a [bool] operand counts as the integers 0 and 1,
      except that numpy reads [bool + bool] as a logical or and rejects
      [bool - bool].
    - In a text column a missing value is a float [nan] and stays missing;
      a text value meets Python's [str] operators: [str + str] concatenates,
      everything else raises [TypeError]. *)

Module Arith.

Definition map2 {A B C} (f : A -> B -> C) (x : list A) (y : list B) : list C :=
  map (fun p => f (fst p) (snd p)) (combine x y).

Definition num_of_bool (b : bool) : Num.t := Num.NInt (if b then 1 else 0)%Z.

(** A numeric or boolean column as numbers. *)
Definition as_nums (s : Series) : option (list Num.t) :=
  match s with
  | Int64 v => Some (map Num.NInt v)
  | Float64 v => Some (map Num.NFloat v)
  | Boolean v => Some (map num_of_bool v)
  | Object _ => None
  end.

Definition is_float64 (s : Series) : bool :=
  match s with
  | Float64 _ => true
  | _ => false
  end.

Definition to_Z (x : Num.t) : Z :=
  match x with
  | Num.NInt z => z
  | Num.NFloat _ => 0
  end.

(** The column of a list of results, [float64] or [int64]. *)
Definition pack (as_float : bool) (l : list Num.t) : Series :=
  if as_float then Float64 (map Num.to_float l) else Int64 (map to_Z l).

Definition text_add (a b : option string) : result (option string) :=
  match a, b with
  | None, None => Ok None
  | Some x, Some y => Ok (Some (x ++ y)%string)
  | _, _ => Raise TypeError
  end.

(** A missing value stays missing; text does not take part. *)
Definition missing_only (a : option string) : result (option string) :=
  match a with
  | None => Ok None
  | Some _ => Raise TypeError
  end.

Definition text_sub (a b : option string) : result (option string) :=
  match a, b with
  | None, None => Ok None
  | _, _ => Raise TypeError
  end.

Definition with_text (f : option string -> option string -> result (option string))
           (a b : Series) : result Series :=
  match a, b with
  | Object x, Object y =>
      (v <- traverse (fun p => f (fst p) (snd p)) (combine x y) ;; Ok (Object v))%result
  | Object x, _ =>
      (v <- traverse (fun p => missing_only (fst p)) (combine x (Ser.cells b)) ;;
       Ok (Object v))%result
  | _, Object y =>
      (v <- traverse (fun p => missing_only (snd p)) (combine (Ser.cells a) y) ;;
       Ok (Object v))%result
  | _, _ => Raise TypeError
  end.

(** [a + b] *)
Definition add (a b : Series) : result Series :=
  match a, b with
  | Boolean x, Boolean y => Ok (Boolean (map2 orb x y))
  | _, _ =>
      match as_nums a, as_nums b with
      | Some x, Some y => Ok (pack (is_float64 a || is_float64 b) (map2 Num.add x y))
      | _, _ => with_text text_add a b
      end
  end.

(** [a - b] *)
Definition sub (a b : Series) : result Series :=
  match a, b with
  | Boolean _, Boolean _ => Raise TypeError
  | _, _ =>
      match as_nums a, as_nums b with
      | Some x, Some y => Ok (pack (is_float64 a || is_float64 b) (map2 Num.sub x y))
      | _, _ => with_text text_sub a b
      end
  end.

(** [abs(a)] *)
Definition abs (a : Series) : result Series :=
  match a with
  | Int64 v => Ok (Int64 (map (fun z => Num.wrap64 (Z.abs z)) v))
  | Float64 v => Ok (Float64 (map PrimFloat.abs v))
  | Boolean v => Ok (Boolean v)
  | Object v => (w <- traverse missing_only v ;; Ok (Object w))%result
  end.

(** [a > c] for a float constant [c]. *)
Definition gt (a : Series) (c : float) : result (list bool) :=
  match a with
  | Object v =>
      traverse (fun o => match o with None => Ok false | Some _ => Raise TypeError end) v
  | _ =>
      match as_nums a with
      | Some x => Ok (map (fun n => Num.gtb n c) x)
      | None => Ok []
      end
  end.

(** [a[mask].mean()] *)
Definition mean_where (a : Series) (mask : list bool) : float :=
  match as_nums a with
  | Some x =>
      float_mean (map (fun p => Num.to_float (fst p))
                      (filter (fun p => snd p) (combine x mask)))
  | None => nan
  end.

End Arith.

(** ** Check 9: logical consistency (lines 278-297) *)

Definition is_empty_text (c : Cell) : bool :=
  match c with
  | CStr s => String.eqb s ""
  | _ => false
  end.

(** [cell == 0] *)
Definition equals_zero (c : Cell) : bool :=
  match c with
  | CInt z => (z =? 0)%Z
  | CFloat f => (f =? 0)%float
  | CBool b => negb b
  | _ => false
  end.

Definition packages_rule : M unit :=
  df <- read_frame ;;
  when (Frame.has_column "Packages" df && Frame.has_column "Packages Cost ($)" df)
       (packages <- getitem "Packages" ;;
        cost <- getitem "Packages Cost ($)" ;;
        let packages_mask :=
          map (fun c => negb (Ser.cell_isnull c) && negb (is_empty_text c))
              (Ser.cells packages) in
        let zero_package_cost :=
          filter (fun p => fst p && equals_zero (snd p))
                 (combine packages_mask (Ser.cells cost)) in
        when (0 <? length zero_package_cost)%nat
             (print (PackagesWithoutCost (length zero_package_cost)))).

Definition total_cost_columns : list string :=
  ["Total Cost ($)"; "Reservation Cost ($)"; "Packages Cost ($)"; "Add Ons Cost ($)"].

Definition total_cost_rule : M unit :=
  df <- read_frame ;;
  when (forallb (fun col => Frame.has_column col df) total_cost_columns)
       (reservation <- getitem "Reservation Cost ($)" ;;
        packages <- getitem "Packages Cost ($)" ;;
        add_ons <- getitem "Add Ons Cost ($)" ;;
        partial <- lift (Arith.add reservation packages) ;;
        total <- lift (Arith.add partial add_ons) ;;
        setitem "Calculated Total" total ;;
        df <- read_frame ;;
        when (Frame.has_column "Promo Code Discount ($)" df)
             (calculated <- getitem "Calculated Total" ;;
              promo <- getitem "Promo Code Discount ($)" ;;
              net <- lift (Arith.sub calculated promo) ;;
              setitem "Calculated Total" net) ;;
        stated <- getitem "Total Cost ($)" ;;
        calculated <- getitem "Calculated Total" ;;
        signed <- lift (Arith.sub stated calculated) ;;
        difference <- lift (Arith.abs signed) ;;
        setitem "Cost Difference" difference ;;
        difference <- getitem "Cost Difference" ;;
        inconsistent <- lift (Arith.gt difference 0.01%float) ;;
        let n := count_true inconsistent in
        when (0 <? n)%nat
             (print (InconsistentTotals n) ;;
              print (AverageDiscrepancy (Arith.mean_where difference inconsistent)))).

Definition logical_consistency_checks : M unit :=
  print (Banner 9) ;;
  packages_rule ;;
  total_cost_rule.

(** ** Check 10: the summary (lines 305-329) *)

Definition summary_issues (df : DataFrame) (missing_df : list MissingRow)
           (duplicates : nat) : list Issue :=
  let missing_cols_count := length (filter (fun r => (0 <? m_count r)%nat) missing_df) in
  let critical_missing_count :=
    length (filter (fun r => (20 <? m_percent r)%float) missing_df) in
  (if (0 <? missing_cols_count)%nat
   then [ColumnsWithMissingValues missing_cols_count] else []) ++
  (if (0 <? critical_missing_count)%nat
   then [ColumnsWithCriticalMissing critical_missing_count] else []) ++
  (if (0 <? duplicates)%nat then [DuplicateRowsDetected duplicates] else []) ++
  match Frame.get "Booking ID" df with
  | Some s =>
      if (0 <? Ser.duplicated_count s)%nat
      then [DuplicateBookingIDsDetected (Ser.duplicated_count s)] else []
  | None => []
  end.

Definition data_quality_summary (missing_df : list MissingRow) (duplicates : nat)
  : M unit :=
  df <- read_frame ;;
  print (Banner 10) ;;
  let issues := summary_issues df missing_df duplicates in
  (match issues with
   | [] => print NoSignificantIssues
   | _ => print (IssuesIdentified issues)
   end) ;;
  print AnalysisComplete.

(** ** The audit, from the loaded frame on (lines 31-333) *)

Section Audit.

Context {lib : Library}.

Definition analyze_data_quality : M unit :=
  basic_information ;;
  data_types_analysis ;;
  missing_df <- missing_values_analysis ;;
  duplicates <- duplicate_records_analysis ;;
  outlier_detection ;;
  value_consistency_checks ;;
  date_range_validation ;;
  numeric_fields_validation ;;
  logical_consistency_checks ;;
  data_quality_summary missing_df duplicates.

End Audit.

(** Running a statement on a frame, from an empty console. *)
Definition run {A} (m : M A) (df : DataFrame) : result A * State :=
  m (mkState df []).
Definition printed {A} (m : M A) (df : DataFrame) : list Finding :=
  console (snd (run m df)).
Definition outcome {A} (m : M A) (df : DataFrame) : result A :=
  fst (run m df).
Definition frame_after {A} (m : M A) (df : DataFrame) : DataFrame :=
  frame (snd (run m df)).

(** ** Auxiliary counts used in the proofs *)

Section Fresh.

Context {A : Type} (same : A -> A -> bool).

(** The number of entries of [l] that are equal to no earlier entry and to
    no entry of [seen]. *)
Fixpoint fresh_from (seen l : list A) : nat :=
  match l with
  | [] => 0
  | x :: l' => (if seen_before same x seen then 0 else 1) + fresh_from (x :: seen) l'
  end.

Definition marked_from (v : A) (seen l : list A) : nat :=
  length (filter (fun p => same (fst p) v && snd p)
                 (combine l (duplicated_from same seen l))).

End Fresh.

(** ** A stand-in for the library, to run examples

    It reads plain decimal literals (an optional sign, digits, an optional
    fraction) and [nan], knows no date format, and refuses boolean columns
    as [pd.to_datetime] does. *)

Module Example.

Definition digit_of (c : ascii) : option Z :=
  let n := nat_of_ascii c in
  if (48 <=? n)%nat && (n <=? 57)%nat then Some (Z.of_nat (n - 48)) else None.

Fixpoint digits (s : string) (acc : Z) : option Z :=
  match s with
  | EmptyString => Some acc
  | String c r =>
      match digit_of c with
      | Some d => digits r (10 * acc + d)%Z
      | None => None
      end
  end.

(** The text before the first dot, and the text after it when there is one. *)
Fixpoint split_dot (s : string) : string * option string :=
  match s with
  | EmptyString => (EmptyString, None)
  | String c r =>
      if Ascii.eqb c "." then (EmptyString, Some r)
      else let (i, f) := split_dot r in (String c i, f)
  end.

Definition unsigned_decimal (s : string) : option float :=
  let (i, f) := split_dot s in
  let frac := match f with Some x => x | None => EmptyString end in
  if String.eqb (i ++ frac) "" then None
  else
    match digits (i ++ frac) 0 with
    | Some n => Some (Num.float_of_Z n / Num.float_of_Z (10 ^ Z.of_nat (String.length frac)))%float
    | None => None
    end.

Definition decimal (s : string) : option float :=
  if String.eqb s "nan" then Some nan
  else
    match s with
    | String "-" r => option_map PrimFloat.opp (unsigned_decimal r)
    | String "+" r => unsigned_decimal r
    | _ => unsigned_decimal s
    end.

Definition no_dates (s : Series) : result (list (option Timestamp)) :=
  match s with
  | Boolean _ => Raise TypeError
  | _ => Ok (repeat None (Ser.len s))
  end.

Definition library : Library :=
  mkLibrary decimal decimal no_dates 0%Z (fun _ => 1970%Z).

End Example.

(** ** Notions used in the statements *)

(** What the identifier check of column [c] prints. *)
Definition identifier_line (c : string) (line : nat -> Finding) (df : DataFrame)
  : list Finding :=
  match Frame.get c df with
  | Some s => [line (Ser.len s - length (unique cell_eqb (Ser.cells s)))]
  | None => []
  end.

(** The lines of check 8 for a column whose numeric form is [num]. *)
Definition statistics_lines (col : string) (num : Series) : list Finding :=
  match describe num with
  | NumericDescription n s =>
      [StatisticsHeader col; StatCount n; StatMean (s_mean s); StatStd (s_std s);
       StatMin (s_min s); Stat25 (s_25 s); StatMedian (s_50 s); Stat75 (s_75 s);
       StatMax (s_max s)]
  | CategoricalDescription n => [StatisticsHeader col; StatCount n]
  end.

Definition negative_line (col : string) (num : Series) (df : DataFrame)
  : list Finding :=
  if should_be_positive col && (0 <? negative_count num)%nat
  then [NegativeValues (negative_count num) col
          (Num.np_int_div (negative_count num) (Frame.nrows df) * 100)%float]
  else [].

Definition zero_line (num : Series) (df : DataFrame) : list Finding :=
  if (0 <? zero_count num)%nat
  then [ZeroValues (zero_count num)
          (Num.np_int_div (zero_count num) (Frame.nrows df) * 100)%float]
  else [].

Definition is_zero_line (f : Finding) : bool :=
  match f with
  | ZeroValues _ _ => true
  | _ => false
  end.

Definition is_failure_line (f : Finding) : bool :=
  match f with
  | CouldNotAnalyzeOutliers _ _ | CouldNotAnalyzeDates _ _
  | CouldNotAnalyzeNumeric _ _ => true
  | _ => false
  end.

(** A statement is read-only when it leaves the frame as it found it, and
    its outcome and what it prints depend on the frame alone. *)
Definition read_only {A} (m : M A) : Prop :=
  forall st,
    m st = (outcome m (frame st),
            mkState (frame st) (console st ++ printed m (frame st))).

(** A statement never raises when it ends normally from every state. *)
Definition never_raises {A} (m : M A) : Prop :=
  forall st, exists a, fst (m st) = Ok a.










(** The two columns that check 9 writes. *)
Definition derived_columns : list string := ["Calculated Total"; "Cost Difference"].

(** A statement leaves every column outside [cols] as it found it, present
    or absent. *)
Definition touches_only {A} (cols : list string) (m : M A) : Prop :=
  forall st c, ~ In c cols ->
    Frame.get c (frame (snd (m st))) = Frame.get c (frame st).







(** ** Frames used in the examples *)

Module Sample.

(** Three bookings, and the same three in another order. *)
Definition bookings : DataFrame :=
  [("Booking ID", Int64 [7; 8; 7]%Z); ("Status", Object [Some "ok"; None; Some "ok"])].
Definition bookings_reordered : DataFrame :=
  [("Booking ID", Int64 [8; 7; 7]%Z); ("Status", Object [None; Some "ok"; Some "ok"])].

(** A file with a header line and no record. *)
Definition no_rows : DataFrame :=
  [("Booking ID", Object []); ("Total Cost ($)", Object [])].

(** Party sizes, none of them zero. *)
Definition parties : DataFrame := [("Party Size", Float64 [2; 4]%float)].

(** Party sizes with zeros. *)
Definition parties_with_zero : DataFrame :=
  [("Party Size", Int64 [0; 3; 0; 5]%Z)].

(** Amounts written as currency. *)
Definition priced : Series := Object [Some "$1,200.50"; Some "$80"].

(** The same with the first amount missing. *)
Definition priced_after_gap : Series := Object [None; Some "$5.00"].




(** One reservation: 100 + 20 + 5 - 10, with the stated total. *)
Definition costs (total : Z) : DataFrame :=
  [("Total Cost ($)", Int64 [total]);
   ("Reservation Cost ($)", Int64 [100]%Z);
   ("Packages Cost ($)", Int64 [20]%Z);
   ("Add Ons Cost ($)", Int64 [5]%Z);
   ("Promo Code Discount ($)", Int64 [10]%Z)].




(** A status column written consistently. *)
Definition tidy_statuses : DataFrame :=
  [("Status", Object [Some "active"; Some "inactive"; None; Some "active"])].

(** A file that already has a column named like a derived one. *)
Definition costs_with_difference : DataFrame :=
  costs 120 ++ [("Cost Difference", Int64 [0]%Z)].

End Sample.

From Stdlib Require Import Sorted.

(** ** Notions used in the statements about the whole audit *)

(** The outcome of a statement, what it prints and the frame it leaves
    depend on the frame it starts from alone; its lines are appended to the
    console. *)
Definition frame_determined {A} (m : M A) : Prop :=
  forall st,
    m st = (outcome m (frame st),
            mkState (frame_after m (frame st)) (console st ++ printed m (frame st))).

Section AuditLines.

Context {lib : Library}.

(** What checks 1 to 8 print, one check after the other. *)
Definition lines_before_logical (df : DataFrame) : list Finding :=
  printed basic_information df ++ printed data_types_analysis df ++
  printed missing_values_analysis df ++ printed duplicate_records_analysis df ++
  printed outlier_detection df ++ printed value_consistency_checks df ++
  printed date_range_validation df ++ printed numeric_fields_validation df.

End AuditLines.

(** A statement ends normally when it is run on the frame [df]. *)
Definition ends_normally_on {A} (df : DataFrame) (m : M A) : Prop :=
  exists a, outcome m df = Ok a.

(** Every line a statement prints satisfies [P]. *)
Definition prints_only {A} (P : Finding -> Prop) (m : M A) : Prop :=
  forall st, exists l, console (snd (m st)) = console st ++ l /\ Forall P l.

(** The lines that open and close the summary. *)
Definition is_summary_line (f : Finding) : bool :=
  match f with
  | Banner 10 | IssuesIdentified _ | NoSignificantIssues | AnalysisComplete => true
  | _ => false
  end.

Definition not_summary_line (f : Finding) : Prop := is_summary_line f = false.

(** ** Further frames used in examples *)

Module Case.

(** The stated total written as currency, the components as integers. *)
Definition text_total : DataFrame :=
  [("Total Cost ($)", Object [Some "$125.00"; Some "$90.50"]);
   ("Reservation Cost ($)", Int64 [100; 60]%Z);
   ("Packages Cost ($)", Int64 [20; 20]%Z);
   ("Add Ons Cost ($)", Int64 [5; 10]%Z)].

(** A refund among the amounts, and an amount that is missing. *)
Definition refund : DataFrame :=
  [("Total Cost ($)", Float64 [-5; 10; nan]%float);
   ("Late Charge", Float64 [-1; 2; 3]%float)].


(** A flag under a name that hints at a number. *)
Definition free_days : DataFrame :=
  [("Free Days Included", Boolean [true; false; true])].

(** Reservations with a package, with none (empty or missing), and their
    package costs. *)
Definition with_packages : DataFrame :=
  [("Packages", Object [Some "Spa"; Some ""; None; Some "Golf"; Some "Spa"]);
   ("Packages Cost ($)", Int64 [0; 0; 0; 50; 0]%Z)].

End Case.

(** ** Notions used in the statements about check 2 *)

(** [sub] occurs in [s]. *)
Definition is_substring (sub s : string) : Prop :=
  exists pre post, s = (pre ++ sub ++ post)%string.

(** The keywords that make a column a candidate for a role. *)
Definition role_keywords (r : Role) : list string :=
  match r with
  | DateLike => date_keywords
  | NumericLike => numeric_keywords
  | BooleanLike => boolean_keywords
  end.

(** The dtypes check 2 reports for a candidate: text for dates and numbers,
    anything but [bool] for flags. *)
Definition role_mismatch (r : Role) (d : Dtype) : Prop :=
  match r with
  | BooleanLike => d <> bool_
  | _ => d = object
  end.

(** ** Notions used in the statements about the packages rule *)

(** The cell names a package: it is neither missing nor the empty text. *)
Definition names_package (c : Cell) : bool :=
  negb (Ser.cell_isnull c) && negb (is_empty_text c).

(** The rows, as pairs of a package and its cost, that name a package at
    cost zero. *)
Definition packages_without_cost (packages cost : Series) : list (Cell * Cell) :=
  filter (fun r => names_package (fst r) && equals_zero (snd r))
         (combine (Ser.cells packages) (Ser.cells cost)).

(** ** Notions used in the statements about checks 3 and 10 *)

(** The row of [missing_df] for one column of the frame. *)
Definition missing_row (df : DataFrame) (c : string * Series) : MissingRow :=
  mkMissingRow (fst c) (Ser.null_count (snd c))
               (missing_percent (Ser.null_count (snd c)) (Frame.nrows df)).

Definition has_missing (r : MissingRow) : bool := (0 <? m_count r)%nat.
Definition is_critical (r : MissingRow) : bool := (20 <? m_percent r)%float.

(** No missing value, no duplicate row, no duplicate booking identifier. *)
Definition clean (df : DataFrame) : Prop :=
  (forall c s, In (c, s) df -> Ser.null_count s = 0) /\
  duplicate_rows df = 0 /\
  (forall s, Frame.get "Booking ID" df = Some s -> Ser.duplicated_count s = 0).

(** ** Notions used in the statements about check 6 *)


(** ** Notions used in the statements about check 7 *)

Section DateLines.

Context {lib : Library}.

(** The dates after the clock's reading, and those before the year 2000. *)
Definition future_dates (dates : list Timestamp) : list Timestamp :=
  filter (fun d => (timestamp_now <? d)%Z) dates.
Definition very_old (dates : list Timestamp) : list Timestamp :=
  filter (fun d => (timestamp_year d <? 2000)%Z) dates.


End DateLines.

(** ** A stand-in library with a calendar

    [pd.to_datetime] reads numbers as nanoseconds since the epoch; this
    stand-in does so for integer and float columns (a float without an
    integer instant in the range of [int64] is [NaT]), knows no text format,
    and refuses boolean columns.  Its clock reads 2025-01-01 00:00:00. *)

Module Calendar.

Definition nanoseconds_per_day : Z := 86400 * 10 ^ 9.

(** The civil year of a day counted from 1970-01-01 (proleptic Gregorian
    calendar). *)
Definition year_of_days (days : Z) : Z :=
  let z := (days + 719468)%Z in
  let era := (z / 146097)%Z in
  let doe := (z - era * 146097)%Z in
  let yoe := ((doe - doe / 1460 + doe / 36524 - doe / 146096) / 365)%Z in
  let doy := (doe - (365 * yoe + yoe / 4 - yoe / 100))%Z in
  let mp := ((5 * doy + 2) / 153)%Z in
  (yoe + era * 400 + (if (mp <? 10)%Z then 0 else 1))%Z.

Definition year (t : Timestamp) : Z := year_of_days (t / nanoseconds_per_day).

(** The integer a float stands for, when it is one in the range of
    [int64]; the fraction of a nanosecond is dropped. *)
Definition instant_of_float (f : float) : option Timestamp :=
  let in_range (z : Z) :=
    if (Num.int64_min <? z)%Z && (z <=? Num.int64_max)%Z then Some z else None in
  match Prim2SF f with
  | S754_zero _ => Some 0%Z
  | S754_finite s m e =>
      let magnitude :=
        if (0 <=? e)%Z then (Z.pos m * 2 ^ e)%Z else (Z.pos m / 2 ^ (- e))%Z in
      in_range (if s then (- magnitude)%Z else magnitude)
  | _ => None
  end.

Definition to_datetime (s : Series) : result (list (option Timestamp)) :=
  match s with
  | Int64 v => Ok (map (fun z => if (z =? Num.int64_min)%Z then None else Some z) v)
  | Float64 v => Ok (map instant_of_float v)
  | Boolean _ => Raise TypeError
  | Object v => Ok (map (fun _ => None) v)
  end.

(** 2025-01-01 00:00:00 *)
Definition now : Timestamp := (1735689600 * 10 ^ 9)%Z.

Definition library : Library :=
  mkLibrary Example.decimal Example.decimal to_datetime now year.

End Calendar.

(** * Properties *)

(** ** Equality of floats, cells and rows is an equivalence *)

Lemma SFeqb_true_iff (a b : spec_float) :
  SFeqb a b = true <-> sf_canon a = sf_canon b /\ a <> S754_nan.
Proof.
  unfold SFeqb, SFcompare.
  destruct a as [sa|sa| |sa ma ea], b as [sb|sb| |sb mb eb]; simpl;
    try (destruct sa); try (destruct sb); simpl;
    try (split; [ discriminate | intros [H1 H2]; congruence ]);
    try (split; [ intros _; split; congruence | reflexivity ]).
  all: destruct (Z.compare ea eb) eqn:He;
    try (split; [ discriminate
                | intros [H1 H2]; inversion H1; subst;
                  rewrite Z.compare_refl in He; discriminate ]).
  all: apply Z.compare_eq in He; subst.
  all: destruct (Pos.compare_cont Eq ma mb) eqn:Hm; simpl.
  all: try (split; [ discriminate
                   | intros [H1 H2]; inversion H1; subst;
                     change (Pos.compare_cont Eq mb mb) with (Pos.compare mb mb) in Hm;
                     rewrite Pos.compare_refl in Hm; discriminate ]).
  all: apply Pos.compare_eq in Hm; subst; split;
    [ intros _; split; congruence | reflexivity ].
Qed.

Lemma sf_canon_nan (a : spec_float) : sf_canon a = S754_nan -> a = S754_nan.
Proof. destruct a; simpl; congruence. Qed.

Lemma float_eqb_sym (x y : float) : (x =? y)%float = (y =? x)%float.
Proof.
  rewrite !FloatAxioms.eqb_spec. apply eq_true_iff_eq. rewrite !SFeqb_true_iff.
  split; intros [Hc Hn]; (split; [ congruence | ]); intros Hb; apply Hn;
    apply sf_canon_nan; rewrite Hb in Hc; simpl in Hc; congruence.
Qed.

Lemma float_eqb_trans (x y z : float) :
  (x =? y)%float = true -> (y =? z)%float = true -> (x =? z)%float = true.
Proof.
  rewrite !FloatAxioms.eqb_spec, !SFeqb_true_iff. intros [H1 N1] [H2 N2]. split; congruence.
Qed.

Lemma is_nan_eqb_l (x y : float) : is_nan x = true -> (x =? y)%float = false.
Proof.
  unfold is_nan. intros H. apply negb_true_iff in H.
  destruct (x =? y)%float eqn:E; [ | reflexivity ].
  rewrite FloatAxioms.eqb_spec in *. apply SFeqb_true_iff in E. destruct E as [_ N].
  assert (SFeqb (Prim2SF x) (Prim2SF x) = true) by (apply SFeqb_true_iff; auto).
  congruence.
Qed.

Lemma float_same_refl (x : float) : float_same x x = true.
Proof. unfold float_same, is_nan. destruct (x =? x)%float; reflexivity. Qed.

Lemma float_same_sym (x y : float) : float_same x y = float_same y x.
Proof.
  unfold float_same. rewrite (float_eqb_sym x y), (andb_comm (is_nan x)). reflexivity.
Qed.

Lemma float_same_trans (x y z : float) :
  float_same x y = true -> float_same y z = true -> float_same x z = true.
Proof.
  unfold float_same. intros H1 H2.
  apply orb_true_iff in H1. apply orb_true_iff in H2. apply orb_true_iff.
  destruct H1 as [H1 | H1], H2 as [H2 | H2].
  - left. eapply float_eqb_trans; eauto.
  - apply andb_true_iff in H2. destruct H2 as [Ny _].
    rewrite float_eqb_sym, (is_nan_eqb_l y x Ny) in H1. discriminate.
  - apply andb_true_iff in H1. destruct H1 as [_ Ny].
    rewrite (is_nan_eqb_l y z Ny) in H2. discriminate.
  - right. apply andb_true_iff in H1. apply andb_true_iff in H2.
    apply andb_true_iff. tauto.
Qed.

Lemma cell_eqb_refl (a : Cell) : cell_eqb a a = true.
Proof.
  destruct a; simpl; auto using Z.eqb_refl, float_same_refl, String.eqb_refl.
  destruct b; reflexivity.
Qed.

Lemma cell_eqb_sym (a b : Cell) : cell_eqb a b = cell_eqb b a.
Proof.
  destruct a, b; simpl; auto using Z.eqb_sym, float_same_sym, String.eqb_sym.
  destruct b, b0; reflexivity.
Qed.

Lemma cell_eqb_trans (a b c : Cell) :
  cell_eqb a b = true -> cell_eqb b c = true -> cell_eqb a c = true.
Proof.
  destruct a, b, c; simpl; try discriminate; auto.
  - rewrite !Z.eqb_eq. congruence.
  - apply float_same_trans.
  - rewrite !Bool.eqb_true_iff. congruence.
  - rewrite !String.eqb_eq. congruence.
Qed.

Lemma row_eqb_refl (r : Row) : row_eqb r r = true.
Proof. induction r; simpl; [ | rewrite cell_eqb_refl ]; auto. Qed.

Lemma row_eqb_sym (r1 r2 : Row) : row_eqb r1 r2 = row_eqb r2 r1.
Proof.
  revert r2. induction r1 as [ | a r1 IH ]; destruct r2 as [ | b r2 ]; simpl; auto.
  rewrite cell_eqb_sym, IH. reflexivity.
Qed.

Lemma row_eqb_trans (r1 r2 r3 : Row) :
  row_eqb r1 r2 = true -> row_eqb r2 r3 = true -> row_eqb r1 r3 = true.
Proof.
  revert r2 r3.
  induction r1 as [ | a r1 IH ]; destruct r2 as [ | b r2 ], r3 as [ | c r3 ];
    simpl; try discriminate; auto.
  rewrite !andb_true_iff. intros [H1 H2] [H3 H4]. split.
  - eapply cell_eqb_trans; eauto.
  - eapply IH; eauto.
Qed.

(** ** Counting duplicates *)

Section DuplicatedFacts.

Context {A : Type} (same : A -> A -> bool).
Hypothesis same_sym : forall x y, same x y = same y x.
Hypothesis same_trans :
  forall x y z, same x y = true -> same y z = true -> same x z = true.

Lemma same_congr (x y a : A) : same x y = true -> same x a = same y a.
Proof.
  intros H. apply eq_true_iff_eq. split; intros Ha.
  - apply same_trans with x; [ rewrite same_sym | ]; assumption.
  - apply same_trans with y; assumption.
Qed.

Lemma seen_before_congr (x y : A) (seen : list A) :
  same x y = true -> seen_before same x seen = seen_before same y seen.
Proof.
  intros H. unfold seen_before.
  induction seen as [ | a seen IH ]; simpl; [ reflexivity | ].
  rewrite IH, (same_congr x y a H). reflexivity.
Qed.

Lemma duplicated_from_length (seen l : list A) :
  length (duplicated_from same seen l) = length l.
Proof. revert seen. induction l; intros; simpl; auto. Qed.

(** Every entry is either marked or fresh. *)
Lemma marked_plus_fresh (seen l : list A) :
  count_true (duplicated_from same seen l) + fresh_from same seen l = length l.
Proof.
  revert seen. unfold count_true.
  induction l as [ | x l IH ]; intros seen; simpl; [ reflexivity | ].
  specialize (IH (x :: seen)).
  destruct (seen_before same x seen); simpl; lia.
Qed.

Lemma fresh_from_ext (s1 s2 l : list A) :
  (forall z, seen_before same z s1 = seen_before same z s2) ->
  fresh_from same s1 l = fresh_from same s2 l.
Proof.
  revert s1 s2. induction l as [ | x l IH ]; intros s1 s2 H; simpl; [ reflexivity | ].
  rewrite (H x). f_equal. apply IH. intros z. unfold seen_before in *. simpl.
  rewrite (H z). reflexivity.
Qed.

Lemma fresh_from_perm (l l' : list A) :
  Permutation l l' -> forall seen, fresh_from same seen l = fresh_from same seen l'.
Proof.
  induction 1 as [ | x l l' _ IH | x y l | l l' l'' _ IH1 _ IH2 ]; intros seen.
  - reflexivity.
  - simpl. rewrite IH. reflexivity.
  - simpl.
    assert (E : fresh_from same (x :: y :: seen) l = fresh_from same (y :: x :: seen) l).
    { apply fresh_from_ext. intros z. unfold seen_before. simpl.
      destruct (same z x), (same z y); reflexivity. }
    rewrite E. unfold seen_before at 2 4. simpl. fold (seen_before same x seen).
    fold (seen_before same y seen). rewrite (same_sym x y).
    destruct (same y x) eqn:Hyx; simpl.
    + rewrite (seen_before_congr y x seen Hyx). lia.
    + destruct (seen_before same x seen), (seen_before same y seen); simpl; lia.
  - rewrite IH1. apply IH2.
Qed.

(** The number of marked entries does not depend on the order. *)
Lemma duplicated_count_perm (l l' : list A) :
  Permutation l l' ->
  count_true (duplicated same l) = count_true (duplicated same l').
Proof.
  intros P. unfold duplicated.
  pose proof (marked_plus_fresh [] l). pose proof (marked_plus_fresh [] l').
  pose proof (fresh_from_perm l l' P []). pose proof (Permutation_length P). lia.
Qed.

Lemma filter_filter (p q : A -> bool) (l : list A) :
  filter p (filter q l) = filter (fun y => q y && p y) l.
Proof.
  induction l as [ | x l IH ]; simpl; [ reflexivity | ].
  destruct (q x); simpl; [ destruct (p x) | ]; rewrite IH; reflexivity.
Qed.

Lemma fresh_from_unique (seen l : list A) :
  fresh_from same seen l =
  length (filter (fun y => negb (seen_before same y seen)) (unique same l)).
Proof.
  revert seen. induction l as [ | x l IH ]; intros seen; simpl; [ reflexivity | ].
  rewrite IH, filter_filter.
  destruct (seen_before same x seen); simpl; f_equal;
    try (f_equal; apply filter_ext); try apply filter_ext;
    intros y; unfold seen_before; simpl; rewrite negb_orb; reflexivity.
Qed.

(** Marked entries and distinct values add up to all entries. *)
Lemma duplicated_plus_unique (l : list A) :
  count_true (duplicated same l) + length (unique same l) = length l.
Proof.
  pose proof (marked_plus_fresh [] l) as H. rewrite fresh_from_unique in H.
  simpl in H.
  assert (F : forall m : list A, filter (fun _ => true) m = m)
    by (induction m; simpl; congruence).
  rewrite F in H. exact H.
Qed.

Lemma marked_from_spec (v : A) (seen l : list A) :
  marked_from same v seen l =
  if seen_before same v seen then occurrences same v l
  else occurrences same v l - 1.
Proof.
  revert seen. unfold marked_from, occurrences.
  induction l as [ | x l IH ]; intros seen; simpl.
  - destruct (seen_before same v seen); reflexivity.
  - specialize (IH (x :: seen)). unfold seen_before in IH at 1. simpl in IH.
    fold (seen_before same v seen) in IH.
    destruct (same x v) eqn:Hxv; simpl.
    + rewrite (same_sym v x), Hxv in IH. simpl in IH.
      rewrite (seen_before_congr x v seen Hxv).
      destruct (seen_before same v seen); simpl; rewrite IH; lia.
    + rewrite (same_sym v x), Hxv in IH. simpl in IH. exact IH.
Qed.

(** A value occurring [k] times has [k - 1] marked occurrences. *)
Lemma marked_occurrences_spec (v : A) (l : list A) :
  marked_occurrences same v l = occurrences same v l - 1.
Proof. exact (marked_from_spec v [] l). Qed.

End DuplicatedFacts.

(** ** Check 4: duplicate records *)

(** Unfolding the statements of the monad, leaving the frame operations. *)
Ltac audit_unfold :=
  unfold outcome, printed, frame_after, run;
  repeat (unfold bind, ret, print, when, getitem, read_frame, setitem, lift,
                 try_except, raise, Frame.getitem;
          cbn [frame console fst snd app]).

(** Case analysis on the presence of column [c], carried through the
    statements that follow. *)
Ltac audit_case c df :=
  let E := fresh "E" in
  destruct (Frame.get c df) eqn:E;
  repeat (progress (audit_unfold; rewrite ?E)).

Lemma has_column_get (c : string) (df : DataFrame) :
  Frame.has_column c df =
  match Frame.get c df with Some _ => true | None => false end.
Proof.
  unfold Frame.has_column, Frame.columns.
  induction df as [ | [n s] df IH ]; simpl; [ reflexivity | ].
  rewrite (String.eqb_sym c n). destruct (String.eqb n c); simpl; auto.
Qed.

Lemma series_duplicated_count (s : Series) :
  Ser.duplicated_count s = Ser.len s - length (unique cell_eqb (Ser.cells s)).
Proof.
  pose proof (duplicated_plus_unique cell_eqb (Ser.cells s)) as H.
  assert (L : length (Ser.cells s) = Ser.len s)
    by (destruct s; simpl; apply length_map).
  unfold Ser.duplicated_count. lia.
Qed.

Lemma duplicate_records_printed (df : DataFrame) :
  printed duplicate_records_analysis df =
  [Banner 4;
   CompleteDuplicates (duplicate_rows df)
     (Num.np_int_div (duplicate_rows df) (Frame.nrows df) * 100)%float]
  ++ identifier_line "Booking ID" DuplicateBookingIDs df
  ++ identifier_line "Reservation ID" DuplicateReservationIDs df.
Proof.
  unfold duplicate_records_analysis, identifier_line. audit_unfold.
  rewrite !has_column_get.
  audit_case "Booking ID" df; audit_case "Reservation ID" df;
    rewrite ?series_duplicated_count; reflexivity.
Qed.

Lemma duplicate_records_outcome (df : DataFrame) :
  outcome duplicate_records_analysis df = Ok (duplicate_rows df).
Proof.
  unfold duplicate_records_analysis. audit_unfold.
  rewrite !has_column_get.
  audit_case "Booking ID" df; audit_case "Reservation ID" df; reflexivity.
Qed.

(** C8: the number of fully duplicate rows that check 4 reports is the same
    for two frames whose rows are a permutation of one another. *)
Theorem duplicate_rows_permutation_invariant (df df' : DataFrame) :
  Permutation (Frame.rows df) (Frame.rows df') ->
  duplicate_rows df = duplicate_rows df' /\
  outcome duplicate_records_analysis df = Ok (duplicate_rows df) /\
  outcome duplicate_records_analysis df' = Ok (duplicate_rows df) /\
  nth_error (printed duplicate_records_analysis df) 1 =
    Some (CompleteDuplicates (duplicate_rows df)
            (Num.np_int_div (duplicate_rows df) (Frame.nrows df) * 100)%float) /\
  nth_error (printed duplicate_records_analysis df') 1 =
    Some (CompleteDuplicates (duplicate_rows df)
            (Num.np_int_div (duplicate_rows df) (Frame.nrows df) * 100)%float).
Proof.
  intros P.
  assert (E : duplicate_rows df = duplicate_rows df').
  { unfold duplicate_rows.
    apply duplicated_count_perm;
      [ exact row_eqb_sym | exact row_eqb_trans | exact P ]. }
  assert (N : Frame.nrows df = Frame.nrows df').
  { apply Permutation_length in P. unfold Frame.rows in P.
    rewrite !length_map, !length_seq in P. exact P. }
  repeat split.
  - exact E.
  - apply duplicate_records_outcome.
  - rewrite E. apply duplicate_records_outcome.
  - rewrite duplicate_records_printed. reflexivity.
  - rewrite duplicate_records_printed, E, N. reflexivity.
Qed.

Lemma duplicate_rows_permutation_witness :
  Permutation (Frame.rows Sample.bookings) (Frame.rows Sample.bookings_reordered) /\
  duplicate_rows Sample.bookings = duplicate_rows Sample.bookings_reordered.
Proof.
  assert (P : Permutation (Frame.rows Sample.bookings)
                          (Frame.rows Sample.bookings_reordered))
    by (cbn; apply perm_swap).
  split; [ exact P | ].
  exact (proj1 (duplicate_rows_permutation_invariant _ _ P)).
Defined.

(** C10: the duplicate counts of the "Booking ID" and "Reservation ID"
    columns count every occurrence of a value after its first: a value
    occurring [k] times has [k - 1] marked occurrences (missing values being
    one value), and the reported number is the length of the column minus
    its number of distinct values.  Three equal identifiers are reported as
    2 duplicates, although one value only is duplicated. *)
Theorem duplicate_identifier_count :
  (forall df,
     printed duplicate_records_analysis df =
     [Banner 4;
      CompleteDuplicates (duplicate_rows df)
        (Num.np_int_div (duplicate_rows df) (Frame.nrows df) * 100)%float]
     ++ identifier_line "Booking ID" DuplicateBookingIDs df
     ++ identifier_line "Reservation ID" DuplicateReservationIDs df) /\
  (forall s v,
     marked_occurrences cell_eqb v (Ser.cells s) =
     occurrences cell_eqb v (Ser.cells s) - 1) /\
  (forall s, Ser.duplicated_count s =
             Ser.len s - length (unique cell_eqb (Ser.cells s))) /\
  Ser.duplicated_count (Int64 [7; 7; 7]%Z) = 2 /\
  Ser.duplicated_count (Object [None; Some "a"; None; None]) = 2 /\
  Ser.duplicated_count (Float64 [nan; 1; nan]%float) = 1.
Proof.
  split; [ | split; [ | split; [ | repeat split ] ] ].
  - apply duplicate_records_printed.
  - intros s v. apply marked_occurrences_spec;
      [ exact cell_eqb_sym | exact cell_eqb_trans ].
  - apply series_duplicated_count.
Qed.

(** ** Checks 3 and 4 on a frame without rows *)

Lemma sort_desc_Forall {A} (key : A -> nat) (P : A -> Prop) (l : list A) :
  Forall P l -> Forall P (sort_desc key l).
Proof.
  induction 1 as [ | x l Hx _ IH ]; simpl; [ constructor | ].
  induction IH as [ | y m Hy Hm IHm ]; simpl.
  - repeat constructor; assumption.
  - destruct (key y <=? key x)%nat; repeat constructor; assumption.
Qed.

Lemma no_rows_no_cells (s : Series) : Ser.len s = 0 -> Ser.cells s = [].
Proof. destruct s as [ [ | ] | [ | ] | [ | ] | [ | ] ]; simpl; congruence. Qed.

Lemma missing_table_no_rows (df : DataFrame) :
  Frame.well_formed df -> Frame.nrows df = 0 ->
  Forall (fun r => m_count r = 0 /\ m_percent r = nan) (missing_table df).
Proof.
  intros W Z. unfold missing_table. apply sort_desc_Forall.
  apply Forall_forall. intros r Hr. apply in_map_iff in Hr.
  destruct Hr as [[c s] [<- Hin]]. simpl.
  assert (N : Ser.null_count s = 0).
  { unfold Ser.null_count. rewrite no_rows_no_cells; [ reflexivity | ].
    rewrite (W c s Hin). exact Z. }
  rewrite N, Z. split; reflexivity.
Qed.

Lemma all_missing_rows_empty (l : list MissingRow) :
  Forall (fun r => m_count r = 0 /\ m_percent r = nan) l ->
  sum_nat (map m_count l) = 0 /\
  filter (fun r => (0 <? m_count r)%nat) l = [] /\
  filter (fun r => (20 <? m_percent r)%float) l = [].
Proof.
  induction 1 as [ | r l [Hc Hp] _ [IH1 [IH2 IH3]] ]; simpl; [ auto | ].
  rewrite Hc, Hp, IH1, IH2, IH3. auto.
Qed.

Lemma missing_values_printed (df : DataFrame) :
  printed missing_values_analysis df =
  let missing_df := missing_table df in
  let total_missing := sum_nat (map m_count missing_df) in
  let missing_columns := filter (fun r => (0 <? m_count r)%nat) missing_df in
  let critical_missing := filter (fun r => (20 <? m_percent r)%float) missing_df in
  [Banner 3;
   TotalMissing total_missing (Frame.size df)
     (Num.np_int_div total_missing (Frame.size df) * 100)%float;
   if (0 <? length missing_columns)%nat
   then ColumnsWithMissing missing_columns else NoMissingValues]
  ++ (if (0 <? length critical_missing)%nat
      then [CriticalMissing critical_missing] else []).
Proof.
  unfold missing_values_analysis. audit_unfold. cbv zeta.
  destruct (0 <? length (filter (fun r => (0 <? m_count r)%nat) (missing_table df)))%nat;
    audit_unfold;
    destruct (0 <? length (filter (fun r => (20 <? m_percent r)%float)
                                  (missing_table df)))%nat;
    audit_unfold; reflexivity.
Qed.

(** C5, as the code has it: on a frame without rows no percentage raises,
    because the divisions are float64 divisions; the overall missing
    percentage, every per-column missing percentage and the duplicate-row
    percentage are [0/0 = nan], reported as such (no column is listed as
    missing or critical). *)
Theorem no_rows_percentages (df : DataFrame) :
  Frame.well_formed df -> Frame.nrows df = 0 ->
  outcome missing_values_analysis df = Ok (missing_table df) /\
  Forall (fun r => m_count r = 0 /\ m_percent r = nan) (missing_table df) /\
  printed missing_values_analysis df =
    [Banner 3; TotalMissing 0 0 nan; NoMissingValues] /\
  outcome duplicate_records_analysis df = Ok 0 /\
  firstn 2 (printed duplicate_records_analysis df) =
    [Banner 4; CompleteDuplicates 0 nan].
Proof.
  intros W Z.
  pose proof (missing_table_no_rows df W Z) as F.
  assert (D : duplicate_rows df = 0).
  { unfold duplicate_rows, Frame.rows. rewrite Z. reflexivity. }
  destruct (all_missing_rows_empty _ F) as [S0 [M C]].
  repeat split.
  - unfold missing_values_analysis. audit_unfold. rewrite M, C. reflexivity.
  - exact F.
  - rewrite missing_values_printed. cbv zeta. rewrite S0, M, C.
    unfold Frame.size. rewrite Z. reflexivity.
  - rewrite duplicate_records_outcome, D. reflexivity.
  - rewrite duplicate_records_printed, D, Z. reflexivity.
Qed.

Lemma no_rows_well_formed : Frame.well_formed Sample.no_rows.
Proof.
  intros c s [H | [H | []]]; inversion H; reflexivity.
Defined.

Lemma no_rows_percentages_witness :
  Frame.nrows Sample.no_rows = 0 /\
  printed missing_values_analysis Sample.no_rows =
    [Banner 3; TotalMissing 0 0 nan; NoMissingValues].
Proof.
  split; [ reflexivity | ].
  exact (proj1 (proj2 (proj2
           (no_rows_percentages Sample.no_rows no_rows_well_formed eq_refl)))).
Defined.

(** C5 as stated fails: with a header line and no record, the percentages
    are computed and reported, and they are [nan], not zero. *)
Lemma no_rows_reports_nan :
  printed missing_values_analysis Sample.no_rows =
    [Banner 3; TotalMissing 0 0 nan; NoMissingValues] /\
  printed duplicate_records_analysis Sample.no_rows =
    [Banner 4; CompleteDuplicates 0 nan; DuplicateBookingIDs 0] /\
  map m_percent (missing_table Sample.no_rows) = [nan; nan] /\
  (nan =? 0)%float = false /\
  nan <> 0%float.
Proof.
  repeat split; try reflexivity.
  intros H. apply (f_equal is_nan) in H. discriminate H.
Qed.

(** ** Check 8: numeric fields *)

Lemma traverse_ok {A B} (f : A -> result B) (l : list A) (v : list B) :
  traverse f l = Ok v <-> Forall2 (fun a b => f a = Ok b) l v.
Proof.
  revert v. induction l as [ | x l IH ]; intros v; simpl.
  - split; intros H; [ inversion H; constructor | inversion H; reflexivity ].
  - destruct (f x) as [ y | e ] eqn:Fx; simpl.
    + destruct (traverse f l) as [ ys | e ] eqn:T; simpl.
      * split; intros H.
        -- inversion H; subst. constructor; [ assumption | apply IH; reflexivity ].
        -- inversion H as [ | a b l' v' Hab Hrest ]; subst.
           apply IH in Hrest. congruence.
      * split; intros H; [ discriminate | ].
        inversion H as [ | a b l' v' Hab Hrest ]; subst.
        apply IH in Hrest. discriminate.
    + split; intros H; [ discriminate | ].
      inversion H as [ | a b l' v' Hab Hrest ]; subst. congruence.
Qed.

(** [traverse] fails exactly when some element fails. *)
Lemma traverse_raise {A B} (f : A -> result B) (l : list A) :
  (exists e, traverse f l = Raise e) <-> (exists x e, In x l /\ f x = Raise e).
Proof.
  induction l as [ | x l IH ]; simpl.
  - split; [ intros [e H]; discriminate | intros [x [e [[] _]]] ].
  - destruct (f x) as [ y | e ] eqn:Fx; simpl.
    + destruct (traverse f l) as [ ys | e ] eqn:T; simpl.
      * split; [ intros [e H]; discriminate | ].
        intros [x' [e [[<- | Hin] Hf]]]; [ congruence | ].
        destruct (proj2 IH) as [e' He']; [ eauto | discriminate ].
      * split; [ | eauto ].
        intros _. destruct (proj1 IH) as [x' [e' [Hin Hf]]]; eauto.
    + split; eauto.
Qed.

Section NumericFields.

Context {lib : Library}.

Lemma numeric_report_run (df : DataFrame) (out : list Finding)
      (col : string) (s num : Series) (v : list float) :
  Frame.get col df = Some s ->
  numeric_series s = Ok num ->
  Ser.floats num = Some v ->
  numeric_report col (mkState df out) =
  (Ok tt, mkState df (out ++ statistics_lines col num ++ negative_line col num df
                          ++ zero_line num df)).
Proof.
  intros G N F. unfold numeric_report, statistics_lines, negative_line, zero_line.
  audit_unfold. rewrite G. audit_unfold. rewrite N. audit_unfold.
  unfold describe, stat. rewrite F. audit_unfold.
  destruct (should_be_positive col); cbn [andb];
    [ destruct (0 <? negative_count num)%nat | ];
    audit_unfold; destruct (0 <? zero_count num)%nat; audit_unfold;
    rewrite <- ?app_assoc; reflexivity.
Qed.

Lemma numeric_column_printed (df : DataFrame) (col : string) (s num : Series)
      (v : list float) :
  Frame.get col df = Some s ->
  numeric_series s = Ok num ->
  Ser.floats num = Some v ->
  printed (numeric_column col) df =
  statistics_lines col num ++ negative_line col num df ++ zero_line num df.
Proof.
  intros G N F. unfold numeric_column. audit_unfold.
  rewrite has_column_get, G. audit_unfold.
  rewrite (numeric_report_run df [] col s num v G N F). reflexivity.
Qed.

(** C6, as the code has it: for a numeric-hinted column whose coercion and
    statistics succeed, check 8 prints the statistics, the negative-value
    warning when it applies, and the count of exact zeros exactly when
    that count is positive. *)
Theorem zero_values_reported_when_positive (df : DataFrame) (col : string)
        (s num : Series) (v : list float) :
  Frame.get col df = Some s ->
  numeric_series s = Ok num ->
  Ser.floats num = Some v ->
  printed (numeric_column col) df =
    statistics_lines col num ++ negative_line col num df ++ zero_line num df /\
  outcome (numeric_column col) df = Ok tt /\
  (forall n p, In (ZeroValues n p) (printed (numeric_column col) df) <->
               0 < zero_count num /\ n = zero_count num /\
               p = (Num.np_int_div (zero_count num) (Frame.nrows df) * 100)%float).
Proof.
  intros G N F. split; [ | split ].
  - exact (numeric_column_printed df col s num v G N F).
  - unfold numeric_column. audit_unfold. rewrite has_column_get, G. audit_unfold.
    rewrite (numeric_report_run df [] col s num v G N F). reflexivity.
  - intros n p. rewrite (numeric_column_printed df col s num v G N F).
    assert (A : ~ In (ZeroValues n p) (statistics_lines col num)).
    { unfold statistics_lines. destruct (describe num); simpl;
        intros H; repeat (destruct H as [ H | H ]; [ discriminate H | ]); exact H. }
    assert (B : ~ In (ZeroValues n p) (negative_line col num df)).
    { unfold negative_line.
      destruct (should_be_positive col && (0 <? negative_count num)%nat); simpl;
        intros H; repeat (destruct H as [ H | H ]; [ discriminate H | ]); exact H. }
    rewrite !in_app_iff. unfold zero_line.
    destruct (0 <? zero_count num)%nat eqn:Z; simpl.
    + apply Nat.ltb_lt in Z. split.
      * intros [H | [H | [H | []]]]; [ contradiction | contradiction | ].
        inversion H; subst. auto.
      * intros [_ [-> ->]]. auto.
    + apply Nat.ltb_ge in Z. split.
      * intros [H | [H | []]]; contradiction.
      * intros [H _]. lia.
Qed.

Lemma clean_currency_error (l : list (option string)) (e : exn) :
  traverse clean_currency l = Raise e -> e = ValueError.
Proof.
  induction l as [ | a l IH ]; simpl; intros H; [ discriminate | ].
  unfold clean_currency in H at 1.
  destruct (py_float _); simpl in H; [ | inversion H; reflexivity ].
  destruct (traverse clean_currency l) eqn:Tl; simpl in H; [ discriminate | ].
  inversion H; subst. apply IH. reflexivity.
Qed.

(** C7, as the code has it: a numeric-hinted column that is not numeric
    is cleaned as currency exactly when the text of its first row, a
    missing value reading [nan], contains the dollar sign; every value must
    then parse as a float.  Otherwise each value is coerced on its own and
    an unparseable one becomes [nan]. *)
Theorem coercion_follows_first_row (s : Series) (first : option string)
        (rest : list (option string)) :
  Ser.is_numeric_dtype s = false ->
  object_values s = first :: rest ->
  (PyStr.contains "$" (astype_str first) = true ->
   coercion_of s = Ok CurrencyCleaning /\
   numeric_series s =
     rbind (traverse clean_currency (first :: rest)) (fun v => Ok (Float64 v)) /\
   (forall num, numeric_series s = Ok num <->
      exists v, num = Float64 v /\
        Forall2 (fun o x =>
                   py_float (PyStr.remove_char "," (PyStr.remove_char "$" (astype_str o)))
                   = Some x) (first :: rest) v) /\
   ((exists o, In o (first :: rest) /\
       py_float (PyStr.remove_char "," (PyStr.remove_char "$" (astype_str o))) = None)
    <-> numeric_series s = Raise ValueError)) /\
  (PyStr.contains "$" (astype_str first) = false ->
   coercion_of s = Ok GenericCoercion /\
   numeric_series s = Ok (Float64 (map coerce_value (first :: rest))) /\
   (forall x, to_numeric_text x = None -> coerce_value (Some x) = nan) /\
   coerce_value None = nan).
Proof.
  intros Hn Hv.
  assert (C : coercion_of s =
              Ok (if PyStr.contains "$" (astype_str first)
                  then CurrencyCleaning else GenericCoercion)).
  { unfold coercion_of. rewrite Hn, Hv.
    destruct (PyStr.contains "$" (astype_str first)); reflexivity. }
  assert (K : forall o,
             clean_currency o =
             match py_float (PyStr.remove_char "," (PyStr.remove_char "$" (astype_str o)))
             with Some x => Ok x | None => Raise ValueError end)
    by reflexivity.
  split; intros Hc; rewrite Hc in C.
  - assert (E : numeric_series s =
                rbind (traverse clean_currency (first :: rest))
                      (fun v => Ok (Float64 v))).
    { unfold numeric_series. rewrite C. simpl. rewrite Hv. reflexivity. }
    split; [ exact C | split; [ exact E | split ] ].
    + intros num. rewrite E. split.
      * destruct (traverse clean_currency (first :: rest)) as [ v | e ] eqn:T;
          simpl; intros H; [ | discriminate ].
        inversion H; subst. exists v. split; [ reflexivity | ].
        apply traverse_ok in T.
        eapply Forall2_impl; [ | exact T ]. intros o x. cbv beta. rewrite K.
        destruct (py_float _); congruence.
      * intros [v [-> F]].
        assert (T : traverse clean_currency (first :: rest) = Ok v).
        { apply traverse_ok. eapply Forall2_impl; [ | exact F ].
          intros o x H. cbv beta in H. rewrite K, H. reflexivity. }
        rewrite T. reflexivity.
    + rewrite E. split.
      * intros [o [Hin Hp]].
        destruct (proj2 (traverse_raise clean_currency (first :: rest))) as [e He].
        { exists o, ValueError. split; [ exact Hin | rewrite K, Hp; reflexivity ]. }
        rewrite He. simpl.
        f_equal. eapply clean_currency_error; exact He.
      * destruct (traverse clean_currency (first :: rest)) as [ v | e ] eqn:T;
          simpl; intros H; [ discriminate | ].
        destruct (proj1 (traverse_raise clean_currency (first :: rest)))
          as [o [e' [Hin Ho]]]; [ eauto | ].
        exists o. split; [ exact Hin | ].
        rewrite K in Ho. destruct (py_float _); [ discriminate | reflexivity ].
  - split; [ exact C | split; [ | split ] ].
    + unfold numeric_series. rewrite C. simpl. rewrite Hv. reflexivity.
    + intros x Hx. simpl. rewrite Hx. reflexivity.
    + reflexivity.
Qed.

End NumericFields.

Lemma zero_values_witness :
  Frame.get "Party Size" Sample.parties_with_zero = Some (Int64 [0; 3; 0; 5]%Z) /\
  In (ZeroValues 2 50%float)
     (printed (numeric_column (lib := Example.library) "Party Size")
              Sample.parties_with_zero).
Proof.
  split; [ reflexivity | ].
  apply (proj2 (proj2 (zero_values_reported_when_positive (lib := Example.library)
                         Sample.parties_with_zero "Party Size"
                         (Int64 [0; 3; 0; 5]%Z) (Int64 [0; 3; 0; 5]%Z)
                         (map Num.float_of_Z [0; 3; 0; 5]%Z)
                         eq_refl eq_refl eq_refl))).
  repeat split. vm_compute. lia.
Defined.

(** C6 as stated fails: a column without zeros gets its statistics and no
    zero count. *)
Lemma no_zero_line_without_zeros :
  outcome (numeric_fields_validation (lib := Example.library)) Sample.parties = Ok tt /\
  zero_count (Float64 [2; 4]%float) = 0 /\
  In (StatMax 4%float)
     (printed (numeric_fields_validation (lib := Example.library)) Sample.parties) /\
  existsb is_failure_line
     (printed (numeric_fields_validation (lib := Example.library)) Sample.parties) = false /\
  existsb is_zero_line
     (printed (numeric_fields_validation (lib := Example.library)) Sample.parties) = false.
Proof.
  repeat split; try reflexivity.
  vm_compute. auto 20.
Qed.

Lemma coercion_follows_first_row_witness :
  PyStr.contains "$" (astype_str (Some "$1,200.50")) = true /\
  numeric_series (lib := Example.library) Sample.priced
  = Ok (Float64 [1200.5; 80]%float).
Proof.
  split; [ reflexivity | ].
  destruct (coercion_follows_first_row (lib := Example.library) Sample.priced
              (Some "$1,200.50") [Some "$80"] eq_refl eq_refl) as [H _].
  destruct (H eq_refl) as [_ [E _]]. rewrite E. reflexivity.
Defined.

(** C7 as stated fails: when the first row is missing, the first non-null
    value carries a dollar sign and yet the column goes through the generic
    coercion, which turns the amount into [nan]. *)
Lemma missing_first_row_skips_cleaning :
  first_non_null Sample.priced_after_gap = Some "$5.00" /\
  PyStr.contains "$" "$5.00" = true /\
  coercion_of Sample.priced_after_gap = Ok GenericCoercion /\
  numeric_series (lib := Example.library) Sample.priced_after_gap
  = Ok (Float64 [nan; nan]) /\
  apply_coercion (lib := Example.library) CurrencyCleaning Sample.priced_after_gap
  = Ok (Float64 [nan; 5]%float).
Proof. repeat split. Qed.

(** ** Check 5: outliers *)






(** ** Read-only statements

    All checks but one only read the frame.  The facts below are
    compositional, so that each check is handled by following its text. *)

Create HintDb audit.

Lemma ro_ret {A} (a : A) : read_only (ret a).
Proof. intros st. audit_unfold. rewrite app_nil_r. destruct st; reflexivity. Qed.

Lemma ro_print (f : Finding) : read_only (print f).
Proof. intros st. reflexivity. Qed.

Lemma ro_lift {A} (r : result A) : read_only (lift r).
Proof. intros st. audit_unfold. rewrite app_nil_r. destruct st; reflexivity. Qed.

Lemma ro_raise {A} (e : exn) : read_only (@raise A e).
Proof. intros st. audit_unfold. rewrite app_nil_r. destruct st; reflexivity. Qed.

Lemma ro_read_frame : read_only read_frame.
Proof. intros st. audit_unfold. rewrite app_nil_r. destruct st; reflexivity. Qed.

Lemma ro_getitem (c : string) : read_only (getitem c).
Proof. intros st. audit_unfold. rewrite app_nil_r. destruct st; reflexivity. Qed.

(** Running a sequence of two read-only statements. *)
Lemma bind_run {A B} (m : M A) (k : A -> M B) (df : DataFrame) :
  read_only m -> (forall a, read_only (k a)) ->
  outcome (bind m k) df =
    match outcome m df with
    | Ok a => outcome (k a) df
    | Raise e => Raise e
    end /\
  printed (bind m k) df =
    printed m df ++ match outcome m df with
                    | Ok a => printed (k a) df
                    | Raise _ => []
                    end.
Proof.
  intros Hm Hk. unfold outcome at 1, printed at 1, run, bind.
  rewrite (Hm (mkState df [])). cbn [frame console app].
  destruct (outcome m df) as [ a | e ].
  - rewrite (Hk a (mkState df (printed m df))). cbn [frame console fst snd]. auto.
  - cbn [fst snd console]. rewrite app_nil_r. auto.
Qed.

Lemma ro_bind {A B} (m : M A) (k : A -> M B) :
  read_only m -> (forall a, read_only (k a)) -> read_only (bind m k).
Proof.
  intros Hm Hk st. destruct (bind_run m k (frame st) Hm Hk) as [O P].
  rewrite O, P. unfold bind. rewrite (Hm st).
  destruct (outcome m (frame st)) as [ a | e ].
  - rewrite (Hk a _). cbn [frame console]. rewrite app_assoc. reflexivity.
  - rewrite app_nil_r. reflexivity.
Qed.

Lemma try_run {A} (body : M A) (handler : exn -> M A) (df : DataFrame) :
  read_only body -> (forall e, read_only (handler e)) ->
  outcome (try_except body handler) df =
    match outcome body df with
    | Ok a => Ok a
    | Raise e => outcome (handler e) df
    end /\
  printed (try_except body handler) df =
    printed body df ++ match outcome body df with
                       | Ok _ => []
                       | Raise e => printed (handler e) df
                       end.
Proof.
  intros Hb Hh. unfold outcome at 1, printed at 1, run, try_except.
  rewrite (Hb (mkState df [])). cbn [frame console app].
  destruct (outcome body df) as [ a | e ].
  - cbn [fst snd console]. rewrite app_nil_r. auto.
  - rewrite (Hh e (mkState df (printed body df))). cbn [frame console fst snd]. auto.
Qed.

Lemma ro_try {A} (body : M A) (handler : exn -> M A) :
  read_only body -> (forall e, read_only (handler e)) ->
  read_only (try_except body handler).
Proof.
  intros Hb Hh st. destruct (try_run body handler (frame st) Hb Hh) as [O P].
  rewrite O, P. unfold try_except. rewrite (Hb st).
  destruct (outcome body (frame st)) as [ a | e ].
  - rewrite app_nil_r. reflexivity.
  - rewrite (Hh e _). cbn [frame console]. rewrite app_assoc. reflexivity.
Qed.

Lemma ro_when (c : bool) (m : M unit) : read_only m -> read_only (when c m).
Proof. intros H. destruct c; [ exact H | apply ro_ret ]. Qed.

Lemma ro_for_each {A} (l : list A) (body : A -> M unit) :
  (forall x, read_only (body x)) -> read_only (for_each l body).
Proof.
  intros H. induction l as [ | x l IH ]; simpl.
  - apply ro_ret.
  - apply ro_bind; auto.
Qed.

#[export] Hint Resolve ro_ret ro_print ro_lift ro_raise ro_read_frame ro_getitem
  : audit.

(** One step along the text of a statement. *)
Ltac ro_step :=
  match goal with
  | |- read_only (bind _ _) => apply ro_bind; [ | intro; cbv beta ]
  | |- read_only (when _ _) => apply ro_when
  | |- read_only (try_except _ _) => apply ro_try; [ | intro; cbv beta ]
  | |- read_only (for_each _ _) => apply ro_for_each; intro; cbv beta
  | |- read_only (if ?c then _ else _) => destruct c
  | |- read_only (match ?x with _ => _ end) => destruct x
  | |- read_only _ => solve [ auto with audit ]
  | |- read_only _ => progress cbv zeta
  end.

Ltac read_only_tac := repeat ro_step.

(** The same for statements that never raise. *)

Lemma nr_ret {A} (a : A) : never_raises (ret a).
Proof. intros st. exists a. reflexivity. Qed.

Lemma nr_print (f : Finding) : never_raises (print f).
Proof. intros st. exists tt. reflexivity. Qed.

Lemma nr_read_frame : never_raises read_frame.
Proof. intros st. exists (frame st). reflexivity. Qed.

Lemma nr_bind {A B} (m : M A) (k : A -> M B) :
  never_raises m -> (forall a, never_raises (k a)) -> never_raises (bind m k).
Proof.
  intros Hm Hk st. unfold bind. destruct (Hm st) as [a Ha].
  destruct (m st) as [[ a' | e ] st']; simpl in Ha; [ | discriminate ].
  apply Hk.
Qed.

(** A handler that never raises stops every exception of the body. *)
Lemma nr_try {A} (body : M A) (handler : exn -> M A) :
  (forall e, never_raises (handler e)) -> never_raises (try_except body handler).
Proof.
  intros Hh st. unfold try_except.
  destruct (body st) as [[ a | e ] st']; [ exists a; reflexivity | apply Hh ].
Qed.

Lemma nr_when (c : bool) (m : M unit) : never_raises m -> never_raises (when c m).
Proof. intros H. destruct c; [ exact H | apply nr_ret ]. Qed.

Lemma nr_for_each {A} (l : list A) (body : A -> M unit) :
  (forall x, never_raises (body x)) -> never_raises (for_each l body).
Proof.
  intros H. induction l as [ | x l IH ]; simpl.
  - apply nr_ret.
  - apply nr_bind; auto.
Qed.

#[export] Hint Resolve nr_ret nr_print nr_read_frame : audit.

Ltac nr_step :=
  match goal with
  | |- never_raises (bind _ _) => apply nr_bind; [ | intro; cbv beta ]
  | |- never_raises (when _ _) => apply nr_when
  | |- never_raises (try_except _ _) => apply nr_try; intro; cbv beta
  | |- never_raises (for_each _ _) => apply nr_for_each; intro; cbv beta
  | |- never_raises (if ?c then _ else _) => destruct c
  | |- never_raises _ => solve [ auto with audit ]
  | |- never_raises _ => progress cbv zeta
  end.

Ltac never_raises_tac := repeat nr_step.

Lemma never_raises_outcome (m : M unit) (df : DataFrame) :
  never_raises m -> outcome m df = Ok tt.
Proof.
  intros H. destruct (H (mkState df [])) as [[] E]. exact E.
Qed.

(** A loop whose body is read-only and never raises prints what its rounds
    print, one after the other. *)
Lemma for_each_printed {A} (l : list A) (body : A -> M unit) (df : DataFrame) :
  (forall x, read_only (body x)) -> (forall x, never_raises (body x)) ->
  printed (for_each l body) df = flat_map (fun x => printed (body x) df) l.
Proof.
  intros Hr Hn. induction l as [ | x l IH ]; [ reflexivity | ].
  cbn [for_each flat_map].
  destruct (bind_run (body x) (fun _ => for_each l body) df (Hr x)
                     (fun _ => ro_for_each l body Hr)) as [_ P].
  rewrite P, (never_raises_outcome _ df (Hn x)), IH. reflexivity.
Qed.

(** ** The checks that only read *)

Lemma ro_basic_information : read_only basic_information.
Proof. unfold basic_information. read_only_tac. Qed.

Lemma ro_data_types_analysis : read_only data_types_analysis.
Proof. unfold data_types_analysis. read_only_tac. Qed.

Lemma ro_missing_values_analysis : read_only missing_values_analysis.
Proof. unfold missing_values_analysis. read_only_tac. Qed.

Lemma ro_duplicate_records_analysis : read_only duplicate_records_analysis.
Proof. unfold duplicate_records_analysis. read_only_tac. Qed.

Lemma ro_outlier_report (col : string) : read_only (outlier_report col).
Proof. unfold outlier_report. read_only_tac. Qed.

Lemma ro_outlier_column (col : string) : read_only (outlier_column col).
Proof. unfold outlier_column. pose proof (ro_outlier_report col). read_only_tac. Qed.

Lemma nr_outlier_column (col : string) : never_raises (outlier_column col).
Proof. unfold outlier_column. never_raises_tac. Qed.

Lemma ro_outlier_detection : read_only outlier_detection.
Proof. unfold outlier_detection. pose proof ro_outlier_column. read_only_tac. Qed.

Lemma nr_outlier_detection : never_raises outlier_detection.
Proof. unfold outlier_detection. pose proof nr_outlier_column. never_raises_tac. Qed.

Lemma ro_value_consistency_checks : read_only value_consistency_checks.
Proof.
  unfold value_consistency_checks, consistency_column, variation_report.
  read_only_tac.
Qed.

Lemma ro_packages_rule : read_only packages_rule.
Proof. unfold packages_rule. read_only_tac. Qed.

Lemma ro_data_quality_summary (missing_df : list MissingRow) (duplicates : nat) :
  read_only (data_quality_summary missing_df duplicates).
Proof. unfold data_quality_summary. read_only_tac. Qed.

Section ReadOnlyChecks.

Context {lib : Library}.

Lemma ro_date_report (col : string) : read_only (date_report col).
Proof. unfold date_report. read_only_tac. Qed.

Lemma ro_date_column (col : string) : read_only (date_column col).
Proof. unfold date_column. pose proof (ro_date_report col). read_only_tac. Qed.

Lemma nr_date_column (col : string) : never_raises (date_column col).
Proof. unfold date_column. never_raises_tac. Qed.

Lemma ro_date_range_validation : read_only date_range_validation.
Proof. unfold date_range_validation. pose proof ro_date_column. read_only_tac. Qed.

Lemma nr_date_range_validation : never_raises date_range_validation.
Proof. unfold date_range_validation. pose proof nr_date_column. never_raises_tac. Qed.

Lemma ro_numeric_report (col : string) : read_only (numeric_report col).
Proof. unfold numeric_report. read_only_tac. Qed.

Lemma ro_numeric_column (col : string) : read_only (numeric_column col).
Proof. unfold numeric_column. pose proof (ro_numeric_report col). read_only_tac. Qed.

Lemma nr_numeric_column (col : string) : never_raises (numeric_column col).
Proof. unfold numeric_column. never_raises_tac. Qed.

Lemma ro_numeric_fields_validation : read_only numeric_fields_validation.
Proof.
  unfold numeric_fields_validation. pose proof ro_numeric_column. read_only_tac.
Qed.

Lemma nr_numeric_fields_validation : never_raises numeric_fields_validation.
Proof.
  unfold numeric_fields_validation. pose proof nr_numeric_column. never_raises_tac.
Qed.

End ReadOnlyChecks.

(** ** Checks 5, 7 and 8: failures stay inside the column *)


(** A guarded body: its lines, then the message of the handler when the body
    raised. *)
Lemma guarded_printed (body : M unit) (message : exn -> Finding) (df : DataFrame) :
  read_only body ->
  printed (try_except body (fun e => print (message e))) df =
  printed body df ++ match outcome body df with
                     | Ok _ => []
                     | Raise e => [message e]
                     end.
Proof.
  intros Hb.
  destruct (try_run body (fun e => print (message e)) df Hb
                    (fun e => ro_print (message e))) as [_ P].
  rewrite P. destruct (outcome body df); reflexivity.
Qed.

Lemma loop_printed (banner : nat) (cols : DataFrame -> list string)
      (column : string -> M unit) (df : DataFrame) :
  (forall col, read_only (column col)) -> (forall col, never_raises (column col)) ->
  printed (df' <- read_frame ;; print (Banner banner) ;; for_each (cols df') column) df =
  Banner banner :: flat_map (fun col => printed (column col) df) (cols df).
Proof.
  intros Hr Hn.
  destruct (bind_run read_frame
              (fun df' => print (Banner banner) ;; for_each (cols df') column) df
              ro_read_frame) as [_ P].
  { intros a. apply ro_bind; [ apply ro_print | intros _; apply ro_for_each, Hr ]. }
  rewrite P. cbn [outcome printed run read_frame fst snd console frame app].
  destruct (bind_run (print (Banner banner)) (fun _ => for_each (cols df) column) df
              (ro_print _) (fun _ => ro_for_each _ _ Hr)) as [_ Q].
  rewrite Q, for_each_printed by assumption. reflexivity.
Qed.

Section ColumnFailures.

Context {lib : Library}.



Lemma numeric_column_printed_guard (col : string) (df : DataFrame) :
  Frame.has_column col df = true ->
  printed (numeric_column col) df =
  printed (numeric_report col) df ++
  match outcome (numeric_report col) df with
  | Ok _ => []
  | Raise e => [CouldNotAnalyzeNumeric col e]
  end.
Proof.
  intros H. rewrite <- (guarded_printed _ _ df (ro_numeric_report col)).
  unfold numeric_column, printed, run, bind, read_frame. cbn [frame].
  rewrite H. reflexivity.
Qed.


End ColumnFailures.


(** ** Check 9 is the only one that writes *)

Lemma get_set_same (c : string) (s : Series) (df : DataFrame) :
  Frame.get c (Frame.set c s df) = Some s.
Proof.
  induction df as [ | [n x] df IH ]; simpl.
  - rewrite String.eqb_refl. reflexivity.
  - destruct (String.eqb n c) eqn:E; simpl; rewrite E; auto.
Qed.

Lemma get_set_other (c c' : string) (s : Series) (df : DataFrame) :
  String.eqb c' c = false ->
  Frame.get c (Frame.set c' s df) = Frame.get c df.
Proof.
  intros N. induction df as [ | [n x] df IH ]; simpl.
  - rewrite N. reflexivity.
  - destruct (String.eqb n c') eqn:E; simpl.
    + apply String.eqb_eq in E. subst n. rewrite N. reflexivity.
    + destruct (String.eqb n c); auto.
Qed.

Lemma to_read_only {A} (cols : list string) (m : M A) :
  read_only m -> touches_only cols m.
Proof. intros H st c _. rewrite (H st). reflexivity. Qed.

Lemma to_bind {A B} (cols : list string) (m : M A) (k : A -> M B) :
  touches_only cols m -> (forall a, touches_only cols (k a)) ->
  touches_only cols (bind m k).
Proof.
  intros Hm Hk st c Hc. unfold bind. specialize (Hm st c Hc).
  destruct (m st) as [[ a | e ] st']; cbn [snd] in *.
  - rewrite (Hk a st' c Hc). exact Hm.
  - exact Hm.
Qed.

Lemma to_setitem (cols : list string) (c : string) (s : Series) :
  In c cols -> touches_only cols (setitem c s).
Proof.
  intros Hin st c' Hc'. unfold setitem. cbn [snd frame].
  apply get_set_other. apply String.eqb_neq. intros ->. contradiction.
Qed.

Lemma to_when (cols : list string) (c : bool) (m : M unit) :
  touches_only cols m -> touches_only cols (when c m).
Proof.
  intros H. destruct c; [ exact H | apply to_read_only, ro_ret ].
Qed.

Ltac to_step :=
  match goal with
  | |- touches_only _ (bind _ _) => apply to_bind; [ | intro; cbv beta ]
  | |- touches_only _ (when _ _) => apply to_when
  | |- touches_only _ (setitem _ _) => apply to_setitem; simpl; tauto
  | |- touches_only _ _ => solve [ apply to_read_only; auto with audit ]
  | |- touches_only _ _ => progress cbv zeta
  end.

Lemma to_total_cost_rule : touches_only derived_columns total_cost_rule.
Proof. unfold total_cost_rule, derived_columns. repeat to_step. Qed.

Lemma to_logical_consistency_checks :
  touches_only derived_columns logical_consistency_checks.
Proof.
  unfold logical_consistency_checks.
  pose proof ro_packages_rule. pose proof to_total_cost_rule.
  repeat to_step; auto.
Qed.

Lemma not_derived (c : string) :
  c <> "Calculated Total" -> c <> "Cost Difference" -> ~ In c derived_columns.
Proof. intros H1 H2 [H | [H | []]]; congruence. Qed.

(** The summary reads the frame for the column "Booking ID" only. *)
Lemma summary_reads_booking_id (missing_df : list MissingRow) (duplicates : nat)
      (df df' : DataFrame) :
  Frame.get "Booking ID" df = Frame.get "Booking ID" df' ->
  printed (data_quality_summary missing_df duplicates) df =
  printed (data_quality_summary missing_df duplicates) df' /\
  outcome (data_quality_summary missing_df duplicates) df =
  outcome (data_quality_summary missing_df duplicates) df'.
Proof.
  intros H. unfold data_quality_summary. audit_unfold.
  assert (E : summary_issues df missing_df duplicates =
              summary_issues df' missing_df duplicates)
    by (unfold summary_issues; rewrite H; reflexivity).
  rewrite E. destruct (summary_issues df' missing_df duplicates); auto.
Qed.

Section Writes.

Context {lib : Library}.

Lemma to_analyze_data_quality : touches_only derived_columns analyze_data_quality.
Proof.
  unfold analyze_data_quality.
  pose proof ro_basic_information. pose proof ro_data_types_analysis.
  pose proof ro_missing_values_analysis. pose proof ro_duplicate_records_analysis.
  pose proof ro_outlier_detection. pose proof ro_value_consistency_checks.
  pose proof ro_date_range_validation. pose proof ro_numeric_fields_validation.
  pose proof to_logical_consistency_checks.
  pose proof ro_data_quality_summary.
  repeat first [ to_step | assumption | apply to_read_only; solve [ auto ] ].
Qed.

(** C9, as the code has it: every check but the logical-consistency check
    leaves the frame as it found it; the logical-consistency check, and so
    the whole audit, leaves every column not named "Calculated Total" or
    "Cost Difference" as it was, present or absent; and the summary, the
    one check that runs afterwards, prints what it would have printed on
    the frame before: it reads no derived column. *)
Theorem only_derived_columns_change :
  (read_only basic_information /\ read_only data_types_analysis /\
   read_only missing_values_analysis /\ read_only duplicate_records_analysis /\
   read_only outlier_detection /\ read_only value_consistency_checks /\
   read_only date_range_validation /\ read_only numeric_fields_validation /\
   read_only packages_rule /\
   forall missing_df duplicates,
     read_only (data_quality_summary missing_df duplicates)) /\
  (forall st c,
     c <> "Calculated Total" -> c <> "Cost Difference" ->
     Frame.get c (frame (snd (logical_consistency_checks st))) = Frame.get c (frame st) /\
     Frame.get c (frame (snd (analyze_data_quality st))) = Frame.get c (frame st)) /\
  (forall st missing_df duplicates,
     printed (data_quality_summary missing_df duplicates)
             (frame (snd (logical_consistency_checks st))) =
     printed (data_quality_summary missing_df duplicates) (frame st)).
Proof.
  split; [ | split ].
  - repeat split;
      auto using ro_basic_information, ro_data_types_analysis,
        ro_missing_values_analysis, ro_duplicate_records_analysis,
        ro_outlier_detection, ro_value_consistency_checks,
        ro_date_range_validation, ro_numeric_fields_validation,
        ro_packages_rule, ro_data_quality_summary.
  - intros st c H1 H2. split.
    + apply to_logical_consistency_checks, not_derived; assumption.
    + apply to_analyze_data_quality, not_derived; assumption.
  - intros st missing_df duplicates.
    apply summary_reads_booking_id.
    apply to_logical_consistency_checks, not_derived; discriminate.
Qed.

End Writes.

Lemma only_derived_columns_change_witness :
  "Total Cost ($)" <> "Calculated Total" /\
  "Total Cost ($)" <> "Cost Difference" /\
  Frame.get "Total Cost ($)"
    (frame (snd (logical_consistency_checks (mkState (Sample.costs 120) []))))
  = Some (Int64 [120]%Z).
Proof.
  assert (H1 : "Total Cost ($)" <> "Calculated Total") by discriminate.
  assert (H2 : "Total Cost ($)" <> "Cost Difference") by discriminate.
  split; [ exact H1 | split; [ exact H2 | ] ].
  rewrite (proj1 (proj1 (proj2 (only_derived_columns_change (lib := Example.library)))
                    (mkState (Sample.costs 120) []) "Total Cost ($)" H1 H2)).
  reflexivity.
Defined.

(** C9 as stated fails on a file that already has a column named like a
    derived one: check 9 overwrites it. *)
Lemma preexisting_column_overwritten :
  outcome logical_consistency_checks Sample.costs_with_difference = Ok tt /\
  Frame.get "Cost Difference" Sample.costs_with_difference = Some (Int64 [0]%Z) /\
  Frame.get "Cost Difference"
    (frame_after logical_consistency_checks Sample.costs_with_difference)
  = Some (Int64 [5]%Z) /\
  Frame.columns (frame_after logical_consistency_checks Sample.costs_with_difference)
  = Frame.columns Sample.costs_with_difference ++ ["Calculated Total"].
Proof. repeat split. Qed.

(** ** Check 6: categorical values *)

(** *** Normalization is idempotent *)












(** *** Distinct values *)



Lemma filter_all {A} (p : A -> bool) (l : list A) :
  (forall x, In x l -> p x = true) -> filter p l = l.
Proof.
  induction l as [ | a l IH ]; simpl; intros H; [ reflexivity | ].
  rewrite (H a) by auto. f_equal. auto.
Qed.






(** *** The groups of similar values *)




Lemma filter_none {A} (p : A -> bool) (l : list A) :
  (forall x, In x l -> p x = false) -> filter p l = [].
Proof.
  induction l as [ | a l IH ]; simpl; intros H; [ reflexivity | ].
  rewrite (H a) by auto. auto.
Qed.









(** ** Check 9: the total-cost rule *)











Lemma set_set (c : string) (s1 s2 : Series) (df : DataFrame) :
  Frame.set c s2 (Frame.set c s1 df) = Frame.set c s2 df.
Proof.
  induction df as [ | [n x] df IH ]; simpl.
  - rewrite String.eqb_refl. reflexivity.
  - destruct (String.eqb n c) eqn:E; simpl; rewrite E; [ | rewrite IH ]; reflexivity.
Qed.








(** The columns of the specification's scenario written consistently give no
    warning. *)
Lemma tidy_statuses_no_warning :
  printed (consistency_column "Status") Sample.tidy_statuses
  = [ConsistencyHeader "Status" 2;
     ValueDistribution [("active", 2); ("inactive", 1)]].
Proof. reflexivity. Qed.

(** ** The checks outside [try] blocks, and the audit as a sequence *)

Lemma in_columns_get (c : string) (df : DataFrame) :
  In c (Frame.columns df) -> exists s, Frame.get c df = Some s.
Proof.
  unfold Frame.columns. induction df as [ | [n s] df IH ]; simpl; [ tauto | ].
  intros [-> | H].
  - rewrite String.eqb_refl. eauto.
  - destruct (String.eqb n c); eauto.
Qed.

Lemma get_in (c : string) (s : Series) (df : DataFrame) :
  Frame.get c df = Some s -> In (c, s) df.
Proof.
  induction df as [ | [n x] df IH ]; simpl; [ discriminate | ].
  destruct (String.eqb n c) eqn:E.
  - apply String.eqb_eq in E. intros H. inversion H; subst. auto.
  - auto.
Qed.

(** Two read-only statements in a row, the first ending normally. *)
Lemma seq_ok {A B} (m : M A) (k : A -> M B) (df : DataFrame) (a : A) :
  read_only m -> (forall x, read_only (k x)) -> outcome m df = Ok a ->
  outcome (bind m k) df = outcome (k a) df /\
  printed (bind m k) df = printed m df ++ printed (k a) df.
Proof.
  intros Hm Hk O. destruct (bind_run m k df Hm Hk) as [E P].
  rewrite E, P, O. auto.
Qed.

Lemma en_ret {A} (df : DataFrame) (a : A) : ends_normally_on df (ret a).
Proof. exists a. reflexivity. Qed.

Lemma en_print (df : DataFrame) (f : Finding) : ends_normally_on df (print f).
Proof. exists tt. reflexivity. Qed.

Lemma en_getitem (df : DataFrame) (c : string) :
  In c (Frame.columns df) -> ends_normally_on df (getitem c).
Proof.
  intros H. destruct (in_columns_get c df H) as [s G]. exists s.
  audit_unfold. rewrite G. reflexivity.
Qed.

Lemma en_bind {A B} (df : DataFrame) (m : M A) (k : A -> M B) :
  read_only m -> (forall a, read_only (k a)) ->
  ends_normally_on df m ->
  (forall a, outcome m df = Ok a -> ends_normally_on df (k a)) ->
  ends_normally_on df (bind m k).
Proof.
  intros Hm Hk [a O] H. destruct (H a O) as [b Ob]. exists b.
  rewrite (proj1 (seq_ok m k df a Hm Hk O)). exact Ob.
Qed.

(** [df] in the text of a check is the frame the check runs on. *)
Lemma en_read_frame {B} (df : DataFrame) (k : DataFrame -> M B) :
  (forall a, read_only (k a)) ->
  ends_normally_on df (k df) -> ends_normally_on df (bind read_frame k).
Proof.
  intros Hk H. apply en_bind; [ apply ro_read_frame | exact Hk | exists df; reflexivity | ].
  intros a O. inversion O; subst. exact H.
Qed.

Lemma en_when (df : DataFrame) (c : bool) (m : M unit) :
  ends_normally_on df m -> ends_normally_on df (when c m).
Proof. intros H. destruct c; [ exact H | apply en_ret ]. Qed.

Lemma en_for_each {A} (df : DataFrame) (l : list A) (body : A -> M unit) :
  (forall x, read_only (body x)) ->
  (forall x, In x l -> ends_normally_on df (body x)) ->
  ends_normally_on df (for_each l body).
Proof.
  intros Hr. induction l as [ | x l IH ]; intros H; [ apply en_ret | ].
  cbn [for_each]. apply en_bind.
  - apply Hr.
  - intros _. apply ro_for_each, Hr.
  - apply H. left. reflexivity.
  - intros _ _. apply IH. intros y Hy. apply H. right. exact Hy.
Qed.

Lemma en_never_raises {A} (df : DataFrame) (m : M A) :
  never_raises m -> ends_normally_on df m.
Proof. intros H. exact (H (mkState df [])). Qed.

Lemma en_unit (df : DataFrame) (m : M unit) :
  ends_normally_on df m -> outcome m df = Ok tt.
Proof. intros [[] H]. exact H. Qed.

(** A loop whose body only reads and ends normally on every element prints
    what its rounds print, one after the other. *)
Lemma for_each_printed_on {A} (df : DataFrame) (l : list A) (body : A -> M unit) :
  (forall x, read_only (body x)) ->
  (forall x, In x l -> ends_normally_on df (body x)) ->
  printed (for_each l body) df = flat_map (fun x => printed (body x) df) l.
Proof.
  intros Hr. induction l as [ | x l IH ]; intros H; [ reflexivity | ].
  cbn [for_each flat_map].
  destruct (seq_ok (body x) (fun _ => for_each l body) df tt (Hr x)
                   (fun _ => ro_for_each l body Hr)) as [_ P].
  { apply en_unit, H. left. reflexivity. }
  rewrite P, IH; [ reflexivity | ]. intros y Hy. apply H. right. exact Hy.
Qed.

Lemma hinted_in_columns (keywords : list string) (df : DataFrame) (col : string) :
  In col (filter (PyStr.any_keyword keywords) (Frame.columns df)) ->
  In col (Frame.columns df).
Proof. intros H. apply filter_In in H. tauto. Qed.

Lemma categorical_in_columns (df : DataFrame) (col : string) :
  In col (categorical_cols df) -> In col (Frame.columns df).
Proof.
  unfold categorical_cols, Frame.columns. intros H.
  apply in_map_iff in H. destruct H as [c [<- Hc]].
  apply filter_In in Hc. apply in_map. tauto.
Qed.

(** One step along the text of a check that only reads. *)
Ltac en_step :=
  match goal with
  | |- ends_normally_on _ (bind read_frame _) =>
      apply en_read_frame; [ intro; read_only_tac | cbv beta ]
  | |- ends_normally_on _ (bind _ _) =>
      apply en_bind; [ read_only_tac | intro; read_only_tac | | intros ? _; cbv beta ]
  | |- ends_normally_on _ (when _ _) => apply en_when
  | |- ends_normally_on _ (for_each _ _) =>
      apply en_for_each; [ intro; read_only_tac | intros ? ?; cbv beta ]
  | |- ends_normally_on _ (if ?c then _ else _) => destruct c
  | |- ends_normally_on _ (print _) => apply en_print
  | |- ends_normally_on _ (ret _) => apply en_ret
  | |- ends_normally_on _ (getitem _) =>
      apply en_getitem; eauto using hinted_in_columns, categorical_in_columns
  | |- ends_normally_on _ _ => progress cbv zeta
  end.

Lemma en_basic_information (df : DataFrame) : ends_normally_on df basic_information.
Proof. unfold basic_information. repeat en_step. Qed.

Lemma en_data_types_analysis (df : DataFrame) :
  ends_normally_on df data_types_analysis.
Proof.
  unfold data_types_analysis, date_columns, numeric_columns, boolean_columns.
  repeat en_step.
Qed.

Lemma missing_values_outcome (df : DataFrame) :
  outcome missing_values_analysis df = Ok (missing_table df).
Proof.
  unfold missing_values_analysis. audit_unfold. cbv zeta.
  destruct (0 <? length (filter (fun r => (0 <? m_count r)%nat) (missing_table df)))%nat;
    audit_unfold;
    destruct (0 <? length (filter (fun r => (20 <? m_percent r)%float)
                                  (missing_table df)))%nat;
    audit_unfold; reflexivity.
Qed.

Lemma en_value_consistency_checks (df : DataFrame) :
  ends_normally_on df value_consistency_checks.
Proof.
  unfold value_consistency_checks, consistency_column, variation_report.
  repeat en_step.
Qed.

(** ** Statements determined by the frame *)

Lemma fd_read_only {A} (m : M A) : read_only m -> frame_determined m.
Proof.
  intros H st. rewrite (H st). unfold frame_after, run.
  rewrite (H (mkState (frame st) [])). reflexivity.
Qed.

Lemma fd_setitem (c : string) (s : Series) : frame_determined (setitem c s).
Proof. intros st. unfold setitem. audit_unfold. rewrite app_nil_r. reflexivity. Qed.

Lemma fd_bind_run {A B} (m : M A) (k : A -> M B) (df : DataFrame) :
  frame_determined m -> (forall a, frame_determined (k a)) ->
  run (bind m k) df =
  match outcome m df with
  | Ok a => (outcome (k a) (frame_after m df),
             mkState (frame_after (k a) (frame_after m df))
                     (printed m df ++ printed (k a) (frame_after m df)))
  | Raise e => (Raise e, mkState (frame_after m df) (printed m df))
  end.
Proof.
  intros Hm Hk. unfold run, bind. rewrite (Hm (mkState df [])). cbn [frame console app].
  destruct (outcome m df) as [ a | e ]; [ | reflexivity ].
  rewrite (Hk a _). reflexivity.
Qed.

Lemma fd_bind {A B} (m : M A) (k : A -> M B) :
  frame_determined m -> (forall a, frame_determined (k a)) ->
  frame_determined (bind m k).
Proof.
  intros Hm Hk st. pose proof (fd_bind_run m k (frame st) Hm Hk) as R.
  unfold outcome, frame_after, printed. rewrite R. clear R.
  unfold bind. rewrite (Hm st).
  destruct (outcome m (frame st)) as [ a | e ]; cbn [fst snd frame console].
  - rewrite (Hk a _). cbn [frame console]. rewrite app_assoc. reflexivity.
  - reflexivity.
Qed.

Lemma fd_when (c : bool) (m : M unit) : frame_determined m -> frame_determined (when c m).
Proof. intros H. destruct c; [ exact H | apply fd_read_only, ro_ret ]. Qed.

Ltac fd_step :=
  match goal with
  | |- frame_determined (bind _ _) => apply fd_bind; [ | intro; cbv beta ]
  | |- frame_determined (when _ _) => apply fd_when
  | |- frame_determined (setitem _ _) => apply fd_setitem
  | |- frame_determined _ => solve [ apply fd_read_only; auto with audit ]
  | |- frame_determined _ => progress cbv zeta
  end.

Lemma fd_total_cost_rule : frame_determined total_cost_rule.
Proof. unfold total_cost_rule. repeat fd_step. Qed.

Lemma fd_logical_consistency_checks : frame_determined logical_consistency_checks.
Proof.
  unfold logical_consistency_checks.
  pose proof ro_packages_rule. pose proof fd_total_cost_rule.
  repeat first [ fd_step | assumption | apply fd_read_only; assumption ].
Qed.

(** What follows a read-only statement that ends normally runs from the
    same frame, after the lines of that statement. *)
Lemma then_any {A B} (m : M A) (k : A -> M B) (df : DataFrame) (out : list Finding)
      (a : A) :
  read_only m -> outcome m df = Ok a ->
  bind m k (mkState df out) = k a (mkState df (out ++ printed m df)).
Proof.
  intros Hr O. unfold bind. rewrite (Hr (mkState df out)). cbn [frame console].
  rewrite O. reflexivity.
Qed.

(** ** Lines of a kind *)

Section PrintsOnly.

Variable P : Finding -> Prop.

Lemma po_ret {A} (a : A) : prints_only P (ret a).
Proof. intros st. exists []. rewrite app_nil_r. auto. Qed.

Lemma po_lift {A} (r : result A) : prints_only P (lift r).
Proof. intros st. exists []. rewrite app_nil_r. auto. Qed.

Lemma po_read_frame : prints_only P read_frame.
Proof. intros st. exists []. rewrite app_nil_r. auto. Qed.

Lemma po_getitem (c : string) : prints_only P (getitem c).
Proof. intros st. exists []. rewrite app_nil_r. auto. Qed.

Lemma po_setitem (c : string) (s : Series) : prints_only P (setitem c s).
Proof. intros st. exists []. cbn. rewrite app_nil_r. auto. Qed.

Lemma po_print (f : Finding) : P f -> prints_only P (print f).
Proof. intros H st. exists [f]. auto. Qed.

Lemma po_bind {A B} (m : M A) (k : A -> M B) :
  prints_only P m -> (forall a, prints_only P (k a)) -> prints_only P (bind m k).
Proof.
  intros Hm Hk st. unfold bind. destruct (Hm st) as [l [E F]].
  destruct (m st) as [[ a | e ] st']; cbn [snd] in *.
  - destruct (Hk a st') as [l' [E' F']]. exists (l ++ l').
    rewrite E', E, app_assoc. split; [ reflexivity | apply Forall_app; auto ].
  - exists l. auto.
Qed.

Lemma po_try {A} (body : M A) (handler : exn -> M A) :
  prints_only P body -> (forall e, prints_only P (handler e)) ->
  prints_only P (try_except body handler).
Proof.
  intros Hb Hh st. unfold try_except. destruct (Hb st) as [l [E F]].
  destruct (body st) as [[ a | e ] st']; cbn [snd] in *.
  - exists l. auto.
  - destruct (Hh e st') as [l' [E' F']]. exists (l ++ l').
    rewrite E', E, app_assoc. split; [ reflexivity | apply Forall_app; auto ].
Qed.

Lemma po_when (c : bool) (m : M unit) : prints_only P m -> prints_only P (when c m).
Proof. intros H. destruct c; [ exact H | apply po_ret ]. Qed.

Lemma po_for_each {A} (l : list A) (body : A -> M unit) :
  (forall x, prints_only P (body x)) -> prints_only P (for_each l body).
Proof.
  intros H. induction l as [ | x l IH ]; simpl; [ apply po_ret | ].
  apply po_bind; auto.
Qed.

Lemma po_printed {A} (m : M A) (df : DataFrame) :
  prints_only P m -> Forall P (printed m df).
Proof.
  intros H. destruct (H (mkState df [])) as [l [E F]].
  unfold printed, run. rewrite E. exact F.
Qed.

End PrintsOnly.

Ltac po_step :=
  match goal with
  | |- prints_only _ (bind _ _) => apply po_bind; [ | intro; cbv beta ]
  | |- prints_only _ (when _ _) => apply po_when
  | |- prints_only _ (try_except _ _) => apply po_try; [ | intro; cbv beta ]
  | |- prints_only _ (for_each _ _) => apply po_for_each; intro; cbv beta
  | |- prints_only _ (if ?c then _ else _) => destruct c
  | |- prints_only _ (match ?x with _ => _ end) => destruct x
  | |- prints_only _ (print _) => apply po_print; reflexivity
  | |- prints_only _ (ret _) => apply po_ret
  | |- prints_only _ (lift _) => apply po_lift
  | |- prints_only _ read_frame => apply po_read_frame
  | |- prints_only _ (getitem _) => apply po_getitem
  | |- prints_only _ (setitem _ _) => apply po_setitem
  | |- prints_only _ _ => progress cbv zeta
  end.

Section NoSummaryLine.

Context {lib : Library}.

Lemma po_basic_information : prints_only not_summary_line basic_information.
Proof. unfold basic_information. repeat po_step. Qed.

Lemma po_data_types_analysis : prints_only not_summary_line data_types_analysis.
Proof. unfold data_types_analysis. repeat po_step. Qed.

Lemma po_missing_values_analysis : prints_only not_summary_line missing_values_analysis.
Proof. unfold missing_values_analysis. repeat po_step. Qed.

Lemma po_duplicate_records_analysis : prints_only not_summary_line duplicate_records_analysis.
Proof. unfold duplicate_records_analysis. repeat po_step. Qed.

Lemma po_outlier_detection : prints_only not_summary_line outlier_detection.
Proof. unfold outlier_detection, outlier_column, outlier_report. repeat po_step. Qed.

Lemma po_value_consistency_checks : prints_only not_summary_line value_consistency_checks.
Proof.
  unfold value_consistency_checks, consistency_column, variation_report.
  repeat po_step.
Qed.

Lemma po_date_range_validation : prints_only not_summary_line date_range_validation.
Proof. unfold date_range_validation, date_column, date_report. repeat po_step. Qed.

Lemma po_numeric_fields_validation : prints_only not_summary_line numeric_fields_validation.
Proof.
  unfold numeric_fields_validation, numeric_column, numeric_report. repeat po_step.
Qed.

Lemma po_logical_consistency_checks : prints_only not_summary_line logical_consistency_checks.
Proof.
  unfold logical_consistency_checks, packages_rule, total_cost_rule. repeat po_step.
Qed.

End NoSummaryLine.

(** ** The audit as a whole *)

Lemma packages_rule_outcome (df : DataFrame) : outcome packages_rule df = Ok tt.
Proof.
  unfold packages_rule. audit_unfold. rewrite !has_column_get.
  destruct (Frame.get "Packages" df) eqn:E1;
    destruct (Frame.get "Packages Cost ($)" df) eqn:E2;
    cbn [andb]; audit_unfold; rewrite ?E1, ?E2; try reflexivity.
  match goal with |- context [ (0 <? ?n)%nat ] => destruct (0 <? n)%nat end;
    reflexivity.
Qed.

Lemma summary_printed (missing_df : list MissingRow) (duplicates : nat)
      (df : DataFrame) :
  printed (data_quality_summary missing_df duplicates) df =
  [Banner 10;
   match summary_issues df missing_df duplicates with
   | [] => NoSignificantIssues
   | issues => IssuesIdentified issues
   end;
   AnalysisComplete].
Proof.
  unfold data_quality_summary. audit_unfold.
  destruct (summary_issues df missing_df duplicates); reflexivity.
Qed.

Lemma summary_outcome (missing_df : list MissingRow) (duplicates : nat)
      (df : DataFrame) :
  outcome (data_quality_summary missing_df duplicates) df = Ok tt.
Proof.
  unfold data_quality_summary. audit_unfold.
  destruct (summary_issues df missing_df duplicates); reflexivity.
Qed.

(** X1: the checks that are not inside a [try] block, the total-cost rule
    apart, end normally on every frame: checks 1, 2, 3, 4 and 6, the packages
    rule of check 9 and the summary.  The columns they look up are taken
    from the frame or guarded by a presence test.  Check 3 hands the table of
    missing values on, check 4 the number of duplicate rows. *)
Theorem unguarded_checks_end_normally (df : DataFrame) :
  outcome basic_information df = Ok tt /\
  outcome data_types_analysis df = Ok tt /\
  outcome missing_values_analysis df = Ok (missing_table df) /\
  outcome duplicate_records_analysis df = Ok (duplicate_rows df) /\
  outcome value_consistency_checks df = Ok tt /\
  outcome packages_rule df = Ok tt /\
  (forall missing_df duplicates,
     outcome (data_quality_summary missing_df duplicates) df = Ok tt).
Proof.
  split; [ | split; [ | split; [ | split; [ | split; [ | split ] ] ] ] ].
  - apply en_unit, en_basic_information.
  - apply en_unit, en_data_types_analysis.
  - apply missing_values_outcome.
  - apply duplicate_records_outcome.
  - apply en_unit, en_value_consistency_checks.
  - apply packages_rule_outcome.
  - intros. apply summary_outcome.
Qed.

Section WholeAudit.

Context {lib : Library}.

Lemma audit_run (df : DataFrame) :
  run analyze_data_quality df =
  (outcome logical_consistency_checks df,
   mkState (frame_after logical_consistency_checks df)
           (lines_before_logical df ++ printed logical_consistency_checks df ++
            match outcome logical_consistency_checks df with
            | Ok _ => printed (data_quality_summary (missing_table df)
                                                    (duplicate_rows df)) df
            | Raise _ => []
            end)).
Proof.
  unfold run, analyze_data_quality.
  rewrite (then_any basic_information _ df _ tt ro_basic_information
             (en_unit _ _ (en_basic_information df))).
  rewrite (then_any data_types_analysis _ df _ tt ro_data_types_analysis
             (en_unit _ _ (en_data_types_analysis df))).
  rewrite (then_any missing_values_analysis _ df _ _ ro_missing_values_analysis
             (missing_values_outcome df)).
  rewrite (then_any duplicate_records_analysis _ df _ _ ro_duplicate_records_analysis
             (duplicate_records_outcome df)).
  rewrite (then_any outlier_detection _ df _ tt ro_outlier_detection
             (never_raises_outcome _ df nr_outlier_detection)).
  rewrite (then_any value_consistency_checks _ df _ tt ro_value_consistency_checks
             (en_unit _ _ (en_value_consistency_checks df))).
  rewrite (then_any date_range_validation _ df _ tt ro_date_range_validation
             (never_raises_outcome _ df nr_date_range_validation)).
  rewrite (then_any numeric_fields_validation _ df _ tt ro_numeric_fields_validation
             (never_raises_outcome _ df nr_numeric_fields_validation)).
  cbn [app]. unfold bind.
  rewrite (fd_logical_consistency_checks (mkState df _)). cbn [frame console].
  assert (L : (((((((printed basic_information df ++ printed data_types_analysis df) ++
                    printed missing_values_analysis df) ++
                   printed duplicate_records_analysis df) ++
                  printed outlier_detection df) ++
                 printed value_consistency_checks df) ++
                printed date_range_validation df) ++
               printed numeric_fields_validation df) = lines_before_logical df)
    by (unfold lines_before_logical; rewrite <- !app_assoc; reflexivity).
  rewrite L.
  destruct (outcome logical_consistency_checks df) as [ [] | e ].
  - rewrite (ro_data_quality_summary _ _ (mkState _ _)). cbn [frame console].
    rewrite summary_outcome.
    assert (B : Frame.get "Booking ID" (frame_after logical_consistency_checks df)
                = Frame.get "Booking ID" df).
    { apply (to_logical_consistency_checks (mkState df [])), not_derived; discriminate. }
    rewrite (proj1 (summary_reads_booking_id _ _ _ _ B)), <- app_assoc. reflexivity.
  - rewrite app_nil_r. reflexivity.
Qed.

Lemma audit_run_outcome (df : DataFrame) :
  outcome analyze_data_quality df = outcome logical_consistency_checks df /\
  frame_after analyze_data_quality df = frame_after logical_consistency_checks df.
Proof.
  unfold outcome at 1, frame_after at 1. rewrite audit_run. auto.
Qed.

Lemma Forall_not_In (P : Finding -> Prop) (f : Finding) (l : list Finding) :
  Forall P l -> ~ P f -> ~ In f l.
Proof. intros F N H. apply N. rewrite Forall_forall in F. auto. Qed.

Lemma lines_before_logical_other (df : DataFrame) :
  Forall not_summary_line (lines_before_logical df).
Proof.
  unfold lines_before_logical.
  rewrite !Forall_app. repeat split;
    apply po_printed;
    auto using po_basic_information, po_data_types_analysis,
      po_missing_values_analysis, po_duplicate_records_analysis,
      po_outlier_detection, po_value_consistency_checks,
      po_date_range_validation, po_numeric_fields_validation.
Qed.

Lemma existsb_Forall_false {A} (p : A -> bool) (l : list A) :
  Forall (fun x => p x = false) l -> existsb p l = false.
Proof. induction 1 as [ | x l H _ IH ]; simpl; [ | rewrite H, IH ]; reflexivity. Qed.

(** A line of the summary is printed by the audit exactly when the audit
    gets to the summary and the summary prints it. *)
Lemma summary_line_printed (df : DataFrame) (f : Finding) :
  is_summary_line f = true ->
  (In f (printed analyze_data_quality df) <->
   outcome analyze_data_quality df = Ok tt /\
   In f (printed (data_quality_summary (missing_table df) (duplicate_rows df)) df)).
Proof.
  intros S. unfold printed at 1. rewrite audit_run. cbn [snd console].
  rewrite (proj1 (audit_run_outcome df)).
  assert (N : forall l, Forall not_summary_line l -> ~ In f l).
  { intros l F. apply (Forall_not_In not_summary_line); [ exact F | ].
    unfold not_summary_line. rewrite S. discriminate. }
  pose proof (N _ (lines_before_logical_other df)) as N1.
  pose proof (N _ (po_printed _ _ df po_logical_consistency_checks)) as N2.
  rewrite !in_app_iff.
  destruct (outcome logical_consistency_checks df) as [ [] | e ].
  - tauto.
  - split; [ | intros [H _]; discriminate H ].
    intros [H | [H | []]]; contradiction.
Qed.

(** X2: the audit is its ten checks one after the other, each run on the
    frame as loaded (check 9 adds columns the summary does not read).
    Checks 1 to 8 always run to their end, so the audit ends as check 9
    does: when the total-cost rule raises, the exception leaves the audit
    and nothing of the summary, not even the closing line, is printed; the
    closing line is printed exactly when the audit ends normally. *)
Theorem audit_ends_as_check_9 (df : DataFrame) :
  outcome analyze_data_quality df = outcome logical_consistency_checks df /\
  printed analyze_data_quality df =
    lines_before_logical df ++ printed logical_consistency_checks df ++
    match outcome logical_consistency_checks df with
    | Ok _ => printed (data_quality_summary (missing_table df) (duplicate_rows df)) df
    | Raise _ => []
    end /\
  (In AnalysisComplete (printed analyze_data_quality df) <->
   outcome analyze_data_quality df = Ok tt) /\
  (forall e, outcome analyze_data_quality df = Raise e ->
             existsb is_summary_line (printed analyze_data_quality df) = false).
Proof.
  pose proof (audit_run df) as R.
  assert (O : outcome analyze_data_quality df = outcome logical_consistency_checks df)
    by (unfold outcome at 1; rewrite R; reflexivity).
  assert (P : printed analyze_data_quality df =
              lines_before_logical df ++ printed logical_consistency_checks df ++
              match outcome logical_consistency_checks df with
              | Ok _ => printed (data_quality_summary (missing_table df)
                                                      (duplicate_rows df)) df
              | Raise _ => []
              end)
    by (unfold printed at 1; rewrite R; reflexivity).
  assert (F : Forall not_summary_line
                (lines_before_logical df ++ printed logical_consistency_checks df)).
  { apply Forall_app. split; [ apply lines_before_logical_other | ].
    apply po_printed, po_logical_consistency_checks. }
  split; [ exact O | split; [ exact P | split ] ].
  - rewrite P, O. destruct (outcome logical_consistency_checks df) as [ [] | e ].
    + split; [ reflexivity | intros _ ].
      rewrite summary_printed, !in_app_iff. right. right. simpl. auto.
    + rewrite app_nil_r. split; [ | discriminate ].
      intros H. exfalso. revert H. apply (Forall_not_In not_summary_line); [ exact F | ].
      discriminate.
  - intros e E. rewrite P. rewrite O in E. rewrite E, app_nil_r.
    apply existsb_Forall_false. exact F.
Qed.

End WholeAudit.

(** ** Check 9: what can go wrong *)

Lemma traverse_error {A B} (f : A -> result B) (l : list A) (e e0 : exn) :
  (forall x e', f x = Raise e' -> e' = e0) -> traverse f l = Raise e -> e = e0.
Proof.
  intros Hf. induction l as [ | x l IH ]; simpl; [ discriminate | ].
  destruct (f x) as [ y | e' ] eqn:Fx; simpl.
  - destruct (traverse f l) as [ ys | e' ]; simpl; [ discriminate | ].
    intros H. inversion H; subst. apply IH. reflexivity.
  - intros H. inversion H; subst. eapply Hf. exact Fx.
Qed.

Lemma missing_only_error (a : option string) (e : exn) :
  Arith.missing_only a = Raise e -> e = TypeError.
Proof. destruct a; simpl; congruence. Qed.

Lemma with_text_error (f : option string -> option string -> result (option string))
      (a b : Series) (e : exn) :
  (forall x y e', f x y = Raise e' -> e' = TypeError) ->
  Arith.with_text f a b = Raise e -> e = TypeError.
Proof.
  intros Hf. unfold Arith.with_text.
  destruct a as [ x | x | x | x ], b as [ y | y | y | y ];
    try (intros H; inversion H; reflexivity);
    match goal with
    | |- rbind (traverse ?g ?l) _ = _ -> _ =>
        destruct (traverse g l) as [ v | e' ] eqn:T; simpl; [ discriminate | ];
        intros H; inversion H; subst;
        apply (traverse_error g l e TypeError); [ | exact T ]
    end;
    intros p e'; cbv beta; eauto using missing_only_error.
Qed.

(** Column arithmetic raises nothing but [TypeError]. *)
Lemma add_error (a b : Series) (e : exn) :
  Arith.add a b = Raise e -> e = TypeError.
Proof.
  unfold Arith.add.
  assert (T : forall x y e', Arith.text_add x y = Raise e' -> e' = TypeError)
    by (intros [ x | ] [ y | ] e'; simpl; congruence).
  destruct a, b; cbn [Arith.as_nums]; try discriminate; apply with_text_error; exact T.
Qed.

Lemma sub_error (a b : Series) (e : exn) :
  Arith.sub a b = Raise e -> e = TypeError.
Proof.
  unfold Arith.sub.
  assert (T : forall x y e', Arith.text_sub x y = Raise e' -> e' = TypeError)
    by (intros [ x | ] [ y | ] e'; simpl; congruence).
  destruct a, b; cbn [Arith.as_nums]; try discriminate; try congruence;
    apply with_text_error; exact T.
Qed.

Lemma abs_error (a : Series) (e : exn) : Arith.abs a = Raise e -> e = TypeError.
Proof.
  destruct a as [ v | v | v | v ]; simpl; try discriminate.
  destruct (traverse Arith.missing_only v) as [ w | e' ] eqn:T; simpl; [ discriminate | ].
  intros H. inversion H; subst.
  apply (traverse_error Arith.missing_only v e TypeError); [ | exact T ].
  intros x e'. apply missing_only_error.
Qed.

Lemma gt_error (a : Series) (c : float) (e : exn) :
  Arith.gt a c = Raise e -> e = TypeError.
Proof.
  destruct a as [ v | v | v | v ]; simpl; try discriminate.
  apply traverse_error. intros [ x | ] e'; congruence.
Qed.

(** Following the total-cost rule statement by statement: every lookup
    and every arithmetic step is a case distinction. *)
Ltac walk :=
  repeat first
    [ rewrite has_column_get
    | rewrite get_set_same
    | rewrite get_set_other by reflexivity
    | progress cbn [frame console fst snd app andb forallb when]
    | progress unfold bind, ret, print, when, getitem, read_frame, setitem, lift,
                      Frame.getitem
    | match goal with
      | H : Frame.get ?c ?f = _ |- context [ Frame.get ?c ?f ] => rewrite H
      | |- context [ match Frame.get ?c ?f with _ => _ end ] =>
          destruct (Frame.get c f) eqn:?
      | |- context [ match Arith.add ?a ?b with _ => _ end ] =>
          destruct (Arith.add a b) eqn:?
      | |- context [ match Arith.sub ?a ?b with _ => _ end ] =>
          destruct (Arith.sub a b) eqn:?
      | |- context [ match Arith.abs ?a with _ => _ end ] =>
          destruct (Arith.abs a) eqn:?
      | |- context [ match Arith.gt ?a ?c with _ => _ end ] =>
          destruct (Arith.gt a c) eqn:?
      | |- context [ if (0 <? ?n)%nat then _ else _ ] => destruct (0 <? n)%nat
      end ].

Lemma total_cost_rule_raises (st : State) :
  match fst (total_cost_rule st) with
  | Ok _ => True
  | Raise e => e = TypeError
  end.
Proof.
  unfold total_cost_rule, total_cost_columns. walk;
    eauto using add_error, sub_error, abs_error, gt_error.
Qed.

(** Check 9 runs the total-cost rule after its banner and the packages
    rule, which only reads and always ends normally. *)
Lemma logical_run (df : DataFrame) (out : list Finding) :
  logical_consistency_checks (mkState df out) =
  total_cost_rule (mkState df (out ++ Banner 9 :: printed packages_rule df)).
Proof.
  unfold logical_consistency_checks.
  rewrite (then_any (print (Banner 9)) _ df out tt (ro_print _) eq_refl).
  rewrite (then_any packages_rule _ df _ tt ro_packages_rule (packages_rule_outcome df)).
  rewrite <- app_assoc. reflexivity.
Qed.

Lemma logical_outcome (df : DataFrame) :
  outcome logical_consistency_checks df = outcome total_cost_rule df.
Proof.
  unfold outcome at 1, run. rewrite logical_run, (fd_total_cost_rule (mkState df _)).
  reflexivity.
Qed.

Lemma logical_printed (df : DataFrame) :
  printed logical_consistency_checks df =
  Banner 9 :: printed packages_rule df ++ printed total_cost_rule df.
Proof.
  unfold printed at 1, run. rewrite logical_run, (fd_total_cost_rule (mkState df _)).
  reflexivity.
Qed.

Lemma logical_frame_after (df : DataFrame) :
  frame_after logical_consistency_checks df = frame_after total_cost_rule df.
Proof.
  unfold frame_after at 1, run. rewrite logical_run, (fd_total_cost_rule (mkState df _)).
  reflexivity.
Qed.

Section OnlyTypeError.

Context {lib : Library}.

(** X3: an exception that leaves the audit is a [TypeError], and it was
    raised by the column arithmetic of the total-cost rule of check 9, the
    one computation on columns outside a [try] block.  Whatever is raised
    inside checks 5, 7 and 8 (division by zero, a failed lookup, a failed
    conversion) never leaves the audit. *)
Theorem audit_raises_only_type_error (df : DataFrame) (e : exn) :
  outcome analyze_data_quality df = Raise e ->
  e = TypeError /\ outcome total_cost_rule df = Raise TypeError.
Proof.
  intros H. rewrite (proj1 (audit_run_outcome df)), logical_outcome in H.
  pose proof (total_cost_rule_raises (mkState df [])) as T.
  unfold outcome, run in H. rewrite H in T. subst e.
  split; [ reflexivity | exact H ].
Qed.

End OnlyTypeError.

Lemma audit_raises_only_type_error_witness :
  outcome (analyze_data_quality (lib := Example.library)) Case.text_total
  = Raise TypeError /\
  outcome total_cost_rule Case.text_total = Raise TypeError.
Proof.
  assert (H : outcome (analyze_data_quality (lib := Example.library)) Case.text_total
              = Raise TypeError) by (vm_compute; reflexivity).
  split; [ exact H | ].
  exact (proj2 (audit_raises_only_type_error (lib := Example.library)
                  Case.text_total TypeError H)).
Defined.

(** A text value meets a number: the subtraction raises. *)
Lemma traverse_missing_raises {B} (v : list (option string)) (w : list B) (x : string) :
  In (Some x) v -> length v <= length w ->
  traverse (fun p : option string * B => Arith.missing_only (fst p)) (combine v w)
  = Raise TypeError.
Proof.
  revert w. induction v as [ | o v IH ]; intros w Hin L; [ destruct Hin | ].
  destruct w as [ | b w ]; [ simpl in L; lia | ].
  simpl. destruct o as [ y | ]; simpl; [ reflexivity | ].
  destruct Hin as [ H | H ]; [ discriminate | ].
  rewrite IH; [ reflexivity | exact H | simpl in L; lia ].
Qed.

Lemma sub_text_int (v : list (option string)) (c : list Z) (x : string) :
  In (Some x) v -> length v <= length c ->
  Arith.with_text Arith.text_sub (Object v) (Int64 c) = Raise TypeError.
Proof.
  intros Hin L. unfold Arith.with_text. cbn [Ser.cells].
  rewrite (traverse_missing_raises v (map CInt c) x Hin); [ reflexivity | ].
  rewrite length_map. exact L.
Qed.

Lemma length_map2 {A B C} (f : A -> B -> C) (x : list A) (y : list B) :
  length (Arith.map2 f x y) = Nat.min (length x) (length y).
Proof. unfold Arith.map2. rewrite length_map, length_combine. reflexivity. Qed.

Lemma well_formed_get (df : DataFrame) (c : string) (s : Series) :
  Frame.well_formed df -> Frame.get c df = Some s -> Ser.len s = Frame.nrows df.
Proof. intros W G. apply (W c s). apply get_in. exact G. Qed.

(** The total-cost rule on integer components and a stated total that is
    text with at least one value. *)
Lemma total_cost_rule_text_total (df : DataFrame) (out : list Finding)
      (v : list (option string)) (x : string) (r p a : list Z) :
  Frame.well_formed df ->
  Frame.get "Total Cost ($)" df = Some (Object v) ->
  In (Some x) v ->
  Frame.get "Reservation Cost ($)" df = Some (Int64 r) ->
  Frame.get "Packages Cost ($)" df = Some (Int64 p) ->
  Frame.get "Add Ons Cost ($)" df = Some (Int64 a) ->
  (forall D, Frame.get "Promo Code Discount ($)" df = Some D -> exists d, D = Int64 d) ->
  exists calc,
    total_cost_rule (mkState df out) =
    (Raise TypeError, mkState (Frame.set "Calculated Total" calc df) out).
Proof.
  intros W GT Hin GR GP GA HD.
  pose proof (well_formed_get df _ _ W GT) as LT.
  pose proof (well_formed_get df _ _ W GR) as LR.
  pose proof (well_formed_get df _ _ W GP) as LP.
  pose proof (well_formed_get df _ _ W GA) as LA.
  simpl in LT, LR, LP, LA.
  unfold total_cost_rule, total_cost_columns.
  destruct (Frame.get "Promo Code Discount ($)" df) as [ D | ] eqn:GD.
  - destruct (HD D eq_refl) as [d ->].
    pose proof (well_formed_get df _ _ W GD) as LD. simpl in LD.
    repeat first
      [ rewrite has_column_get
      | rewrite get_set_same
      | rewrite get_set_other by reflexivity
      | rewrite set_set
      | rewrite GT | rewrite GR | rewrite GP | rewrite GA | rewrite GD
      | progress cbn [frame console fst snd app andb forallb when orb
                      Arith.add Arith.sub Arith.as_nums Arith.is_float64 Arith.pack]
      | progress unfold bind, ret, print, when, getitem, read_frame, setitem, lift,
                        Frame.getitem ].
    rewrite (sub_text_int v _ x Hin).
    + eexists. reflexivity.
    + repeat (rewrite length_map || rewrite length_map2). lia.
  - repeat first
      [ rewrite has_column_get
      | rewrite get_set_same
      | rewrite get_set_other by reflexivity
      | rewrite GT | rewrite GR | rewrite GP | rewrite GA | rewrite GD
      | progress cbn [frame console fst snd app andb forallb when orb
                      Arith.add Arith.sub Arith.as_nums Arith.is_float64 Arith.pack]
      | progress unfold bind, ret, print, when, getitem, read_frame, setitem, lift,
                        Frame.getitem ].
    rewrite (sub_text_int v _ x Hin).
    + eexists. reflexivity.
    + repeat (rewrite length_map || rewrite length_map2). lia.
Qed.

Section TextTotal.

Context {lib : Library}.

(** X4: check 8 cleans a currency column for its own statistics only; check 9
    works on the column as loaded.  When the stated total is a text column
    with at least one value and the components are integer columns, the
    subtraction of the calculated total raises [TypeError]: the rule prints
    nothing, the exception leaves the audit, and the audit stops after the
    lines of the packages rule, without summary nor closing line. *)
Theorem text_total_cost_stops_audit (df : DataFrame) (v : list (option string))
        (x : string) (r p a : list Z) :
  Frame.well_formed df ->
  Frame.get "Total Cost ($)" df = Some (Object v) ->
  In (Some x) v ->
  Frame.get "Reservation Cost ($)" df = Some (Int64 r) ->
  Frame.get "Packages Cost ($)" df = Some (Int64 p) ->
  Frame.get "Add Ons Cost ($)" df = Some (Int64 a) ->
  (forall D, Frame.get "Promo Code Discount ($)" df = Some D -> exists d, D = Int64 d) ->
  outcome total_cost_rule df = Raise TypeError /\
  printed total_cost_rule df = [] /\
  outcome analyze_data_quality df = Raise TypeError /\
  printed analyze_data_quality df =
    lines_before_logical df ++ Banner 9 :: printed packages_rule df /\
  ~ In AnalysisComplete (printed analyze_data_quality df).
Proof.
  intros W GT Hin GR GP GA HD.
  destruct (total_cost_rule_text_total df [] v x r p a W GT Hin GR GP GA HD)
    as [calc E].
  assert (O : outcome total_cost_rule df = Raise TypeError)
    by (unfold outcome, run; rewrite E; reflexivity).
  assert (P : printed total_cost_rule df = [])
    by (unfold printed, run; rewrite E; reflexivity).
  assert (L : outcome logical_consistency_checks df = Raise TypeError)
    by (rewrite logical_outcome; exact O).
  assert (Q : printed analyze_data_quality df =
              lines_before_logical df ++ Banner 9 :: printed packages_rule df).
  { unfold printed at 1. rewrite audit_run, L, logical_printed, P, !app_nil_r.
    reflexivity. }
  split; [ exact O | split; [ exact P | split; [ | split; [ exact Q | ] ] ] ].
  - rewrite (proj1 (audit_run_outcome df)). exact L.
  - rewrite Q. change (Banner 9 :: printed packages_rule df)
      with ([Banner 9] ++ printed packages_rule df).
    apply (Forall_not_In not_summary_line); [ | discriminate ].
    rewrite !Forall_app. repeat split.
    + apply lines_before_logical_other.
    + repeat constructor.
    + apply po_printed. unfold packages_rule. repeat po_step.
Qed.

End TextTotal.

Lemma text_total_well_formed : Frame.well_formed Case.text_total.
Proof.
  intros c s [H | [H | [H | [H | []]]]]; inversion H; reflexivity.
Defined.

Lemma text_total_cost_stops_audit_witness :
  In (Some "$125.00") [Some "$125.00"; Some "$90.50"] /\
  In (StatMax 125%float)
     (printed (numeric_fields_validation (lib := Example.library)) Case.text_total) /\
  outcome (analyze_data_quality (lib := Example.library)) Case.text_total
  = Raise TypeError.
Proof.
  assert (H : In (Some "$125.00") [Some "$125.00"; Some "$90.50"])
    by (left; reflexivity).
  split; [ exact H | split ].
  - vm_compute. auto 20.
  - apply (text_total_cost_stops_audit (lib := Example.library) Case.text_total
             [Some "$125.00"; Some "$90.50"] "$125.00"
             [100; 60]%Z [20; 20]%Z [5; 10]%Z
             text_total_well_formed eq_refl H eq_refl eq_refl eq_refl).
    intros D G. discriminate G.
Defined.

(** X5: the total-cost rule is silent about missing columns.  When one of
    'Total Cost ($)', 'Reservation Cost ($)', 'Packages Cost ($)' and
    'Add Ons Cost ($)' is absent, the rule prints nothing, writes nothing
    and raises nothing, so check 9 is its banner and the packages rule; and
    without 'Packages Cost ($)' the packages rule is silent too. *)
Theorem total_cost_rule_needs_all_columns (df : DataFrame) (c : string)
        (out : list Finding) :
  In c total_cost_columns ->
  Frame.has_column c df = false ->
  total_cost_rule (mkState df out) = (Ok tt, mkState df out) /\
  logical_consistency_checks (mkState df out) =
    (Ok tt, mkState df (out ++ Banner 9 :: printed packages_rule df)) /\
  (c = "Packages Cost ($)" -> printed logical_consistency_checks df = [Banner 9]).
Proof.
  intros Hin Hc.
  assert (T : forall o, total_cost_rule (mkState df o) = (Ok tt, mkState df o)).
  { intros o. unfold total_cost_rule. audit_unfold.
    destruct (forallb (fun col => Frame.has_column col df) total_cost_columns) eqn:F.
    - rewrite forallb_forall in F. specialize (F c Hin). congruence.
    - reflexivity. }
  split; [ apply T | split ].
  - rewrite logical_run. apply T.
  - intros ->. unfold printed at 1, run. rewrite logical_run, T. cbn [snd console app].
    unfold packages_rule. audit_unfold. rewrite Hc, andb_false_r. reflexivity.
Qed.

Lemma total_cost_rule_needs_all_columns_witness :
  In "Total Cost ($)" total_cost_columns /\
  Frame.has_column "Total Cost ($)" Sample.parties = false /\
  logical_consistency_checks (mkState Sample.parties []) =
    (Ok tt, mkState Sample.parties [Banner 9]).
Proof.
  assert (H : In "Total Cost ($)" total_cost_columns) by (left; reflexivity).
  split; [ exact H | split; [ reflexivity | ] ].
  exact (proj1 (proj2 (total_cost_rule_needs_all_columns Sample.parties
                         "Total Cost ($)" [] H eq_refl))).
Defined.

(** ** Check 3: the table of missing values *)

Lemma insert_desc_perm {A} (key : A -> nat) (r : A) (l : list A) :
  Permutation (insert_desc key r l) (r :: l).
Proof.
  induction l as [ | x l IH ]; simpl; [ reflexivity | ].
  destruct (key x <=? key r)%nat; [ reflexivity | ].
  rewrite IH. apply perm_swap.
Qed.

(** Sorting rearranges. *)
Lemma sort_desc_perm {A} (key : A -> nat) (l : list A) :
  Permutation (sort_desc key l) l.
Proof.
  induction l as [ | x l IH ]; simpl; [ reflexivity | ].
  rewrite insert_desc_perm. constructor. exact IH.
Qed.

Lemma sum_nat_perm (l l' : list nat) : Permutation l l' -> sum_nat l = sum_nat l'.
Proof. induction 1; simpl; lia. Qed.

Lemma filter_perm {A} (p : A -> bool) (l l' : list A) :
  Permutation l l' -> Permutation (filter p l) (filter p l').
Proof.
  induction 1 as [ | x l l' _ IH | x y l | l l' l'' _ IH1 _ IH2 ]; simpl.
  - reflexivity.
  - destruct (p x); [ constructor | ]; exact IH.
  - destruct (p x), (p y); try reflexivity. apply perm_swap.
  - rewrite IH1. exact IH2.
Qed.

(** A column without missing value has a share of 0 or, in a frame without
    rows, [nan]: never above 20. *)
Lemma zero_share (y : float) : (20 <? 0 / y * 100)%float = false.
Proof.
  rewrite FloatAxioms.ltb_spec, FloatAxioms.mul_spec, FloatAxioms.div_spec.
  change (Prim2SF 0) with (S754_zero false).
  set (h := Prim2SF 100). vm_compute in h. subst h.
  set (t := Prim2SF 20). vm_compute in t. subst t.
  destruct (Prim2SF y) as [ s | s | | s m e ]; try destruct s; reflexivity.
Qed.

Lemma critical_has_missing (df : DataFrame) (c : string * Series) :
  is_critical (missing_row df c) = true -> has_missing (missing_row df c) = true.
Proof.
  unfold is_critical, has_missing, missing_row, missing_percent, Num.np_int_div.
  cbn [m_count m_percent].
  destruct (Ser.null_count (snd c)) as [ | n ]; [ | reflexivity ].
  change (Num.float_of_nat 0) with 0%float. rewrite zero_share. discriminate.
Qed.

Lemma missing_table_perm (df : DataFrame) :
  Permutation (missing_table df) (map (missing_row df) df).
Proof. unfold missing_table. apply sort_desc_perm. Qed.

Lemma in_missing_table (df : DataFrame) (r : MissingRow) :
  In r (missing_table df) <-> exists c, In c df /\ r = missing_row df c.
Proof.
  split.
  - intros H. apply (Permutation_in _ (missing_table_perm df)) in H.
    apply in_map_iff in H. destruct H as [c [E Hc]]. eauto.
  - intros [c [Hc ->]].
    apply (Permutation_in _ (Permutation_sym (missing_table_perm df))).
    apply in_map. exact Hc.
Qed.

Lemma total_missing (df : DataFrame) :
  sum_nat (map m_count (missing_table df)) =
  sum_nat (map (fun c => Ser.null_count (snd c)) df).
Proof.
  rewrite (sum_nat_perm _ _ (Permutation_map m_count (missing_table_perm df))).
  rewrite map_map. reflexivity.
Qed.

Lemma missing_columns_none (df : DataFrame) :
  filter has_missing (missing_table df) = [] <->
  (forall c s, In (c, s) df -> Ser.null_count s = 0).
Proof.
  split.
  - intros F c s Hin.
    destruct (Ser.null_count s) as [ | n ] eqn:N; [ reflexivity | exfalso ].
    assert (H : In (missing_row df (c, s)) (filter has_missing (missing_table df))).
    { apply filter_In. split.
      - apply in_missing_table. eauto.
      - unfold has_missing, missing_row. cbn [m_count snd]. rewrite N. reflexivity. }
    rewrite F in H. exact H.
  - intros H. apply filter_none. intros r Hr.
    apply in_missing_table in Hr. destruct Hr as [[c s] [Hc ->]].
    unfold has_missing, missing_row. cbn [m_count snd]. rewrite (H c s Hc). reflexivity.
Qed.

Lemma critical_subset (df : DataFrame) (r : MissingRow) :
  In r (filter is_critical (missing_table df)) ->
  In r (filter has_missing (missing_table df)).
Proof.
  rewrite !filter_In. intros [Hin C]. split; [ exact Hin | ].
  apply in_missing_table in Hin. destruct Hin as [c [_ ->]].
  apply critical_has_missing. exact C.
Qed.

Lemma length_zero_nil {A} (l : list A) : (0 <? length l)%nat = false <-> l = [].
Proof. destruct l; simpl; split; intros H; try reflexivity; discriminate. Qed.

(** Membership in a short list of lines: the cases that are not ruled out
    by the constructors. *)
Ltac in_cases H :=
  repeat (destruct H as [ H | H ]; [ try discriminate H | ]);
  try contradiction.


(** ** Check 10: the summary *)

Lemma filter_map_length {A B} (f : A -> B) (p : B -> bool) (l : list A) :
  length (filter p (map f l)) = length (filter (fun x => p (f x)) l).
Proof.
  induction l as [ | x l IH ]; simpl; [ reflexivity | ].
  destruct (p (f x)); simpl; rewrite IH; reflexivity.
Qed.

Lemma missing_table_count (df : DataFrame) (p : MissingRow -> bool) :
  length (filter p (missing_table df)) =
  length (filter (fun c => p (missing_row df c)) df).
Proof.
  rewrite (Permutation_length (filter_perm p _ _ (missing_table_perm df))).
  apply filter_map_length.
Qed.

Lemma app_nil_iff {A} (l l' : list A) : l ++ l' = [] <-> l = [] /\ l' = [].
Proof.
  split; [ apply app_eq_nil | intros [-> ->]; reflexivity ].
Qed.

Lemma summary_issues_nil (df : DataFrame) :
  summary_issues df (missing_table df) (duplicate_rows df) = [] <-> clean df.
Proof.
  unfold summary_issues, clean. cbv zeta.
  change (fun r : MissingRow => (0 <? m_count r)%nat) with has_missing.
  change (fun r : MissingRow => (20 <? m_percent r)%float) with is_critical.
  rewrite !app_nil_iff, <- missing_columns_none.
  assert (C : filter has_missing (missing_table df) = [] ->
              filter is_critical (missing_table df) = []).
  { intros E. destruct (filter is_critical (missing_table df)) as [ | r l ] eqn:F;
      [ reflexivity | exfalso ].
    assert (H : In r (filter has_missing (missing_table df)))
      by (apply critical_subset; rewrite F; left; reflexivity).
    rewrite E in H. exact H. }
  split.
  - intros [M [_ [D B]]].
    destruct (0 <? length (filter has_missing (missing_table df)))%nat eqn:M';
      [ discriminate M | apply length_zero_nil in M' ].
    destruct (0 <? duplicate_rows df)%nat eqn:D'; [ discriminate D | ].
    apply Nat.ltb_ge in D'.
    split; [ exact M' | split; [ lia | ] ].
    intros s G. rewrite G in B.
    destruct (0 <? Ser.duplicated_count s)%nat eqn:B'; [ discriminate B | ].
    apply Nat.ltb_ge in B'. lia.
  - intros [M [D B]]. rewrite (C M), M, D. simpl.
    repeat split.
    destruct (Frame.get "Booking ID" df) as [ s | ]; [ | reflexivity ].
    rewrite (B s eq_refl). reflexivity.
Qed.

Section Summary.

Context {lib : Library}.

(** X7: the summary counts four kinds of issue only: columns with missing
    values, columns with a critical share of them, duplicate rows and
    duplicate booking identifiers.  The audit reports that no significant
    issue was identified exactly when it gets to the summary and the frame
    has no missing cell, no duplicate row and no duplicate 'Booking ID';
    what checks 5 to 9 found (outliers, inconsistent spellings, dates,
    negative amounts, totals that do not add up, duplicate reservation
    identifiers) does not enter the summary. *)
Theorem summary_reports_clean_table (df : DataFrame) :
  let issues := summary_issues df (missing_table df) (duplicate_rows df) in
  let missing_cols := length (filter (fun c => (0 <? Ser.null_count (snd c))%nat) df) in
  let critical_cols := length (filter (fun c => is_critical (missing_row df c)) df) in
  issues =
    (if (0 <? missing_cols)%nat then [ColumnsWithMissingValues missing_cols] else []) ++
    (if (0 <? critical_cols)%nat
     then [ColumnsWithCriticalMissing critical_cols] else []) ++
    (if (0 <? duplicate_rows df)%nat
     then [DuplicateRowsDetected (duplicate_rows df)] else []) ++
    match Frame.get "Booking ID" df with
    | Some s =>
        if (0 <? Ser.duplicated_count s)%nat
        then [DuplicateBookingIDsDetected (Ser.duplicated_count s)] else []
    | None => []
    end /\
  (issues = [] <-> clean df) /\
  (In NoSignificantIssues (printed analyze_data_quality df) <->
   outcome analyze_data_quality df = Ok tt /\ clean df) /\
  (forall l, In (IssuesIdentified l) (printed analyze_data_quality df) <->
             outcome analyze_data_quality df = Ok tt /\ l = issues /\ l <> []).
Proof.
  intros issues missing_cols critical_cols.
  split; [ | split; [ apply summary_issues_nil | split ] ].
  - unfold issues, summary_issues. cbv zeta.
    change (fun r : MissingRow => (0 <? m_count r)%nat) with has_missing.
    change (fun r : MissingRow => (20 <? m_percent r)%float) with is_critical.
    rewrite !missing_table_count. reflexivity.
  - rewrite (summary_line_printed df NoSignificantIssues eq_refl).
    rewrite summary_printed, <- summary_issues_nil. fold issues.
    destruct issues as [ | i l ]; simpl; split.
    + tauto.
    + tauto.
    + intros [_ H]. in_cases H.
    + intros [_ H]. discriminate H.
  - intros l. rewrite (summary_line_printed df (IssuesIdentified l) eq_refl).
    rewrite summary_printed. fold issues.
    destruct issues as [ | i l' ]; simpl; split.
    + intros [_ H]. in_cases H.
    + intros [_ [-> N]]. contradiction.
    + intros [O H]. in_cases H. inversion H; subst.
      split; [ exact O | split; [ reflexivity | discriminate ] ].
    + intros [O [-> _]]. auto.
Qed.

End Summary.

(** ** Check 4: duplicate rows against duplicate identifiers *)

Section DuplicatedMap.

Context {A B : Type} (sameA : A -> A -> bool) (sameB : B -> B -> bool) (f : A -> B).
Hypothesis f_same : forall x y, sameA x y = true -> sameB (f x) (f y) = true.

Lemma seen_before_map (x : A) (seen : list A) :
  seen_before sameA x seen = true -> seen_before sameB (f x) (map f seen) = true.
Proof.
  unfold seen_before. rewrite !existsb_exists. intros [y [Hin Hy]].
  exists (f y). split; [ apply in_map; exact Hin | apply f_same; exact Hy ].
Qed.

(** An entry marked in a list is marked in every projection of the list. *)
Lemma duplicated_from_le_map (seen l : list A) :
  count_true (duplicated_from sameA seen l) <=
  count_true (duplicated_from sameB (map f seen) (map f l)).
Proof.
  revert seen. unfold count_true.
  induction l as [ | x l IH ]; intros seen; simpl; [ lia | ].
  specialize (IH (x :: seen)). simpl in IH.
  destruct (seen_before sameA x seen) eqn:S.
  - rewrite (seen_before_map x seen S). simpl. lia.
  - destruct (seen_before sameB (f x) (map f seen)); simpl; lia.
Qed.

End DuplicatedMap.

Lemma row_eqb_nth (k : nat) (r1 r2 : Row) :
  row_eqb r1 r2 = true -> cell_eqb (nth k r1 CNull) (nth k r2 CNull) = true.
Proof.
  revert k r2. induction r1 as [ | a r1 IH ]; intros k [ | b r2 ]; simpl;
    try discriminate.
  - intros _. destruct k; reflexivity.
  - intros H. apply andb_true_iff in H. destruct H as [H1 H2].
    destruct k as [ | k ]; [ exact H1 | apply IH; exact H2 ].
Qed.

Lemma map_nth_seq {A} (l : list A) (d : A) :
  map (fun i => nth i l d) (seq 0 (length l)) = l.
Proof.
  apply (nth_ext _ _ d d).
  - rewrite length_map, length_seq. reflexivity.
  - intros n Hn. rewrite length_map, length_seq in Hn.
    rewrite (nth_indep _ d (nth 0 l d))
      by (rewrite length_map, length_seq; exact Hn).
    rewrite (map_nth (fun i => nth i l d) (seq 0 (length l)) 0 n).
    rewrite seq_nth by exact Hn. reflexivity.
Qed.

Lemma cells_length (s : Series) : length (Ser.cells s) = Ser.len s.
Proof. destruct s; simpl; apply length_map. Qed.

(** The cells of column [k], read off the rows. *)
Lemma column_of_rows (df : DataFrame) (k : nat) (c : string) (s : Series) :
  Frame.well_formed df -> nth_error df k = Some (c, s) ->
  map (fun r => nth k r CNull) (Frame.rows df) = Ser.cells s.
Proof.
  intros W H. unfold Frame.rows. rewrite map_map.
  assert (L : Frame.nrows df = length (Ser.cells s)).
  { rewrite cells_length. symmetry. apply (W c s). eapply nth_error_In. exact H. }
  rewrite L. rewrite <- (map_nth_seq (Ser.cells s) CNull) at 2.
  apply map_ext. intros i. unfold Frame.row.
  erewrite nth_error_nth by (rewrite nth_error_map, H; reflexivity).
  reflexivity.
Qed.

Lemma duplicate_rows_le_column (df : DataFrame) (c : string) (s : Series) :
  Frame.well_formed df -> In (c, s) df ->
  duplicate_rows df <= Ser.duplicated_count s.
Proof.
  intros W Hin. apply In_nth_error in Hin. destruct Hin as [k Hk].
  unfold duplicate_rows, Ser.duplicated_count, duplicated.
  rewrite <- (column_of_rows df k c s W Hk).
  apply (duplicated_from_le_map row_eqb cell_eqb (fun r => nth k r CNull)
           (row_eqb_nth k) [] (Frame.rows df)).
Qed.

Lemma rows_length (df : DataFrame) : length (Frame.rows df) = Frame.nrows df.
Proof. unfold Frame.rows. rewrite length_map, length_seq. reflexivity. Qed.

(** X8: a row that repeats an earlier row repeats it in every column.  The
    number of complete duplicate rows that check 4 prints is at most the
    number of duplicates of any single column, so at most the number of
    duplicate booking identifiers printed on the next line; together with
    the number of distinct rows it makes up the number of rows, and the
    first row is never counted. *)
Theorem duplicate_rows_bounds (df : DataFrame) :
  Frame.well_formed df ->
  duplicate_rows df + length (unique row_eqb (Frame.rows df)) = Frame.nrows df /\
  duplicate_rows df <= Frame.nrows df - 1 /\
  (forall c s, In (c, s) df -> duplicate_rows df <= Ser.duplicated_count s) /\
  (forall n p m,
     In (CompleteDuplicates n p) (printed duplicate_records_analysis df) ->
     In (DuplicateBookingIDs m) (printed duplicate_records_analysis df) ->
     n <= m).
Proof.
  intros W.
  pose proof (duplicated_plus_unique row_eqb (Frame.rows df)) as U.
  rewrite rows_length in U. fold (duplicate_rows df) in U.
  split; [ exact U | split; [ | split ] ].
  - pose proof (rows_length df) as L.
    destruct (Frame.rows df) as [ | r l ] eqn:R; simpl in U, L; lia.
  - intros c s. apply duplicate_rows_le_column. exact W.
  - intros n p m. rewrite duplicate_records_printed. unfold identifier_line.
    destruct (Frame.get "Booking ID" df) as [ s | ] eqn:G;
      destruct (Frame.get "Reservation ID" df) as [ s' | ];
      simpl; intros H1 H2; in_cases H1; in_cases H2.
    all: inversion H1; inversion H2; subst.
    all: rewrite <- series_duplicated_count.
    all: apply (duplicate_rows_le_column df "Booking ID" s W), get_in; exact G.
Qed.

Lemma bookings_well_formed : Frame.well_formed Sample.bookings.
Proof.
  intros c s [H | [H | []]]; inversion H; reflexivity.
Defined.

Lemma duplicate_rows_bounds_witness :
  duplicate_rows Sample.bookings = 1 /\
  Ser.duplicated_count (Int64 [7; 8; 7]%Z) = 1 /\
  duplicate_rows Sample.bookings <= Ser.duplicated_count (Int64 [7; 8; 7]%Z).
Proof.
  split; [ reflexivity | split; [ reflexivity | ] ].
  apply (proj1 (proj2 (proj2 (duplicate_rows_bounds Sample.bookings
                                bookings_well_formed))) "Booking ID").
  left. reflexivity.
Defined.

(** ** Check 6: the value distribution *)










Lemma consistency_column_skipped (df : DataFrame) (col : string) (s : Series) :
  Frame.get col df = Some s ->
  Ser.nunique s <= 1 \/ 20 <= Ser.nunique s ->
  printed (consistency_column col) df = [].
Proof.
  intros G H. unfold consistency_column. audit_unfold. rewrite G.
  assert (C : ((1 <? Ser.nunique s)%nat && (Ser.nunique s <? 20)%nat) = false).
  { apply andb_false_iff. destruct H as [H | H]; [ left | right ];
      apply Nat.ltb_ge; lia. }
  rewrite C. reflexivity.
Qed.



(** ** Check 8: negative values, and columns of flags *)

Lemma negative_count_floats (num : Series) (v : list float) :
  Ser.floats num = Some v ->
  negative_count num = length (filter (fun x => (x <? 0)%float) v).
Proof.
  unfold negative_count, nums_of.
  destruct num as [ z | f | b | o ]; simpl; intros H; inversion H; subst.
  - rewrite <- (map_map Num.NInt Num.to_float), !filter_map_length. reflexivity.
  - rewrite filter_map_length. reflexivity.
Qed.

Section NegativeValues.

Context {lib : Library}.

(** X10: for a numeric-hinted column whose coercion and statistics
    succeed, check 8 warns about negative values exactly when the lowercased
    column name contains 'cost', 'price', 'amount' or 'size' and at least one
    value is below zero; the warning carries the number of such values
    (missing values are not counted) and its share of the rows.  A column
    hinted by 'charge' or 'days' alone never gets the warning. *)
Theorem negative_values_reported (df : DataFrame) (col : string)
        (s num : Series) (v : list float) :
  Frame.get col df = Some s ->
  numeric_series s = Ok num ->
  Ser.floats num = Some v ->
  let negatives := length (filter (fun x => (x <? 0)%float) v) in
  (forall n c p,
     In (NegativeValues n c p) (printed (numeric_column col) df) <->
     should_be_positive col = true /\ 0 < negatives /\ n = negatives /\ c = col /\
     p = (Num.np_int_div negatives (Frame.nrows df) * 100)%float) /\
  (should_be_positive col = true <->
   exists k, In k ["cost"; "price"; "amount"; "size"] /\
             PyStr.contains k (PyStr.lower col) = true).
Proof.
  intros G N F negatives.
  pose proof (negative_count_floats num v F) as C. fold negatives in C.
  split.
  - intros n c p. rewrite (numeric_column_printed df col s num v G N F).
    assert (A : ~ In (NegativeValues n c p) (statistics_lines col num)).
    { unfold statistics_lines. destruct (describe num); simpl;
        intros H; in_cases H. }
    assert (B : ~ In (NegativeValues n c p) (zero_line num df)).
    { unfold zero_line. destruct (0 <? zero_count num)%nat; simpl;
        intros H; in_cases H. }
    rewrite !in_app_iff. unfold negative_line. rewrite C.
    destruct (should_be_positive col); cbn [andb].
    + destruct (0 <? negatives)%nat eqn:Z; simpl.
      * apply Nat.ltb_lt in Z. split.
        -- intros [H | [H | H]]; [ contradiction | | contradiction ].
           in_cases H. inversion H; subst. auto.
        -- intros [_ [_ [-> [-> ->]]]]. auto.
      * apply Nat.ltb_ge in Z. split.
        -- intros [H | [H | H]]; contradiction.
        -- intros [_ [H _]]. lia.
    + split.
      * intros [H | [H | H]]; contradiction.
      * intros [H _]. discriminate H.
  - unfold should_be_positive, PyStr.any_keyword. apply existsb_exists.
Qed.

(** X11: a column of flags ([bool]) passes the numeric test of line 235,
    but its description has a count and no mean.  For such a column under
    a numeric-hinted name, check 8 prints the header and the count, fails on
    the mean with [KeyError], and reports that it could not analyze the
    column; the check itself goes on. *)
Theorem boolean_column_has_no_statistics (df : DataFrame) (col : string)
        (b : list bool) :
  Frame.get col df = Some (Boolean b) ->
  outcome (numeric_report col) df = Raise KeyError /\
  printed (numeric_column col) df =
    [StatisticsHeader col; StatCount (length b); CouldNotAnalyzeNumeric col KeyError] /\
  outcome (numeric_column col) df = Ok tt.
Proof.
  intros G.
  assert (R : run (numeric_report col) df =
              (Raise KeyError,
               mkState df [StatisticsHeader col; StatCount (length b)])).
  { unfold run, numeric_report. audit_unfold. rewrite G. audit_unfold.
    unfold numeric_series, coercion_of. cbn. unfold Ser.dropna. cbn.
    rewrite filter_all by (intros c Hc; apply in_map_iff in Hc;
                           destruct Hc as [x [<- _]]; reflexivity).
    rewrite length_map. reflexivity. }
  assert (H : Frame.has_column col df = true) by (rewrite has_column_get, G; reflexivity).
  split; [ unfold outcome; rewrite R; reflexivity | split ].
  - rewrite (numeric_column_printed_guard col df H).
    unfold printed at 1, outcome. rewrite R. reflexivity.
  - apply never_raises_outcome, nr_numeric_column.
Qed.

End NegativeValues.

Lemma negative_values_witness :
  Frame.get "Total Cost ($)" Case.refund = Some (Float64 [-5; 10; nan]%float) /\
  In (NegativeValues 1 "Total Cost ($)" (Num.np_int_div 1 3 * 100)%float)
     (printed (numeric_column (lib := Example.library) "Total Cost ($)") Case.refund) /\
  should_be_positive "Late Charge" = false.
Proof.
  split; [ reflexivity | split; [ | reflexivity ] ].
  apply (proj1 (negative_values_reported (lib := Example.library) Case.refund
                  "Total Cost ($)" (Float64 [-5; 10; nan]%float)
                  (Float64 [-5; 10; nan]%float) [-5; 10; nan]%float
                  eq_refl eq_refl eq_refl)).
  repeat split. vm_compute. lia.
Defined.

Lemma boolean_column_witness :
  Frame.get "Free Days Included" Case.free_days = Some (Boolean [true; false; true]) /\
  printed (numeric_column (lib := Example.library) "Free Days Included") Case.free_days =
  [StatisticsHeader "Free Days Included"; StatCount 3;
   CouldNotAnalyzeNumeric "Free Days Included" KeyError].
Proof.
  split; [ reflexivity | ].
  exact (proj1 (proj2 (boolean_column_has_no_statistics (lib := Example.library)
                         Case.free_days "Free Days Included"
                         [true; false; true] eq_refl))).
Defined.

(** ** A file with a header line and no record *)

Lemma flat_map_nil {A B} (f : A -> list B) (l : list A) :
  (forall x, In x l -> f x = []) -> flat_map f l = [].
Proof.
  induction l as [ | x l IH ]; simpl; intros H; [ reflexivity | ].
  rewrite (H x) by auto. apply IH. auto.
Qed.

Lemma flat_map_singleton {A B} (f : A -> list B) (g : A -> B) (l : list A) :
  (forall x, In x l -> f x = [g x]) -> flat_map f l = map g l.
Proof.
  induction l as [ | x l IH ]; simpl; intros H; [ reflexivity | ].
  rewrite (H x) by auto. simpl. f_equal. apply IH. auto.
Qed.

Lemma no_record_nrows (df : DataFrame) :
  (forall c s, In (c, s) df -> s = Object []) -> Frame.nrows df = 0.
Proof.
  destruct df as [ | [c s] rest ]; intros H; [ reflexivity | ].
  simpl. rewrite (H c s); [ reflexivity | ]. left. reflexivity.
Qed.

Section HeaderOnly.

Context {lib : Library}.

Variable df : DataFrame.
Hypothesis no_record : forall c s, In (c, s) df -> s = Object [].

Lemma header_only_get (c : string) (s : Series) :
  Frame.get c df = Some s -> s = Object [].
Proof. intros G. apply (no_record c). apply get_in. exact G. Qed.

Lemma header_only_nrows : Frame.nrows df = 0.
Proof. apply no_record_nrows. exact no_record. Qed.

Lemma header_only_outliers : printed outlier_detection df = [Banner 5].
Proof.
  unfold outlier_detection.
  destruct (bind_run (print (Banner 5))
              (fun _ => for_each key_numeric_cols outlier_column) df
              (ro_print _) (fun _ => ro_for_each _ _ ro_outlier_column)) as [_ Q].
  rewrite Q, for_each_printed by auto using ro_outlier_column, nr_outlier_column.
  cbn [printed outcome run print fst snd console app frame].
  rewrite flat_map_nil; [ reflexivity | ].
  intros col _. unfold outlier_column, numeric_column_present. audit_unfold.
  destruct (Frame.get col df) as [ s | ] eqn:G; [ | reflexivity ].
  rewrite (header_only_get col s G). reflexivity.
Qed.

Lemma header_only_consistency : printed value_consistency_checks df = [Banner 6].
Proof.
  unfold value_consistency_checks.
  assert (R : forall col, read_only (consistency_column col))
    by (intros col; unfold consistency_column, variation_report; read_only_tac).
  assert (E : forall col, In col (categorical_cols df) ->
                          ends_normally_on df (consistency_column col)).
  { intros col H. unfold consistency_column, variation_report. repeat en_step. }
  rewrite (proj2 (seq_ok read_frame _ df df ro_read_frame
                    (fun a => ro_bind _ _ (ro_print _)
                                (fun _ => ro_for_each _ _ R)) eq_refl)).
  rewrite (proj2 (seq_ok (print (Banner 6)) _ df tt (ro_print _)
                    (fun _ => ro_for_each _ _ R) eq_refl)).
  rewrite (for_each_printed_on df _ _ R E).
  cbn [printed outcome run print read_frame fst snd console app frame].
  rewrite flat_map_nil; [ reflexivity | ].
  intros col H. apply categorical_in_columns in H.
  destruct (in_columns_get col df H) as [s G].
  apply (consistency_column_skipped df col s G).
  rewrite (header_only_get col s G). left. vm_compute. lia.
Qed.

Lemma header_only_numeric :
  printed numeric_fields_validation df =
  Banner 8 :: map (fun col => CouldNotAnalyzeNumeric col IndexError) (numeric_columns df).
Proof.
  unfold numeric_fields_validation.
  rewrite (loop_printed 8 numeric_columns numeric_column df)
    by auto using ro_numeric_column, nr_numeric_column.
  f_equal. apply flat_map_singleton. intros col H.
  apply hinted_in_columns in H. destruct (in_columns_get col df H) as [s G].
  assert (P : Frame.has_column col df = true) by (rewrite has_column_get, G; reflexivity).
  rewrite (numeric_column_printed_guard col df P).
  rewrite (header_only_get col s G) in G.
  assert (R : run (numeric_report col) df = (Raise IndexError, mkState df [])).
  { unfold run, numeric_report. audit_unfold. rewrite G. reflexivity. }
  unfold printed, outcome. rewrite R. reflexivity.
Qed.

Lemma header_only_packages : printed packages_rule df = [].
Proof.
  unfold packages_rule. audit_unfold. rewrite !has_column_get.
  destruct (Frame.get "Packages" df) as [ s | ] eqn:E1;
    destruct (Frame.get "Packages Cost ($)" df) as [ s' | ] eqn:E2;
    cbn [andb]; audit_unfold; rewrite ?E1, ?E2; try reflexivity.
  rewrite (header_only_get _ _ E1). reflexivity.
Qed.

Lemma header_only_total_cost_rule :
  outcome total_cost_rule df = Ok tt /\ printed total_cost_rule df = [].
Proof.
  unfold outcome, printed, run, total_cost_rule, total_cost_columns.
  repeat first
    [ rewrite has_column_get
    | rewrite get_set_same
    | rewrite get_set_other by reflexivity
    | progress cbn [frame console fst snd app andb forallb when rbind traverse combine
                    Arith.add Arith.sub Arith.abs Arith.gt Arith.as_nums Arith.with_text
                    count_true filter length Nat.ltb Nat.leb]
    | progress unfold bind, ret, print, when, getitem, read_frame, setitem, lift,
                      Frame.getitem
    | match goal with
      | H : Frame.get ?c df = _ |- context [ Frame.get ?c df ] => rewrite H
      | |- context [ match Frame.get ?c df with _ => _ end ] =>
          let E := fresh "E" in
          destruct (Frame.get c df) as [ ? | ] eqn:E;
          [ pose proof (header_only_get _ _ E); subst | ]
      end ];
    auto.
Qed.

Lemma header_only_clean : clean df.
Proof.
  split; [ | split ].
  - intros c s H. rewrite (no_record c s H). reflexivity.
  - unfold duplicate_rows, Frame.rows. rewrite header_only_nrows. reflexivity.
  - intros s G. rewrite (header_only_get _ _ G). reflexivity.
Qed.

(** X12: a file with a header line and no record loads as a frame whose
    columns are all text and empty.  On such a frame checks 5 and 6 print
    their banner only; check 8 reports for every numeric-hinted column that
    it could not analyze it, the probe of the first row raising
    [IndexError]; check 9 finds nothing to compare; and the audit ends
    normally, reporting that no significant issue was identified. *)
Theorem header_only_file_audit :
  Frame.nrows df = 0 /\
  printed outlier_detection df = [Banner 5] /\
  printed value_consistency_checks df = [Banner 6] /\
  printed numeric_fields_validation df =
    Banner 8 :: map (fun col => CouldNotAnalyzeNumeric col IndexError)
                    (numeric_columns df) /\
  printed logical_consistency_checks df = [Banner 9] /\
  outcome analyze_data_quality df = Ok tt /\
  In NoSignificantIssues (printed analyze_data_quality df).
Proof.
  destruct header_only_total_cost_rule as [O P].
  assert (A : outcome analyze_data_quality df = Ok tt)
    by (rewrite (proj1 (audit_run_outcome df)), logical_outcome; exact O).
  split; [ exact header_only_nrows | ].
  split; [ exact header_only_outliers | ].
  split; [ exact header_only_consistency | ].
  split; [ exact header_only_numeric | ].
  split; [ rewrite logical_printed, header_only_packages, P; reflexivity | ].
  split; [ exact A | ].
  apply (summary_line_printed df NoSignificantIssues eq_refl).
  split; [ exact A | ].
  rewrite summary_printed, (proj2 (summary_issues_nil df) header_only_clean).
  right. left. reflexivity.
Qed.

End HeaderOnly.

Lemma header_only_file_witness :
  (forall c s, In (c, s) Sample.no_rows -> s = Object []) /\
  printed (numeric_fields_validation (lib := Example.library)) Sample.no_rows =
    [Banner 8; CouldNotAnalyzeNumeric "Total Cost ($)" IndexError] /\
  outcome (analyze_data_quality (lib := Example.library)) Sample.no_rows = Ok tt.
Proof.
  assert (H : forall c s, In (c, s) Sample.no_rows -> s = Object []).
  { intros c s [E | [E | []]]; inversion E; reflexivity. }
  split; [ exact H | ].
  pose proof (header_only_file_audit (lib := Example.library) Sample.no_rows H) as T.
  split; [ exact (proj1 (proj2 (proj2 (proj2 T)))) | ].
  exact (proj1 (proj2 (proj2 (proj2 (proj2 (proj2 T)))))).
Defined.

(** ** Check 7: the range of dates *)








Section DateRange.

Context {lib : Library}.



End DateRange.


(** ** Check 2: candidates by name *)

Lemma prefix_spec (a s : string) :
  String.prefix a s = true <-> exists post, s = (a ++ post)%string.
Proof.
  revert s. induction a as [ | c a IH ]; intros s.
  - split; [ intros _; exists s; reflexivity | destruct s; reflexivity ].
  - destruct s as [ | d s ]; simpl.
    + split; [ discriminate | intros [post H]; discriminate H ].
    + destruct (Ascii.ascii_dec c d) as [ -> | N ].
      * rewrite IH. split; intros [post H]; exists post.
        -- rewrite H. reflexivity.
        -- inversion H. reflexivity.
      * split; [ discriminate | intros [post H] ]. inversion H. congruence.
Qed.

Lemma contains_spec (sub s : string) :
  PyStr.contains sub s = true <-> is_substring sub s.
Proof.
  unfold is_substring. split.
  - induction s as [ | c s IH ]; cbn [PyStr.contains]; intros H;
      apply orb_true_iff in H; destruct H as [H | H]; try discriminate H.
    + apply prefix_spec in H. destruct H as [post H]. exists ""%string, post. exact H.
    + apply prefix_spec in H. destruct H as [post H]. exists ""%string, post. exact H.
    + destruct (IH H) as [pre [post E]]. exists (String c pre), post.
      rewrite E. reflexivity.
  - intros [pre [post E]]. revert s E. induction pre as [ | c pre IH ]; intros s E.
    + assert (P : String.prefix sub s = true) by (apply prefix_spec; eauto).
      destruct s; cbn [PyStr.contains]; rewrite P; reflexivity.
    + subst s. cbn [PyStr.contains append]. rewrite (IH _ eq_refl). apply orb_true_r.
Qed.

Lemma any_keyword_spec (keywords : list string) (name : string) :
  PyStr.any_keyword keywords name = true <->
  exists k, In k keywords /\ is_substring k (PyStr.lower name).
Proof.
  unfold PyStr.any_keyword. rewrite existsb_exists.
  split; intros [k [I H]]; exists k; (split; [ exact I | ]); apply contains_spec; exact H.
Qed.

Section TypeIssues.

Variable df : DataFrame.

(** The lines of one loop of check 2. *)
Lemma issue_loop (l : list string) (role : Role) (accept : Series -> bool) :
  (forall c, In c l -> In c (Frame.columns df)) ->
  let loop := for_each l (fun col =>
                s <- getitem col ;;
                when (accept s) (print (TypeIssue col role (Ser.dtype s)))) in
  outcome loop df = Ok tt /\
  forall col r d,
    In (TypeIssue col r d) (printed loop df) <->
    r = role /\ In col l /\
    exists s, Frame.get col df = Some s /\ accept s = true /\ Ser.dtype s = d.
Proof.
  intros Hl loop.
  assert (E : forall x, In x l ->
                ends_normally_on df (s <- getitem x ;;
                                     when (accept s)
                                          (print (TypeIssue x role (Ser.dtype s))))).
  { intros x Hx. repeat en_step. }
  split.
  - apply en_unit, en_for_each; [ intro; read_only_tac | exact E ].
  - intros col r d. unfold loop.
    rewrite for_each_printed_on; [ | intro; read_only_tac | exact E ].
    rewrite in_flat_map. split.
    + intros [x [Hx H]]. destruct (in_columns_get x df (Hl x Hx)) as [s G].
      revert H. audit_unfold. rewrite G. destruct (accept s) eqn:A; simpl; [ | tauto ].
      intros [H | []]. inversion H; subst. eauto 6.
    + intros [-> [Hc [s [G [A <-]]]]]. exists col. split; [ exact Hc | ].
      audit_unfold. rewrite G, A. left. reflexivity.
Qed.

Lemma data_types_printed :
  let issues role accept :=
    printed (for_each (filter (PyStr.any_keyword (role_keywords role)) (Frame.columns df))
               (fun col =>
                  s <- getitem col ;;
                  when (accept s) (print (TypeIssue col role (Ser.dtype s))))) df in
  printed data_types_analysis df =
  [Banner 2; ColumnTypes (map (fun c => (fst c, Ser.dtype (snd c))) df)] ++
  issues DateLike (dtype_is object) ++ issues NumericLike (dtype_is object) ++
  issues BooleanLike (fun s => negb (dtype_is bool_ s)).
Proof.
  intros issues. unfold printed at 1, run, data_types_analysis.
  unfold date_columns, numeric_columns, boolean_columns.
  change date_keywords with (role_keywords DateLike).
  change numeric_keywords with (role_keywords NumericLike).
  change boolean_keywords with (role_keywords BooleanLike).
  pose proof (fun role accept =>
                proj1 (issue_loop (filter (PyStr.any_keyword (role_keywords role))
                                          (Frame.columns df)) role accept
                                  (hinted_in_columns _ df))) as O.
  cbv zeta in O.
  assert (R : forall role accept,
             read_only (for_each (filter (PyStr.any_keyword (role_keywords role))
                                         (Frame.columns df))
                          (fun col =>
                             s <- getitem col ;;
                             when (accept s) (print (TypeIssue col role (Ser.dtype s))))))
    by (intros; apply ro_for_each; intro; read_only_tac).
  unfold bind at 1. cbn [read_frame frame fst snd].
  rewrite (then_any (print (Banner 2)) _ df [] tt (ro_print _) eq_refl).
  rewrite (then_any (print (ColumnTypes _)) _ df _ tt (ro_print _) eq_refl).
  rewrite (then_any _ _ df _ tt (R DateLike (dtype_is object))
                    (O DateLike (dtype_is object))).
  rewrite (then_any _ _ df _ tt (R NumericLike (dtype_is object))
                    (O NumericLike (dtype_is object))).
  rewrite (R BooleanLike (fun s => negb (dtype_is bool_ s)) (mkState df _)).
  cbn [snd console frame].
  unfold issues. cbn [printed]. rewrite <- !app_assoc. reflexivity.
Qed.

End TypeIssues.

Lemma dtype_is_object (s : Series) : dtype_is object s = true <-> Ser.dtype s = object.
Proof. destruct s; cbv; split; intros H; (discriminate H || reflexivity). Qed.

Lemma dtype_is_not_bool (s : Series) :
  negb (dtype_is bool_ s) = true <-> Ser.dtype s <> bool_.
Proof.
  destruct s; cbv; split; intros H; try reflexivity; try discriminate H;
    try (intros N; discriminate N); exfalso; apply H; reflexivity.
Qed.

(** X14: the lines of check 2 that question a column's type.  A column is
    reported as a possible date, number or flag exactly when its name, in
    lower case, holds one of the keywords of that role anywhere inside it (not
    only as a word) and its dtype is text for dates and numbers, anything but
    [bool] for flags.  So the amount "Promo Code Discount ($)", whose name holds
    "is", is reported as a possible flag whenever it is in the table and not
    [bool], and "Reservation Cost ($)", whose name holds "at", as a possible
    date whenever it is text. *)
Theorem type_issues_follow_names (df : DataFrame) :
  (forall col role d,
     In (TypeIssue col role d) (printed data_types_analysis df) <->
     In col (Frame.columns df) /\
     (exists k, In k (role_keywords role) /\ is_substring k (PyStr.lower col)) /\
     (exists s, Frame.get col df = Some s /\ Ser.dtype s = d) /\
     role_mismatch role d) /\
  (forall s, Frame.get "Promo Code Discount ($)" df = Some s -> Ser.dtype s <> bool_ ->
             In (TypeIssue "Promo Code Discount ($)" BooleanLike (Ser.dtype s))
                (printed data_types_analysis df)) /\
  (forall s, Frame.get "Reservation Cost ($)" df = Some s -> Ser.dtype s = object ->
             In (TypeIssue "Reservation Cost ($)" DateLike object)
                (printed data_types_analysis df)).
Proof.
  assert (M : forall col role d,
     In (TypeIssue col role d) (printed data_types_analysis df) <->
     In col (Frame.columns df) /\
     (exists k, In k (role_keywords role) /\ is_substring k (PyStr.lower col)) /\
     (exists s, Frame.get col df = Some s /\ Ser.dtype s = d) /\
     role_mismatch role d).
  { intros col role d. rewrite data_types_printed. cbv zeta.
    rewrite !in_app_iff.
    rewrite !(proj2 (issue_loop df _ _ _ (hinted_in_columns _ df))).
    setoid_rewrite filter_In. setoid_rewrite any_keyword_spec.
    setoid_rewrite dtype_is_object. setoid_rewrite dtype_is_not_bool.
    split.
    - intros [H | [H | [H | H]]].
      + in_cases H.
      + destruct H as [-> [[Hc K] [s [G [A <-]]]]]. simpl. eauto 10.
      + destruct H as [-> [[Hc K] [s [G [A <-]]]]]. simpl. eauto 10.
      + destruct H as [-> [[Hc K] [s [G [A <-]]]]]. simpl. eauto 10.
    - intros [Hc [K [[s [G <-]] R]]]. right.
      destruct role; simpl in R; [ left | right; left | right; right ]; eauto 10. }
  split; [ exact M | split ].
  - intros s G B. apply M. split; [ | split; [ | split ] ].
    + apply get_in in G. unfold Frame.columns.
      change "Promo Code Discount ($)"%string with (fst ("Promo Code Discount ($)"%string, s)).
      apply in_map. exact G.
    + exists "is"%string. split; [ simpl; auto | ].
      exists "promo code d"%string, "count ($)"%string. reflexivity.
    + eauto.
    + exact B.
  - intros s G B. apply M. split; [ | split; [ | split ] ].
    + apply get_in in G. unfold Frame.columns.
      change "Reservation Cost ($)"%string with (fst ("Reservation Cost ($)"%string, s)).
      apply in_map. exact G.
    + exists "at"%string. split; [ simpl; auto | ].
      exists "reserv"%string, "ion cost ($)"%string. reflexivity.
    + eauto.
    + reflexivity.
Qed.

Lemma type_issues_witness :
  In (TypeIssue "Promo Code Discount ($)" BooleanLike int64)
     (printed data_types_analysis (Sample.costs 115)) /\
  In (TypeIssue "Total Cost ($)" NumericLike object)
     (printed data_types_analysis Case.text_total).
Proof.
  split.
  - apply (proj1 (proj2 (type_issues_follow_names (Sample.costs 115)))
                 (Int64 [10]%Z) eq_refl).
    discriminate.
  - apply (proj1 (type_issues_follow_names Case.text_total)).
    split; [ simpl; auto | split; [ | split ] ].
    + exists "cost"%string. split; [ simpl; auto | ].
      exists "total "%string, " ($)"%string. reflexivity.
    + eexists. split; reflexivity.
    + reflexivity.
Defined.

(** ** Check 9: the packages rule *)

Lemma filter_combine_map {A C} (f : A -> bool) (g : C -> bool)
      (a : list A) (c : list C) :
  length (filter (fun p => fst p && g (snd p)) (combine (map f a) c)) =
  length (filter (fun r => f (fst r) && g (snd r)) (combine a c)).
Proof.
  revert c. induction a as [ | x a IH ]; intros [ | y c ]; simpl; auto.
  destruct (f x && g y); simpl; rewrite IH; reflexivity.
Qed.

Lemma text_never_zero (v : list (option string)) (l : list Cell) :
  filter (fun r : Cell * Cell => names_package (fst r) && equals_zero (snd r))
         (combine l (Ser.cells (Object v))) = [].
Proof.
  revert l. simpl. induction v as [ | o v IH ]; intros [ | x l ]; simpl; auto.
  destruct o; simpl; rewrite andb_false_r; apply IH.
Qed.

Lemma no_package_named (l c : list Cell) :
  Forall (fun x => names_package x = false) l ->
  filter (fun r : Cell * Cell => names_package (fst r) && equals_zero (snd r))
         (combine l c) = [].
Proof.
  intros F. revert c. induction F as [ | x l Hx _ IH ]; intros [ | y c ]; simpl; auto.
  rewrite Hx. simpl. apply IH.
Qed.

(** X15: the packages rule of check 9, on a table with the columns
    "Packages" and "Packages Cost ($)".  It counts the rows whose package is
    neither missing nor the empty text and whose cost equals zero, and prints
    the warning, with that count, exactly when there is such a row.  A cost
    column held as text (such as "$0.00") is never counted, and neither is
    a table whose packages are all missing or empty.  The rule never fails. *)
Theorem packages_rule_report (df : DataFrame) (packages cost : Series) :
  Frame.get "Packages" df = Some packages ->
  Frame.get "Packages Cost ($)" df = Some cost ->
  let flagged := packages_without_cost packages cost in
  let lines := printed packages_rule df in
  lines = (if (0 <? length flagged)%nat
           then [PackagesWithoutCost (length flagged)] else []) /\
  outcome packages_rule df = Ok tt /\
  (forall n, In (PackagesWithoutCost n) lines <-> n = length flagged /\ 0 < n) /\
  (forall v, cost = Object v -> lines = []) /\
  (Forall (fun c => names_package c = false) (Ser.cells packages) -> lines = []).
Proof.
  intros G1 G2 flagged lines.
  assert (P : lines = (if (0 <? length flagged)%nat
                       then [PackagesWithoutCost (length flagged)] else [])).
  { unfold lines, flagged, packages_without_cost, packages_rule. audit_unfold.
    rewrite !has_column_get, G1, G2. cbn [andb]. audit_unfold. rewrite G1.
    audit_unfold. rewrite G2. audit_unfold. cbv zeta.
    unfold names_package. rewrite filter_combine_map.
    destruct (0 <? _)%nat; reflexivity. }
  split; [ exact P | split; [ apply packages_rule_outcome | split; [ | split ] ] ].
  - intros n. rewrite P. destruct (0 <? length flagged)%nat eqn:F; simpl.
    + apply Nat.ltb_lt in F. split.
      * intros [H | []]. inversion H. auto.
      * intros [-> _]. auto.
    + apply Nat.ltb_ge in F. split; [ tauto | lia ].
  - intros v ->. rewrite P. unfold flagged, packages_without_cost.
    rewrite text_never_zero. reflexivity.
  - intros N. rewrite P. unfold flagged, packages_without_cost.
    rewrite (no_package_named _ _ N). reflexivity.
Qed.

Lemma packages_rule_witness :
  printed packages_rule Case.with_packages = [PackagesWithoutCost 2].
Proof.
  rewrite (proj1 (packages_rule_report Case.with_packages
                    (Object [Some "Spa"; Some ""; None; Some "Golf"; Some "Spa"])
                    (Int64 [0; 0; 0; 50; 0]%Z) eq_refl eq_refl)).
  reflexivity.
Defined.
